(** * bounces: two squares launched at each other in a walled arena

    Shallow embedding of the two page sources of the repository,
    [src/pages/index.tsx] (module [Index]) and the second copy of the page,
    [src/unnamed/part_000] (module [Part000]), together with the part of the
    matter-js and browser API that the pages call.

    Conventions of the embedding.
    - A JavaScript number is an exact rational ([Q]); the literals of the
      source ([0.9], [1.2], [1/1.2], [1000], ...) are written as they are.
      Rounding of binary floating point is outside the model, so equalities
      between numbers are stated with [==].
    - A JavaScript object that is shared by reference (a matter-js body, an
      engine, a renderer) lives in a store of the page state and is named by
      its index there; closures capture indices.
    - matter-js is a dependency, not part of the repository.  Module
      [Matter] transcribes the documented behaviour of exactly the calls the
      pages make; the numerical solver of [Engine.update] is not transcribed:
      what it does to positions and velocities is an input of the step
      function, and the angle of a body is not tracked. *)

From Stdlib Require Import QArith Qminmax Qabs Qpower Qfield Lqa Lia List String Bool.
From stdpp Require Import base option list.
Import ListNotations.

Local Open Scope string_scope.
Local Open Scope list_scope.
Local Open Scope Q_scope.

(* ===================================================================== *)
(** * The matter-js calls used by the pages *)
(* ===================================================================== *)

Module Matter.

Module Vector.
Record t : Type := mk { x : Q; y : Q }.
End Vector.

Module Body.

(** The fields of a matter-js body that the pages or the calls below
    read or write.  The vertices of a body are kept as the extent of
    their bounding box ([width], [height]) about [position]. *)
Record t : Type := mk {
  label : string;
  isStatic : bool;
  restitution : Q;
  friction : Q;
  frictionAir : Q;
  position : Vector.t;
  velocity : Vector.t;
  width : Q;
  height : Q;
  area : Q;
  mass : Q;
  density : Q
}.

(** [Body.setMass(body, mass)]: stores the mass and recomputes the
    density from the area. *)
Definition setMass (body : t) (m : Q) : t :=
  mk (label body) (isStatic body) (restitution body) (friction body)
     (frictionAir body) (position body) (velocity body)
     (width body) (height body) (area body)
     m (m / area body).

(** [Body.setStatic(body, true)], which [Body.create] runs on a body whose
    options say [isStatic: true]: the body gets restitution 0, friction 1 and
    an infinite mass and density.  The embedding has no infinite rational and
    stores [0] for the two; nothing below reads the mass of a static body. *)
Definition setStatic (body : t) : t :=
  mk (label body) true 0 1
     (frictionAir body) (position body) (velocity body)
     (width body) (height body) (area body)
     0 0.

(** [Body.setVelocity(body, velocity)]. *)
Definition setVelocity (body : t) (v : Vector.t) : t :=
  mk (label body) (isStatic body) (restitution body) (friction body)
     (frictionAir body) (position body) v
     (width body) (height body) (area body)
     (mass body) (density body).

(** [Body.scale(body, scaleX, scaleY)], about the default point, the
    body's own position: "Scales the body, including updating physical
    properties (mass, area, axes, inertia)".  The vertices are scaled
    about the position (which therefore stays), the area is recomputed
    from the scaled vertices and the mass is reset to density * area. *)
Definition scale (body : t) (scaleX scaleY : Q) : t :=
  let scaled :=
    mk (label body) (isStatic body) (restitution body) (friction body)
       (frictionAir body) (position body) (velocity body)
       (width body * scaleX) (height body * scaleY)
       (width body * scaleX * (height body * scaleY))
       (mass body) (density body) in
  setMass scaled (density body * area scaled).

End Body.

Module Bodies.

(** The options the pages pass; a field the caller leaves out carries
    the matter-js default ([isStatic: false], [restitution: 0],
    [friction: 0.1], [frictionAir: 0.01], [label: 'Rectangle Body']). *)
Record options : Type := mkOptions {
  o_isStatic : bool;
  o_restitution : Q;
  o_friction : Q;
  o_frictionAir : Q;
  o_label : string
}.

(** [Bodies.rectangle(x, y, width, height, options)]: a body at rest
    with the default density 0.001, hence mass 0.001 * area, made static
    when the options say so.  The library builds the vertices from the path
    (0,0), (width,0), (width,height), (0,height), takes the absolute value of
    their area and moves them so that their centre is the position: the box
    is [|width|] by [|height|] about (x, y), also for a negative width or
    height.  For a width or a height of 0 the library divides by the area
    and the vertices are not numbers; the embedding has no such value, keeps
    the position and an empty box there, and is not a model of the library
    for such a body. *)
Definition rectangle (cx cy w h : Q) (o : options) : Body.t :=
  let body :=
    Body.mk (o_label o) false (o_restitution o) (o_friction o)
            (o_frictionAir o) (Vector.mk cx cy) (Vector.mk 0 0)
            (Qabs w) (Qabs h) (Qabs w * Qabs h) (0.001 * (Qabs w * Qabs h)) 0.001 in
  if o_isStatic o then Body.setStatic body else body.

End Bodies.

Module Bounds.

Record t : Type := mk { min : Vector.t; max : Vector.t }.

(** The axis-aligned box of a body's vertices. *)
Definition of_body (b : Body.t) : t :=
  let p := Body.position b in
  mk (Vector.mk (Vector.x p - Body.width b / 2) (Vector.y p - Body.height b / 2))
     (Vector.mk (Vector.x p + Body.width b / 2) (Vector.y p + Body.height b / 2)).

(** [Bounds.overlaps(boundsA, boundsB)], the test the collision detector
    runs on every candidate pair. *)
Definition overlaps (a b : t) : bool :=
  Qle_bool (Vector.x (min a)) (Vector.x (max b))
  && Qle_bool (Vector.x (min b)) (Vector.x (max a))
  && Qle_bool (Vector.y (min b)) (Vector.y (max a))
  && Qle_bool (Vector.y (min a)) (Vector.y (max b)).

End Bounds.

Module Pair.

(** The restitution a collision pair is resolved with.  matter-js
    documents for [body.restitution]: "collision response is based on
    pairs of bodies, and that restitution values are combined with the
    following formula: Math.max(bodyA.restitution, bodyB.restitution)". *)
Definition restitution (bodyA bodyB : Body.t) : Q :=
  Qmax (Body.restitution bodyA) (Body.restitution bodyB).

End Pair.

Module Events.

(** The two listeners the pages register with [Events.on]; the
    [afterUpdate] closure captures the two squares. *)
Inductive listener : Type :=
| collisionStart
| afterUpdate (left_ right_ : nat).

End Events.

Module Engine.

(** An engine: the bodies of its world (indices into the body store),
    the vertical gravity and the registered listeners. *)
Record t : Type := mk {
  world : list nat;
  gravity_y : Q;
  events : list Events.listener
}.

(** [Engine.create()]: an empty world with the default gravity
    [{x: 0, y: 1}]. *)
Definition create : t := mk [] 1 [].

Definition set_gravity_y (e : t) (g : Q) : t := mk (world e) g (events e).

Definition on (e : t) (l : Events.listener) : t :=
  mk (world e) (gravity_y e) (events e ++ [l]).

End Engine.

Module World.

(** [World.add(world, bodies)]. *)
Definition add (e : Engine.t) (ids : list nat) : Engine.t :=
  Engine.mk (Engine.world e ++ ids) (Engine.gravity_y e) (Engine.events e).

(** [World.clear(world, keepStatic)]: with [keepStatic] the static bodies
    stay in the world, every other body is removed. *)
Definition clear (store : list Body.t) (e : Engine.t) (keepStatic : bool) : Engine.t :=
  Engine.mk
    (if keepStatic
     then List.filter (fun i => match store !! i with
                                | Some b => Body.isStatic b
                                | None => false
                                end) (Engine.world e)
     else [])
    (Engine.gravity_y e) (Engine.events e).

End World.

Module Render.

(** A renderer: the engine it draws and whether its frame loop runs. *)
Record t : Type := mk { engine : nat; running : bool }.

Definition stop (r : t) : t := mk (engine r) false.

End Render.

End Matter.

Import Matter.

(* ===================================================================== *)
(** * The material table *)
(* ===================================================================== *)

(** [keyof typeof materials]. *)
Inductive Material : Type := rubber | metal | wood | plastic.

Definition materials (m : Material) : Q :=
  match m with
  | rubber => 0.9
  | metal => 0.2
  | wood => 0.5
  | plastic => 0.7
  end.

(** The key of the table as the string that is stored in [body.label]. *)
Definition key (m : Material) : string :=
  match m with
  | rubber => "rubber"
  | metal => "metal"
  | wood => "wood"
  | plastic => "plastic"
  end.

(* ===================================================================== *)
(** * The page state *)
(* ===================================================================== *)

(** A pending [setTimeout(() => Matter.Body.scale(body, 1/1.2, 1/0.8), 50)]:
    the captured body and the time (in ms) from which the browser may run
    it. *)
Record Timer : Type := mkTimer { tbody : nat; due : nat }.

Record Page : Type := mkPage {
  (* useState *)
  sizeLeft : Q;
  sizeRight : Q;
  massLeft : Q;                  (* second copy of the page only *)
  massRight : Q;                 (* second copy of the page only *)
  materialLeft : Material;
  materialRight : Material;
  started : bool;
  velocityLeftDisplay : Q;
  velocityRightDisplay : Q;
  (* useRef *)
  engineRef : option nat;
  renderRef : option nat;
  (* the DOM: size of the scene container, size of the window, and the
     canvases (one per renderer) that are children of the scene element *)
  clientWidth : Q;
  clientHeight : Q;
  innerWidth : Q;
  innerHeight : Q;
  scene : list nat;
  (* matter-js objects, by index *)
  bodies : list Body.t;
  engines : list Engine.t;
  renders : list Render.t;
  runners : list nat;            (* the engines a started Runner keeps updating *)
  (* the browser's clock and timer queue *)
  now : nat;
  timers : list Timer
}.

Definition set_bodies (f : list Body.t -> list Body.t) (p : Page) : Page :=
  mkPage (sizeLeft p) (sizeRight p) (massLeft p) (massRight p)
         (materialLeft p) (materialRight p) (started p)
         (velocityLeftDisplay p) (velocityRightDisplay p)
         (engineRef p) (renderRef p)
         (clientWidth p) (clientHeight p) (innerWidth p) (innerHeight p) (scene p)
         (f (bodies p)) (engines p) (renders p) (runners p)
         (now p) (timers p).

Definition set_engines (f : list Engine.t -> list Engine.t) (p : Page) : Page :=
  mkPage (sizeLeft p) (sizeRight p) (massLeft p) (massRight p)
         (materialLeft p) (materialRight p) (started p)
         (velocityLeftDisplay p) (velocityRightDisplay p)
         (engineRef p) (renderRef p)
         (clientWidth p) (clientHeight p) (innerWidth p) (innerHeight p) (scene p)
         (bodies p) (f (engines p)) (renders p) (runners p)
         (now p) (timers p).

Definition set_renders (f : list Render.t -> list Render.t) (p : Page) : Page :=
  mkPage (sizeLeft p) (sizeRight p) (massLeft p) (massRight p)
         (materialLeft p) (materialRight p) (started p)
         (velocityLeftDisplay p) (velocityRightDisplay p)
         (engineRef p) (renderRef p)
         (clientWidth p) (clientHeight p) (innerWidth p) (innerHeight p) (scene p)
         (bodies p) (engines p) (f (renders p)) (runners p)
         (now p) (timers p).

Definition set_runners (f : list nat -> list nat) (p : Page) : Page :=
  mkPage (sizeLeft p) (sizeRight p) (massLeft p) (massRight p)
         (materialLeft p) (materialRight p) (started p)
         (velocityLeftDisplay p) (velocityRightDisplay p)
         (engineRef p) (renderRef p)
         (clientWidth p) (clientHeight p) (innerWidth p) (innerHeight p) (scene p)
         (bodies p) (engines p) (renders p) (f (runners p))
         (now p) (timers p).

Definition set_scene (f : list nat -> list nat) (p : Page) : Page :=
  mkPage (sizeLeft p) (sizeRight p) (massLeft p) (massRight p)
         (materialLeft p) (materialRight p) (started p)
         (velocityLeftDisplay p) (velocityRightDisplay p)
         (engineRef p) (renderRef p)
         (clientWidth p) (clientHeight p) (innerWidth p) (innerHeight p) (f (scene p))
         (bodies p) (engines p) (renders p) (runners p)
         (now p) (timers p).

Definition set_engineRef (r : option nat) (p : Page) : Page :=
  mkPage (sizeLeft p) (sizeRight p) (massLeft p) (massRight p)
         (materialLeft p) (materialRight p) (started p)
         (velocityLeftDisplay p) (velocityRightDisplay p)
         r (renderRef p)
         (clientWidth p) (clientHeight p) (innerWidth p) (innerHeight p) (scene p)
         (bodies p) (engines p) (renders p) (runners p)
         (now p) (timers p).

Definition set_renderRef (r : option nat) (p : Page) : Page :=
  mkPage (sizeLeft p) (sizeRight p) (massLeft p) (massRight p)
         (materialLeft p) (materialRight p) (started p)
         (velocityLeftDisplay p) (velocityRightDisplay p)
         (engineRef p) r
         (clientWidth p) (clientHeight p) (innerWidth p) (innerHeight p) (scene p)
         (bodies p) (engines p) (renders p) (runners p)
         (now p) (timers p).

Definition setStarted (b : bool) (p : Page) : Page :=
  mkPage (sizeLeft p) (sizeRight p) (massLeft p) (massRight p)
         (materialLeft p) (materialRight p) b
         (velocityLeftDisplay p) (velocityRightDisplay p)
         (engineRef p) (renderRef p)
         (clientWidth p) (clientHeight p) (innerWidth p) (innerHeight p) (scene p)
         (bodies p) (engines p) (renders p) (runners p)
         (now p) (timers p).

Definition setVelocityLeftDisplay (v : Q) (p : Page) : Page :=
  mkPage (sizeLeft p) (sizeRight p) (massLeft p) (massRight p)
         (materialLeft p) (materialRight p) (started p)
         v (velocityRightDisplay p)
         (engineRef p) (renderRef p)
         (clientWidth p) (clientHeight p) (innerWidth p) (innerHeight p) (scene p)
         (bodies p) (engines p) (renders p) (runners p)
         (now p) (timers p).

Definition setVelocityRightDisplay (v : Q) (p : Page) : Page :=
  mkPage (sizeLeft p) (sizeRight p) (massLeft p) (massRight p)
         (materialLeft p) (materialRight p) (started p)
         (velocityLeftDisplay p) v
         (engineRef p) (renderRef p)
         (clientWidth p) (clientHeight p) (innerWidth p) (innerHeight p) (scene p)
         (bodies p) (engines p) (renders p) (runners p)
         (now p) (timers p).

Definition set_now (t : nat) (p : Page) : Page :=
  mkPage (sizeLeft p) (sizeRight p) (massLeft p) (massRight p)
         (materialLeft p) (materialRight p) (started p)
         (velocityLeftDisplay p) (velocityRightDisplay p)
         (engineRef p) (renderRef p)
         (clientWidth p) (clientHeight p) (innerWidth p) (innerHeight p) (scene p)
         (bodies p) (engines p) (renders p) (runners p)
         t (timers p).

Definition set_timers (f : list Timer -> list Timer) (p : Page) : Page :=
  mkPage (sizeLeft p) (sizeRight p) (massLeft p) (massRight p)
         (materialLeft p) (materialRight p) (started p)
         (velocityLeftDisplay p) (velocityRightDisplay p)
         (engineRef p) (renderRef p)
         (clientWidth p) (clientHeight p) (innerWidth p) (innerHeight p) (scene p)
         (bodies p) (engines p) (renders p) (runners p)
         (now p) (f (timers p)).

(** The page as it is mounted: the initial values of [useState] and
    [useRef], nothing created yet. [w], [h] are the size of the scene
    container and [iw], [ih] the size of the window. *)
Definition mount (w h iw ih : Q) : Page :=
  mkPage 60 60 1 1 rubber rubber false 0 0 None None
         w h iw ih [] [] [] [] [] 0%nat [].

(* ===================================================================== *)
(** * Code shared by both copies of the page *)
(* ===================================================================== *)

(** Creating an object puts it in its store; its index is its identity. *)
Definition new_body (b : Body.t) (p : Page) : nat * Page :=
  (length (bodies p), set_bodies (fun s => s ++ [b]) p).

Definition new_engine (e : Engine.t) (p : Page) : nat * Page :=
  (length (engines p), set_engines (fun s => s ++ [e]) p).

(** [Render.create({element, engine, ...})] appends the new canvas to the
    scene element; [Render.run] starts the frame loop. *)
Definition new_render (e : nat) (p : Page) : nat * Page :=
  let r := length (renders p) in
  (r, set_scene (fun s => s ++ [r])
        (set_renders (fun s => s ++ [Render.mk e true]) p)).

(** [Runner.run(runner, engine)]; the runner is a local constant of
    [handleStart] and is stored nowhere. *)
Definition Runner_run (e : nat) (p : Page) : Page :=
  set_runners (fun s => s ++ [e]) p.

(** The body of the [collisionStart] listener for one body of a pair:
<<
  if (!body.isStatic && body.label === 'rubber') {
    Matter.Body.scale(body, 1.2, 0.8);
    setTimeout(() => Matter.Body.scale(body, 1/1.2, 1/0.8), 50);
  }
>> *)
Definition squish (body : nat) (p : Page) : Page :=
  match bodies p !! body with
  | Some b =>
      if negb (Body.isStatic b) && String.eqb (Body.label b) "rubber"
      then set_timers (fun q => q ++ [mkTimer body (now p + 50)])
             (set_bodies (alter (fun b => Body.scale b 1.2 0.8) body) p)
      else p
  | None => p
  end.

(** The [collisionStart] listener:
    [event.pairs.forEach(pair => [pair.bodyA, pair.bodyB].forEach(...))]. *)
Definition onCollisionStart (pairs : list (nat * nat)) (p : Page) : Page :=
  fold_left (fun p pair => squish (snd pair) (squish (fst pair) p)) pairs p.

(** The callback of a timer, run by the browser. *)
Definition unsquish (body : nat) (p : Page) : Page :=
  set_bodies (alter (fun b => Body.scale b (1 / 1.2) (1 / 0.8)) body) p.

(** [Math.abs(body.velocity.x)] of a stored body. *)
Definition speed_of (p : Page) (body : nat) : Q :=
  match bodies p !! body with
  | Some b => Qabs (Vector.x (Body.velocity b))
  | None => 0
  end.

(** The [afterUpdate] listener. *)
Definition onAfterUpdate (left_ right_ : nat) (p : Page) : Page :=
  setVelocityRightDisplay (speed_of p right_)
    (setVelocityLeftDisplay (speed_of p left_) p).

(** The first guarded block of [handleStart] and [handleReset]: stop the
    renderer, take its canvas out of the document, forget it. *)
Definition clearRender (p : Page) : Page :=
  match renderRef p with
  | Some r =>
      set_renderRef None
        (set_scene (List.filter (fun c => negb (Nat.eqb c r)))
           (set_renders (alter Render.stop r) p))
  | None => p
  end.

(** The second guarded block: [World.clear(engine.world, true)],
    [Engine.clear(engine)] (which empties the engine's pair cache and
    detector and nothing the embedding keeps), forget the engine. *)
Definition clearEngine (p : Page) : Page :=
  match engineRef p with
  | Some e =>
      set_engineRef None
        (set_engines (alter (fun en => World.clear (bodies p) en true) e) p)
  | None => p
  end.

(* ===================================================================== *)
(** * [src/pages/index.tsx] *)
(* ===================================================================== *)

Module Index.

(** [createSquare(x, size, material)]; [height] is the constant of the
    enclosing [handleStart]. *)
Definition createSquare (height : Q) (x size : Q) (material : Material) : Body.t :=
  let restitution := materials material in
  let body :=
    Bodies.rectangle x (height / 2) size size
      (Bodies.mkOptions false restitution 0 0 (key material)) in
  (* mass proportional to area *)
  let mass := (size * size) / 1000 in
  Body.setMass body mass.

Definition speed : Q := 25.

Definition handleStart (p : Page) : Page :=
  (* clear previous scene *)
  let p := clearRender p in
  let p := clearEngine p in
  let '(engine, p) := new_engine Engine.create p in
  let p := Runner_run engine p in
  let width := clientWidth p in
  let height := clientHeight p in
  let '(render, p) := new_render engine p in
  let p := set_engineRef (Some engine) p in
  let p := set_renderRef (Some render) p in
  let p := set_engines (alter (fun e => Engine.set_gravity_y e 0) engine) p in
  (* static bounds *)
  let opts := Bodies.mkOptions true 1 0 0.01 "Rectangle Body" in
  let '(ground, p) :=
    new_body (Bodies.rectangle (width / 2) (height + 25) width 50 opts) p in
  let '(ceiling, p) :=
    new_body (Bodies.rectangle (width / 2) (-25) width 50 opts) p in
  let '(leftWall, p) :=
    new_body (Bodies.rectangle (-25) (height / 2) 50 height opts) p in
  let '(rightWall, p) :=
    new_body (Bodies.rectangle (width + 25) (height / 2) 50 height opts) p in
  let '(left_, p) :=
    new_body (createSquare height (50 + sizeLeft p / 2) (sizeLeft p) (materialLeft p)) p in
  let '(right_, p) :=
    new_body (createSquare height (width - 50 - sizeRight p / 2) (sizeRight p)
                (materialRight p)) p in
  let p :=
    set_engines
      (alter (fun e => World.add e [ground; ceiling; leftWall; rightWall; left_; right_])
             engine) p in
  (* launch *)
  let p := set_bodies (alter (fun b => Body.setVelocity b (Vector.mk speed 0)) left_) p in
  let p := set_bodies (alter (fun b => Body.setVelocity b (Vector.mk (- speed) 0)) right_) p in
  (* collision: squish only for rubber; track velocities *)
  let p := set_engines (alter (fun e => Engine.on e Events.collisionStart) engine) p in
  let p := set_engines (alter (fun e => Engine.on e (Events.afterUpdate left_ right_)) engine) p in
  setStarted true p.

Definition handleReset (p : Page) : Page :=
  let p := clearRender p in
  let p := clearEngine p in
  let p := set_scene (fun _ => []) p in
  let p := setVelocityLeftDisplay 0 p in
  let p := setVelocityRightDisplay 0 p in
  setStarted false p.

End Index.

(* ===================================================================== *)
(** * The second copy of the page ([src/unnamed/part_000]) *)
(* ===================================================================== *)

Module Part000.

(** [createSquare(x, size, mass, material)]; the vertical centre is
    [window.innerHeight / 2]. *)
Definition createSquare (innerHeight : Q) (x size mass : Q) (material : Material)
  : Body.t :=
  let opts := Bodies.mkOptions false (materials material) 0 0 (key material) in
  let square := Bodies.rectangle x (innerHeight / 2) size size opts in
  Body.setMass square mass.

Definition speed : Q := 15.

Definition handleStart (p : Page) : Page :=
  (* clear previous canvas ([canvas.remove()]; the texture cache that is
     emptied as well is not part of the page state) *)
  let p := clearRender p in
  let p := clearEngine p in
  (* create new engine and renderer *)
  let '(engine, p) := new_engine Engine.create p in
  let '(render, p) := new_render engine p in
  let p := set_engines (alter (fun e => Engine.set_gravity_y e 0) engine) p in
  let p := Runner_run engine p in
  let p := set_engineRef (Some engine) p in
  let p := set_renderRef (Some render) p in
  (* static bounds *)
  let boundsOpts := Bodies.mkOptions true 1 0 0.01 "Rectangle Body" in
  let '(ground, p) :=
    new_body (Bodies.rectangle (innerWidth p / 2) (innerHeight p + 50)
                (innerWidth p) 100 boundsOpts) p in
  let '(ceiling, p) :=
    new_body (Bodies.rectangle (innerWidth p / 2) (-50) (innerWidth p) 100 boundsOpts) p in
  let '(leftWall, p) :=
    new_body (Bodies.rectangle (-50) (innerHeight p / 2) 100 (innerHeight p) boundsOpts) p in
  let '(rightWall, p) :=
    new_body (Bodies.rectangle (innerWidth p + 50) (innerHeight p / 2) 100
                (innerHeight p) boundsOpts) p in
  (* dynamic squares *)
  let '(left_, p) :=
    new_body (createSquare (innerHeight p) 200 (sizeLeft p) (massLeft p)
                (materialLeft p)) p in
  let '(right_, p) :=
    new_body (createSquare (innerHeight p) (innerWidth p - 200) (sizeRight p)
                (massRight p) (materialRight p)) p in
  let p :=
    set_engines
      (alter (fun e => World.add e [ground; ceiling; leftWall; rightWall; left_; right_])
             engine) p in
  (* launch *)
  let p := set_bodies (alter (fun b => Body.setVelocity b (Vector.mk speed 0)) left_) p in
  let p := set_bodies (alter (fun b => Body.setVelocity b (Vector.mk (- speed) 0)) right_) p in
  let p := set_engines (alter (fun e => Engine.on e Events.collisionStart) engine) p in
  let p := set_engines (alter (fun e => Engine.on e (Events.afterUpdate left_ right_)) engine) p in
  setStarted true p.

Definition handleReset (p : Page) : Page :=
  let p := set_scene (fun _ => []) p in
  let p := setVelocityLeftDisplay 0 p in
  let p := setVelocityRightDisplay 0 p in
  setStarted false p.

End Part000.

(* ===================================================================== *)
(** * What the browser and the matter-js runner do to a page *)
(* ===================================================================== *)

(** The two buttons of a page. *)
Record Handlers : Type := mkHandlers {
  onStart : Page -> Page;
  onReset : Page -> Page
}.

Definition index_tsx : Handlers := mkHandlers Index.handleStart Index.handleReset.
Definition part_000 : Handlers := mkHandlers Part000.handleStart Part000.handleReset.

(** What can happen to a mounted page.  A runner that was started keeps
    calling [Engine.update] on its engine; one update moves the bodies of the
    world ([EngineMoves], with the solver's result as an input), may trigger
    ['collisionStart'] with the pairs that began to touch, and triggers
    ['afterUpdate'].  The browser lets time pass and runs a timer once it is
    due. *)
Inductive Event : Type :=
| ClickStart
| ClickReset
| EngineMoves (e : nat) (solver : nat -> Body.t -> Vector.t * Vector.t)
| CollisionStart (e : nat) (pairs : list (nat * nat))
| AfterUpdate (e : nat)
| Elapse (ms : nat)
| TimerFires (k : nat).

Definition running (p : Page) (e : nat) : bool :=
  existsb (Nat.eqb e) (runners p).

Definition in_world (en : Engine.t) (b : nat) : bool :=
  existsb (Nat.eqb b) (Engine.world en).

Definition is_static (p : Page) (b : nat) : bool :=
  match bodies p !! b with
  | Some bd => Body.isStatic bd
  | None => false
  end.

(** A pair the detector can report: two different bodies of the engine's
    world, not both static. *)
Definition colliding (p : Page) (en : Engine.t) (pair : nat * nat) : bool :=
  negb (Nat.eqb (fst pair) (snd pair))
  && in_world en (fst pair) && in_world en (snd pair)
  && negb (is_static p (fst pair) && is_static p (snd pair)).

(** The solver's result written to one body: position and velocity. *)
Definition moved (b : Body.t) (pv : Vector.t * Vector.t) : Body.t :=
  Body.mk (Body.label b) (Body.isStatic b) (Body.restitution b) (Body.friction b)
          (Body.frictionAir b) (fst pv) (snd pv)
          (Body.width b) (Body.height b) (Body.area b) (Body.mass b) (Body.density b).

(** The engine moves the bodies of its world that are not static. *)
Definition integrate (en : Engine.t) (solver : nat -> Body.t -> Vector.t * Vector.t)
  (p : Page) : Page :=
  fold_left
    (fun p i =>
       set_bodies
         (alter (fun b => if Body.isStatic b then b else moved b (solver i b)) i) p)
    (Engine.world en) p.

(** [Events.trigger(engine, 'collisionStart', {pairs})] *)
Definition trigger_collisionStart (en : Engine.t) (pairs : list (nat * nat)) (p : Page)
  : Page :=
  fold_left
    (fun p l => match l with
                | Events.collisionStart => onCollisionStart pairs p
                | Events.afterUpdate _ _ => p
                end)
    (Engine.events en) p.

(** [Events.trigger(engine, 'afterUpdate')] *)
Definition trigger_afterUpdate (en : Engine.t) (p : Page) : Page :=
  fold_left
    (fun p l => match l with
                | Events.collisionStart => p
                | Events.afterUpdate left_ right_ => onAfterUpdate left_ right_ p
                end)
    (Engine.events en) p.

(** One event; [None] when it cannot happen in this state. *)
Definition step (h : Handlers) (p : Page) (ev : Event) : option Page :=
  match ev with
  | ClickStart => Some (onStart h p)
  | ClickReset => Some (onReset h p)
  | EngineMoves e solver =>
      match engines p !! e with
      | Some en => if running p e then Some (integrate en solver p) else None
      | None => None
      end
  | CollisionStart e pairs =>
      match engines p !! e, pairs with
      | Some en, _ :: _ =>
          if running p e && forallb (colliding p en) pairs
          then Some (trigger_collisionStart en pairs p)
          else None
      | _, _ => None
      end
  | AfterUpdate e =>
      match engines p !! e with
      | Some en => if running p e then Some (trigger_afterUpdate en p) else None
      | None => None
      end
  | Elapse ms => Some (set_now (now p + ms)%nat p)
  | TimerFires k =>
      match timers p !! k with
      | Some t =>
          if (due t <=? now p)%nat
          then Some (unsquish (tbody t) (set_timers (delete k) p))
          else None
      | None => None
      end
  end.

Fixpoint run (h : Handlers) (p : Page) (evs : list Event) : option Page :=
  match evs with
  | [] => Some p
  | ev :: evs =>
      match step h p ev with
      | Some p' => run h p' evs
      | None => None
      end
  end.

(* ===================================================================== *)
(** * Observations of a page *)
(* ===================================================================== *)

(** The bodies of the current world (the one [engineRef] points to) that
    are not static, in the order they were added. *)
Definition dynamic_bodies (p : Page) : list Body.t :=
  match engineRef p with
  | Some e =>
      match engines p !! e with
      | Some en =>
          omap (fun i => match bodies p !! i with
                         | Some b => if Body.isStatic b then None else Some b
                         | None => None
                         end) (Engine.world en)
      | None => []
      end
  | None => []
  end.

(** Matter's bounding-box test on two stored bodies. *)
Definition overlaps_in (p : Page) (i j : nat) : bool :=
  match bodies p !! i, bodies p !! j with
  | Some a, Some b => Bounds.overlaps (Bounds.of_body a) (Bounds.of_body b)
  | _, _ => false
  end.

(** Width and height of a stored body. *)
Definition extent (p : Page) (i : nat) : option (Q * Q) :=
  match bodies p !! i with
  | Some b => Some (Body.width b, Body.height b)
  | None => None
  end.

Definition same_extent (a b : option (Q * Q)) : bool :=
  match a, b with
  | Some (w, h), Some (w', h') => Qeq_bool w w' && Qeq_bool h h'
  | None, None => true
  | _, _ => false
  end.

(** How often a body occurs in the pairs of one ['collisionStart'] event. *)
Fixpoint hits (body : nat) (pairs : list (nat * nat)) : nat :=
  match pairs with
  | [] => 0
  | (a, b) :: pairs =>
      ((if Nat.eqb a body then 1 else 0) + (if Nat.eqb b body then 1 else 0)
       + hits body pairs)%nat
  end.

(** The pending timers that captured a given body. *)
Definition pending (p : Page) (body : nat) : nat :=
  length (List.filter (fun t => Nat.eqb (tbody t) body) (timers p)).

(** A mounted page (scene 800 x 400, window 1200 x 800) on which the
    sliders and selects have been set. *)
Definition configured (sl : Q) (ml : Material) (sr : Q) (mr : Material) : Page :=
  mkPage sl sr 1 1 ml mr false 0 0 None None 800 400 1200 800 [] [] [] [] [] 0%nat [].

(** The same page with the mass sliders of the second copy set as well. *)
Definition configured_mass (sl ml_ : Q) (ml : Material) (sr mr_ : Q) (mr : Material)
  : Page :=
  mkPage sl sr ml_ mr_ ml mr false 0 0 None None 800 400 1200 800 [] [] [] [] [] 0%nat [].

(** The test of the collision listener: [!body.isStatic && body.label ===
    'rubber']. *)
Definition squishes (b : Body.t) : bool :=
  negb (Body.isStatic b) && String.eqb (Body.label b) "rubber".

(** A solver result for a scene 800 wide: the right square, of size 30, has
    been pushed to within 2 of the right wall and the left square, of size
    150, reaches it; the velocities are left as they are. *)
Definition near_wall (i : nat) (b : Body.t) : Vector.t * Vector.t :=
  if Nat.eqb i 4 then (Vector.mk 693 200, Body.velocity b)
  else if Nat.eqb i 5 then (Vector.mk 783 200, Body.velocity b)
  else (Body.position b, Body.velocity b).

(** Page [q] keeps body [i] of page [p] at rest: the body is still stored,
    and the width and height it will have once every timer pending for it
    has run (each one scaling by 1/1.2 and 1/0.8) are the same in [q] as in
    [p]. *)
Definition keeps_rest (p q : Page) (i : nat) : Prop :=
  forall b,
    bodies p !! i = Some b ->
    exists b',
      bodies q !! i = Some b'
      /\ Body.width b' * (1 / 1.2) ^ Z.of_nat (pending q i)
         == Body.width b * (1 / 1.2) ^ Z.of_nat (pending p i)
      /\ Body.height b' * (1 / 0.8) ^ Z.of_nat (pending q i)
         == Body.height b * (1 / 0.8) ^ Z.of_nat (pending p i).

(** A solver result in which every body keeps its velocity and advances by
    it. *)
Definition coast (i : nat) (b : Body.t) : Vector.t * Vector.t :=
  let p := Body.position b in
  let v := Body.velocity b in
  (Vector.mk (Vector.x p + Vector.x v) (Vector.y p + Vector.y v), v).

(** The horizontal position of a stored body. *)
Definition position_x (p : Page) (i : nat) : option Q :=
  match bodies p !! i with
  | Some b => Some (Vector.x (Body.position b))
  | None => None
  end.

(** The six bodies [handleStart] of [index.tsx] creates, as they are once
    the two squares have been launched. *)
Definition index_spawned (p : Page) : list Body.t :=
  let width := clientWidth p in
  let height := clientHeight p in
  let opts := Bodies.mkOptions true 1 0 0.01 "Rectangle Body" in
  [ Bodies.rectangle (width / 2) (height + 25) width 50 opts;
    Bodies.rectangle (width / 2) (-25) width 50 opts;
    Bodies.rectangle (-25) (height / 2) 50 height opts;
    Bodies.rectangle (width + 25) (height / 2) 50 height opts;
    Body.setVelocity
      (Index.createSquare height (50 + sizeLeft p / 2) (sizeLeft p) (materialLeft p))
      (Vector.mk Index.speed 0);
    Body.setVelocity
      (Index.createSquare height (width - 50 - sizeRight p / 2) (sizeRight p)
         (materialRight p))
      (Vector.mk (- Index.speed) 0) ].

(** The same for the second copy of the page. *)
Definition part_000_spawned (p : Page) : list Body.t :=
  let opts := Bodies.mkOptions true 1 0 0.01 "Rectangle Body" in
  [ Bodies.rectangle (innerWidth p / 2) (innerHeight p + 50) (innerWidth p) 100 opts;
    Bodies.rectangle (innerWidth p / 2) (-50) (innerWidth p) 100 opts;
    Bodies.rectangle (-50) (innerHeight p / 2) 100 (innerHeight p) opts;
    Bodies.rectangle (innerWidth p + 50) (innerHeight p / 2) 100 (innerHeight p) opts;
    Body.setVelocity
      (Part000.createSquare (innerHeight p) 200 (sizeLeft p) (massLeft p) (materialLeft p))
      (Vector.mk Part000.speed 0);
    Body.setVelocity
      (Part000.createSquare (innerHeight p) (innerWidth p - 200) (sizeRight p)
         (massRight p) (materialRight p))
      (Vector.mk (- Part000.speed) 0) ].

(** The engine either [handleStart] leaves behind, for a body store that
    held [n] bodies before. *)
Definition started_engine (n : nat) : Engine.t :=
  Engine.mk [n; n + 1; n + 2; n + 3; n + 4; n + 5]%nat 0
            [Events.collisionStart; Events.afterUpdate (n + 4) (n + 5)].

(* ===================================================================== *)
(** * Observations over whole runs *)
(* ===================================================================== *)

(** Body [i] of page [p] is still stored in page [q], and what it is there
    is related by [R] to what it was. *)
Definition stays (R : Body.t -> Body.t -> Prop) (p q : Page) (i : nat) : Prop :=
  forall b, bodies p !! i = Some b -> exists b', bodies q !! i = Some b' /\ R b b'.

(** The fields of a body that no call of the pages writes after the body
    has been created. *)
Definition same_kind (b b' : Body.t) : Prop :=
  Body.label b' = Body.label b
  /\ Body.isStatic b' = Body.isStatic b
  /\ Body.restitution b' = Body.restitution b
  /\ Body.friction b' = Body.friction b
  /\ Body.frictionAir b' = Body.frictionAir b.

(** A body that the collision listener does not squish and that is the same
    in extent and mass. *)
Definition same_rigid (b b' : Body.t) : Prop :=
  squishes b = false ->
  squishes b' = false
  /\ Body.width b' = Body.width b
  /\ Body.height b' = Body.height b
  /\ Body.area b' = Body.area b
  /\ Body.mass b' = Body.mass b
  /\ Body.density b' = Body.density b.

(** Every queued timer is due at most 50 ms from now and captured a stored
    body that the collision listener squishes. *)
Definition timers_ok (p : Page) : Prop :=
  Forall (fun t => (due t <= now p + 50)%nat
                   /\ exists b, bodies p !! tbody t = Some b /\ squishes b = true)
         (timers p).

(** How often the start button is clicked in a sequence of events. *)
Fixpoint count_starts (evs : list Event) : nat :=
  match evs with
  | [] => 0
  | ClickStart :: evs => S (count_starts evs)
  | _ :: evs => count_starts evs
  end.

(** The objects and flags that only the two buttons change. *)
Definition fixtures (p : Page)
  : list Engine.t * list Render.t * list nat * list nat
    * option nat * option nat * bool :=
  (engines p, renders p, runners p, scene p, engineRef p, renderRef p, started p).

(** A click on one of the two buttons. *)
Definition is_click (ev : Event) : bool :=
  match ev with
  | ClickStart | ClickReset => true
  | _ => false
  end.

(** Every renderer whose frame loop runs is the one [renderRef] points to,
    and the scene element is empty or holds the canvas of that renderer and
    nothing else. *)
Definition renderer_ok (p : Page) : Prop :=
  (forall i rd,
      renders p !! i = Some rd -> Render.running rd = true -> renderRef p = Some i)
  /\ (scene p = [] \/ exists r, renderRef p = Some r /\ scene p = [r]).

(** Every engine has its vertical gravity switched off and exactly the two
    listeners of [handleStart], and the world of an engine that is not the
    current one holds static bodies only. *)
Definition worlds_ok (p : Page) : Prop :=
  forall e en,
    engines p !! e = Some en ->
    Engine.gravity_y en = 0
    /\ (exists l r, Engine.events en = [Events.collisionStart; Events.afterUpdate l r])
    /\ (engineRef p <> Some e ->
        Forall (fun i => is_static p i = true) (Engine.world en)).

(** The page shows the simulation as started exactly when an engine and a
    renderer are current, and then a runner updates that engine. *)
Definition started_iff_world (p : Page) : Prop :=
  match engineRef p, renderRef p with
  | Some e, Some _ => started p = true /\ running p e = true
  | None, None => started p = false
  | _, _ => False
  end.

(** When the page shows the simulation as started, an engine and a renderer
    are current and a runner updates that engine. *)
Definition started_has_world (p : Page) : Prop :=
  started p = true ->
  exists e r, engineRef p = Some e /\ renderRef p = Some r /\ running p e = true.

(** A body with a box that is not degenerate, whose stored area is that of
    the box and whose stored mass is its density times that area. *)
Definition massive (b : Body.t) : Prop :=
  ~ Body.width b == 0
  /\ ~ Body.height b == 0
  /\ Body.area b == Body.width b * Body.height b
  /\ Body.mass b == Body.density b * Body.area b.

(** Such a body stays one, with the density it had. *)
Definition same_density (b b' : Body.t) : Prop :=
  massive b -> massive b' /\ Body.density b' == Body.density b.

(** The bodies of the world the page's current engine steps. *)
Definition current_world (p : Page) : list nat :=
  match engineRef p with
  | Some e =>
      match engines p !! e with
      | Some en => Engine.world en
      | None => []
      end
  | None => []
  end.

(* ===================================================================== *)
(** * Stores: lists extended at the end and updated in place *)
(* ===================================================================== *)

Section Stores.
Context {A : Type}.
Implicit Types (l r : list A) (f : A -> A).

Lemma alter_at_end f l x r : alter f (length l) (l ++ x :: r) = l ++ f x :: r.
Proof. induction l as [|a l IH]; simpl; [reflexivity | f_equal; exact IH]. Qed.

Lemma alter_past_end f l r k :
  alter f (length l + k)%nat (l ++ r) = l ++ alter f k r.
Proof. induction l as [|a l IH]; simpl; [reflexivity | f_equal; exact IH]. Qed.

Lemma lookup_at_end l x r : (l ++ x :: r) !! length l = Some x.
Proof. induction l as [|a l IH]; simpl; [reflexivity | exact IH]. Qed.

Lemma lookup_past_end l r k : (l ++ r) !! (length l + k)%nat = r !! k.
Proof. induction l as [|a l IH]; simpl; [reflexivity | exact IH]. Qed.
End Stores.

(* ===================================================================== *)
(** * The two guarded blocks *)
(* ===================================================================== *)

Lemma clearRender_bodies p : bodies (clearRender p) = bodies p.
Proof. unfold clearRender. destruct (renderRef p); reflexivity. Qed.

Lemma clearRender_engines p : engines (clearRender p) = engines p.
Proof. unfold clearRender. destruct (renderRef p); reflexivity. Qed.

Lemma clearRender_engineRef p : engineRef (clearRender p) = engineRef p.
Proof. unfold clearRender. destruct (renderRef p); reflexivity. Qed.

Lemma clearRender_timers p : timers (clearRender p) = timers p.
Proof. unfold clearRender. destruct (renderRef p); reflexivity. Qed.

Lemma clearRender_runners p : runners (clearRender p) = runners p.
Proof. unfold clearRender. destruct (renderRef p); reflexivity. Qed.

Lemma clearRender_now p : now (clearRender p) = now p.
Proof. unfold clearRender. destruct (renderRef p); reflexivity. Qed.

Lemma clearRender_renderRef p : renderRef (clearRender p) = None.
Proof. unfold clearRender. destruct (renderRef p) eqn:E; [reflexivity | exact E]. Qed.

Lemma clearEngine_bodies p : bodies (clearEngine p) = bodies p.
Proof. unfold clearEngine. destruct (engineRef p); reflexivity. Qed.

Lemma clearEngine_timers p : timers (clearEngine p) = timers p.
Proof. unfold clearEngine. destruct (engineRef p); reflexivity. Qed.

Lemma clearEngine_runners p : runners (clearEngine p) = runners p.
Proof. unfold clearEngine. destruct (engineRef p); reflexivity. Qed.

Lemma clearEngine_now p : now (clearEngine p) = now p.
Proof. unfold clearEngine. destruct (engineRef p); reflexivity. Qed.

Lemma clearEngine_renderRef p : renderRef (clearEngine p) = renderRef p.
Proof. unfold clearEngine. destruct (engineRef p); reflexivity. Qed.

Lemma clearEngine_engineRef p : engineRef (clearEngine p) = None.
Proof. unfold clearEngine. destruct (engineRef p) eqn:E; [reflexivity | exact E]. Qed.

Lemma clearEngine_length p : length (engines (clearEngine p)) = length (engines p).
Proof.
  unfold clearEngine. destruct (engineRef p); cbn; [apply length_alter | reflexivity].
Qed.

(** The configuration and the DOM sizes are read-only for both blocks. *)
Lemma cleared_inputs p :
  let q := clearEngine (clearRender p) in
  sizeLeft q = sizeLeft p /\ sizeRight q = sizeRight p
  /\ massLeft q = massLeft p /\ massRight q = massRight p
  /\ materialLeft q = materialLeft p /\ materialRight q = materialRight p
  /\ clientWidth q = clientWidth p /\ clientHeight q = clientHeight p
  /\ innerWidth q = innerWidth p /\ innerHeight q = innerHeight p.
Proof.
  unfold clearEngine, clearRender.
  destruct (renderRef p); cbn; destruct (engineRef p); cbn; repeat split.
Qed.

(* ===================================================================== *)
(** * What [handleStart] builds *)
(* ===================================================================== *)

Ltac start_eval :=
  cbn;
  rewrite ?length_app; cbn;
  rewrite <- ?app_assoc; cbn;
  rewrite <- ?Nat.add_assoc; cbn;
  rewrite ?alter_at_end; cbn.

Ltac use_inputs p :=
  let H := fresh "Hin" in
  pose proof (cleared_inputs p) as H; cbv zeta in H;
  repeat match type of H with
         | ?a = ?b /\ _ => let E := fresh "E" in destruct H as [E H]; rewrite ?E; clear E
         | ?a = ?b => rewrite ?H; clear H
         end.

Lemma index_start_bodies p :
  bodies (Index.handleStart p) = bodies p ++ index_spawned p.
Proof.
  unfold Index.handleStart, index_spawned.
  set (q := clearEngine (clearRender p)).
  assert (Hb : bodies q = bodies p)
    by (unfold q; rewrite clearEngine_bodies; apply clearRender_bodies).
  start_eval.
  rewrite (alter_past_end _ (bodies q) _ 4); cbn.
  rewrite (alter_past_end _ (bodies q) _ 5); cbn.
  rewrite Hb. subst q. use_inputs p. reflexivity.
Qed.

Lemma index_start_engines p :
  engines (Index.handleStart p)
  = engines (clearEngine (clearRender p)) ++ [started_engine (length (bodies p))].
Proof.
  unfold Index.handleStart, started_engine.
  set (q := clearEngine (clearRender p)).
  assert (Hb : bodies q = bodies p)
    by (unfold q; rewrite clearEngine_bodies; apply clearRender_bodies).
  start_eval. rewrite Hb. reflexivity.
Qed.

Lemma index_start_engineRef p :
  engineRef (Index.handleStart p) = Some (length (engines p)).
Proof.
  unfold Index.handleStart. cbn.
  rewrite clearEngine_length, clearRender_engines. reflexivity.
Qed.

Lemma index_start_runners p :
  runners (Index.handleStart p) = runners p ++ [length (engines p)].
Proof.
  unfold Index.handleStart. cbn.
  rewrite clearEngine_length, clearRender_engines,
    clearEngine_runners, clearRender_runners. reflexivity.
Qed.

Lemma part_000_start_bodies p :
  bodies (Part000.handleStart p) = bodies p ++ part_000_spawned p.
Proof.
  unfold Part000.handleStart, part_000_spawned.
  set (q := clearEngine (clearRender p)).
  assert (Hb : bodies q = bodies p)
    by (unfold q; rewrite clearEngine_bodies; apply clearRender_bodies).
  start_eval.
  rewrite (alter_past_end _ (bodies q) _ 4); cbn.
  rewrite (alter_past_end _ (bodies q) _ 5); cbn.
  rewrite Hb. subst q. use_inputs p. reflexivity.
Qed.

Lemma part_000_start_engines p :
  engines (Part000.handleStart p)
  = engines (clearEngine (clearRender p)) ++ [started_engine (length (bodies p))].
Proof.
  unfold Part000.handleStart, started_engine.
  set (q := clearEngine (clearRender p)).
  assert (Hb : bodies q = bodies p)
    by (unfold q; rewrite clearEngine_bodies; apply clearRender_bodies).
  start_eval. rewrite Hb. reflexivity.
Qed.

Lemma part_000_start_engineRef p :
  engineRef (Part000.handleStart p) = Some (length (engines p)).
Proof.
  unfold Part000.handleStart. cbn.
  rewrite clearEngine_length, clearRender_engines. reflexivity.
Qed.

Lemma part_000_start_runners p :
  runners (Part000.handleStart p) = runners p ++ [length (engines p)].
Proof.
  unfold Part000.handleStart. cbn.
  rewrite clearEngine_length, clearRender_engines,
    clearEngine_runners, clearRender_runners. reflexivity.
Qed.

Lemma started_engine_current (p q : Page) (spawned : list Body.t) :
  engineRef q = Some (length (engines p)) ->
  engines q = engines (clearEngine (clearRender p)) ++ [started_engine (length (bodies p))] ->
  bodies q = bodies p ++ spawned ->
  dynamic_bodies q
  = omap (fun b => if Body.isStatic b then None else Some b) (take 6 spawned).
Proof.
  intros Href Hen Hbo. unfold dynamic_bodies. rewrite Href, Hen.
  rewrite <- (clearRender_engines p), <- (clearEngine_length (clearRender p)).
  rewrite lookup_at_end. unfold started_engine; cbn [Engine.world]. rewrite Hbo.
  assert (Hk : forall k, (bodies p ++ spawned) !! (length (bodies p) + k)%nat = spawned !! k)
    by (intros k; apply lookup_past_end).
  pose proof (Hk 0%nat) as H0. rewrite Nat.add_0_r in H0.
  cbn [omap list_omap]. rewrite H0, !Hk.
  destruct spawned as [|b0 [|b1 [|b2 [|b3 [|b4 [|b5 rest]]]]]]; cbn;
    repeat match goal with
           | |- context [Body.isStatic ?b] => destruct (Body.isStatic b); cbn
           end; reflexivity.
Qed.

Lemma index_start_dynamic p :
  dynamic_bodies (Index.handleStart p) = drop 4 (index_spawned p).
Proof.
  rewrite (started_engine_current p _ (index_spawned p)
             (index_start_engineRef p) (index_start_engines p) (index_start_bodies p)).
  reflexivity.
Qed.

Lemma part_000_start_dynamic p :
  dynamic_bodies (Part000.handleStart p) = drop 4 (part_000_spawned p).
Proof.
  rewrite (started_engine_current p _ (part_000_spawned p)
             (part_000_start_engineRef p) (part_000_start_engines p)
             (part_000_start_bodies p)).
  reflexivity.
Qed.

(* ===================================================================== *)
(** * Restitution of a pair (C1) *)
(* ===================================================================== *)

(** C1, the claim as stated, at the configuration it names.  A size-150
    metal square against a size-30 wood square: the two bodies carry 0.2 and
    0.5, and the pair is resolved with 0.5, which is not the minimum of the
    two (0.2). *)
Lemma C1_metal_wood_is_not_min :
  match dynamic_bodies (Index.handleStart (configured 150 metal 30 wood)) with
  | [a; b] =>
      Body.restitution a == 0.2 /\ Body.restitution b == 0.5
      /\ Pair.restitution a b == 0.5
      /\ ~ Pair.restitution a b == Qmin (Body.restitution a) (Body.restitution b)
  | _ => False
  end.
Proof.
  vm_compute. repeat split; discriminate.
Qed.

Lemma max_is_min_iff (ml mr : Material) :
  Qmax (materials ml) (materials mr) == Qmin (materials ml) (materials mr) <-> ml = mr.
Proof.
  destruct ml, mr; split; intros H; try reflexivity; try discriminate H;
    vm_compute in H; discriminate H.
Qed.

Lemma max_is_average_iff (ml mr : Material) :
  Qmax (materials ml) (materials mr) == (materials ml + materials mr) / 2 <-> ml = mr.
Proof.
  destruct ml, mr; split; intros H; try reflexivity; try discriminate H;
    vm_compute in H; discriminate H.
Qed.

Lemma max_bounds (ml mr : Material) :
  materials ml <= Qmax (materials ml) (materials mr)
  /\ materials mr <= Qmax (materials ml) (materials mr).
Proof. split; [apply Q.le_max_l | apply Q.le_max_r]. Qed.

Lemma index_square_restitution height x size material v :
  Body.restitution (Body.setVelocity (Index.createSquare height x size material) v)
  = materials material.
Proof. reflexivity. Qed.

Lemma part_000_square_restitution innerHeight x size mass material v :
  Body.restitution
    (Body.setVelocity (Part000.createSquare innerHeight x size mass material) v)
  = materials material.
Proof. reflexivity. Qed.

(** C1, as amended.  Each of the two squares carries the restitution its
    material has in the table, in both copies of the page, and a pair of
    bodies is resolved with the larger of the two values, which is at least
    either of them.  That value is the minimum of the two exactly when the
    two squares have the same material, and it is their average exactly
    then; for two different materials it is neither.  The table gives rubber
    0.9, metal 0.2, wood 0.5 and plastic 0.7, so for metal against wood the
    pair is resolved with 0.5. *)
Theorem C1_pair_restitution_is_max :
  forall p : Page,
    (match dynamic_bodies (Index.handleStart p),
           dynamic_bodies (Part000.handleStart p) with
     | [a; b], [a'; b'] =>
         Body.restitution a = materials (materialLeft p)
         /\ Body.restitution b = materials (materialRight p)
         /\ Body.restitution a' = materials (materialLeft p)
         /\ Body.restitution b' = materials (materialRight p)
         /\ Pair.restitution a b
            = Qmax (materials (materialLeft p)) (materials (materialRight p))
         /\ Pair.restitution a' b'
            = Qmax (materials (materialLeft p)) (materials (materialRight p))
         /\ (Body.restitution a <= Pair.restitution a b
             /\ Body.restitution b <= Pair.restitution a b)
         /\ (Body.restitution a' <= Pair.restitution a' b'
             /\ Body.restitution b' <= Pair.restitution a' b')
         /\ (Pair.restitution a b == Qmin (Body.restitution a) (Body.restitution b)
             <-> materialLeft p = materialRight p)
         /\ (Pair.restitution a b == (Body.restitution a + Body.restitution b) / 2
             <-> materialLeft p = materialRight p)
         /\ (Pair.restitution a' b' == Qmin (Body.restitution a') (Body.restitution b')
             <-> materialLeft p = materialRight p)
         /\ (Pair.restitution a' b' == (Body.restitution a' + Body.restitution b') / 2
             <-> materialLeft p = materialRight p)
     | _, _ => False
     end)
    /\ (materials rubber == 0.9 /\ materials metal == 0.2
        /\ materials wood == 0.5 /\ materials plastic == 0.7)
    /\ Qmax (materials metal) (materials wood) == 0.5
    /\ (forall m : Material, 0 <= materials m <= 1).
Proof.
  intros p. rewrite index_start_dynamic, part_000_start_dynamic.
  split; [| split; [repeat split; reflexivity |];
            split; [vm_compute; reflexivity | intros []; split; vm_compute; discriminate]].
  unfold index_spawned, part_000_spawned, Pair.restitution. cbn [drop].
  rewrite !index_square_restitution, !part_000_square_restitution.
  pose proof (max_bounds (materialLeft p) (materialRight p)) as Hb.
  pose proof (max_is_min_iff (materialLeft p) (materialRight p)) as Hm.
  pose proof (max_is_average_iff (materialLeft p) (materialRight p)) as Ha.
  repeat (split; [first [reflexivity | exact Hb | exact Hm | exact Ha] |]).
  exact Ha.
Qed.

(* ===================================================================== *)
(** * Mass of a square (C3) *)
(* ===================================================================== *)

Lemma square_lt (a b : Q) : 0 <= a -> a < b -> a * a < b * b.
Proof. intros Ha Hab. nra. Qed.

(** C3, the claim as stated, on the second copy of the page: there the mass
    is an argument of [createSquare], fed from the page's own mass slider
    (1 by default), and a size-60 square weighs 1 and not 60 * 60 / 1000; two
    squares of one size can have different masses. *)
Lemma C3_mass_set_apart_from_size :
  match dynamic_bodies (Part000.handleStart (configured_mass 60 1 rubber 60 7 rubber)) with
  | [a; b] =>
      Body.width a == 60 /\ Body.width b == 60
      /\ Body.mass a == 1 /\ Body.mass b == 7
      /\ ~ Body.mass a == 60 * 60 / 1000
  | _ => False
  end.
Proof.
  vm_compute. repeat split; discriminate.
Qed.

(** C3, as amended.  In [index.tsx] the mass of a square is size * size /
    1000: it depends on nothing but the size, it is strictly increasing over
    the non-negative sizes, and both squares that [handleStart] creates have
    it.  In the second copy of the page the mass of a square is the value of
    its own mass input, whatever the size. *)
Theorem C3_mass_of_size :
  (forall height x size material,
      Body.mass (Index.createSquare height x size material) = size * size / 1000)
  /\ (forall height x material height' x' material' s1 s2,
         0 <= s1 -> s1 < s2 ->
         Body.mass (Index.createSquare height x s1 material)
         < Body.mass (Index.createSquare height' x' s2 material'))
  /\ (forall p,
         map Body.mass (dynamic_bodies (Index.handleStart p))
         = [sizeLeft p * sizeLeft p / 1000; sizeRight p * sizeRight p / 1000])
  /\ (forall innerHeight x size mass material,
         Body.mass (Part000.createSquare innerHeight x size mass material) = mass)
  /\ (forall p,
         map Body.mass (dynamic_bodies (Part000.handleStart p))
         = [massLeft p; massRight p]).
Proof.
  split; [reflexivity |].
  split.
  { intros height x material height' x' material' s1 s2 H0 Hlt. cbn.
    unfold Qdiv. apply Qmult_lt_compat_r; [reflexivity | apply square_lt; assumption]. }
  split; [intros p; rewrite index_start_dynamic; reflexivity |].
  split; [reflexivity |].
  intros p; rewrite part_000_start_dynamic; reflexivity.
Qed.

(** The amended C3 at sizes 30 and 150, the ends of the size slider. *)
Lemma C3_mass_of_size_witness :
  0 <= 30 /\ 30 < 150
  /\ Body.mass (Index.createSquare 400 65 30 rubber)
     < Body.mass (Index.createSquare 400 675 150 metal).
Proof.
  split; [discriminate |]. split; [reflexivity |].
  apply (proj1 (proj2 C3_mass_of_size)); [discriminate | reflexivity].
Defined.

(* ===================================================================== *)
(** * Scaling and scaling back *)
(* ===================================================================== *)

Lemma squish_factor_x (w : Q) : w * 1.2 * (1 / 1.2) == w.
Proof. field. Qed.

Lemma squish_factor_y (h : Q) : h * 0.8 * (1 / 0.8) == h.
Proof. field. Qed.

(* ===================================================================== *)
(** * Launch (C8) *)
(* ===================================================================== *)

(** C8, the claim as stated, on the second copy of the page: with the
    default configuration the squares are launched at +15 and -15, not at
    +25 and -25. *)
Lemma C8_second_copy_launches_at_15 :
  map Body.velocity (dynamic_bodies (Part000.handleStart (mount 800 400 1200 800)))
  = [Vector.mk 15 0; Vector.mk (-15) 0]
  /\ map Body.velocity (dynamic_bodies (Part000.handleStart (mount 800 400 1200 800)))
     <> [Vector.mk 25 0; Vector.mk (-25) 0].
Proof.
  split; [vm_compute; reflexivity | vm_compute; discriminate].
Qed.

(** C8, as amended.  For every page state, hence every configuration, the
    two squares that [handleStart] puts in the new world have no vertical
    velocity and opposite horizontal velocities of one fixed speed, the left
    one moving right: (25, 0) and (-25, 0) in [index.tsx], (15, 0) and
    (-15, 0) in the second copy of the page. *)
Theorem C8_launch_velocities :
  forall p : Page,
    map Body.velocity (dynamic_bodies (Index.handleStart p))
    = [Vector.mk 25 0; Vector.mk (-25) 0]
    /\ map Body.velocity (dynamic_bodies (Part000.handleStart p))
       = [Vector.mk 15 0; Vector.mk (-15) 0].
Proof.
  intros p. rewrite index_start_dynamic, part_000_start_dynamic.
  split; reflexivity.
Qed.

(* ===================================================================== *)
(** * The collision listener (C2, C6) *)
(* ===================================================================== *)

Lemma squishes_spec b :
  squishes b = true <-> Body.isStatic b = false /\ Body.label b = "rubber".
Proof.
  unfold squishes. rewrite andb_true_iff, negb_true_iff, String.eqb_eq. reflexivity.
Qed.

Lemma squish_elastic p i b :
  bodies p !! i = Some b -> squishes b = true ->
  squish i p
  = set_timers (fun q => q ++ [mkTimer i (now p + 50)])
      (set_bodies (alter (fun b => Body.scale b 1.2 0.8) i) p).
Proof.
  intros Hb Hs. unfold squish. rewrite Hb. unfold squishes in Hs. rewrite Hs. reflexivity.
Qed.

Lemma squish_rigid p i b :
  bodies p !! i = Some b -> squishes b = false -> squish i p = p.
Proof.
  intros Hb Hs. unfold squish. rewrite Hb. unfold squishes in Hs. rewrite Hs. reflexivity.
Qed.

Lemma squish_missing p i : bodies p !! i = None -> squish i p = p.
Proof. intros Hb. unfold squish. rewrite Hb. reflexivity. Qed.

(** The store after [squish]: the body named is scaled when the listener's
    test holds for it, and every other body is as before. *)
Lemma squish_lookup p i j :
  bodies (squish i p) !! j
  = if decide (i = j)
    then match bodies p !! j with
         | Some b => Some (if squishes b then Body.scale b 1.2 0.8 else b)
         | None => None
         end
    else bodies p !! j.
Proof.
  destruct (bodies p !! i) as [b|] eqn:Hb.
  - destruct (squishes b) eqn:Hs.
    + rewrite (squish_elastic p i b Hb Hs). cbn.
      case_decide as Hd.
      * subst j. rewrite list_lookup_alter_eq, Hb. cbn. rewrite Hs. reflexivity.
      * rewrite list_lookup_alter_ne by exact Hd. reflexivity.
    + rewrite (squish_rigid p i b Hb Hs).
      case_decide as Hd; [subst j; rewrite Hb, Hs |]; reflexivity.
  - rewrite (squish_missing p i Hb).
    case_decide as Hd; [subst j; rewrite Hb |]; reflexivity.
Qed.

(** C2, the claim as stated, for a metal square of size 150 on the left and
    a rubber square of size 30 on the right (scene 800 x 400).  The right
    square (body 5) stands 2 away from the right wall (body 3) when the left
    square reaches it.  Before the listener runs, its box is 30 x 30 and the
    bounding-box test against the wall fails; once the listener has run it is
    36 x 24 and the same test succeeds: the squish changed what collision
    detection reads. *)
Lemma C2_squish_changes_collision_box :
  let before := run index_tsx (configured 150 metal 30 rubber)
                    [ClickStart; EngineMoves 0 near_wall] in
  let after := run index_tsx (configured 150 metal 30 rubber)
                   [ClickStart; EngineMoves 0 near_wall; CollisionStart 0 [(4, 5)%nat]] in
  option_map (fun p => same_extent (extent p 5) (Some (30, 30))) before = Some true
  /\ option_map (fun p => overlaps_in p 5 3) before = Some false
  /\ option_map (fun p => same_extent (extent p 5) (Some (36, 24))) after = Some true
  /\ option_map (fun p => overlaps_in p 5 3) after = Some true.
Proof.
  vm_compute. repeat split.
Qed.

(** C2, as amended.  The listener rescales the body itself.  A body that is
    not static and is labelled rubber becomes 1.2 times as wide and 0.8 times
    as high about its unchanged position, so its bounding box, which the
    detector reads, is the scaled one; a static body or one of another
    material is left as it is, and so is every other body of the store. *)
Theorem C2_squish_rescales_the_body :
  forall (p : Page) (i : nat) (b : Body.t),
    bodies p !! i = Some b ->
    (Body.isStatic b = false -> Body.label b = "rubber" ->
     exists b',
       bodies (squish i p) !! i = Some b'
       /\ Body.width b' == Body.width b * 1.2
       /\ Body.height b' == Body.height b * 0.8
       /\ Body.position b' = Body.position b
       /\ Bounds.of_body b'
          = Bounds.of_body (Body.scale b 1.2 0.8))
    /\ (Body.isStatic b = true \/ Body.label b <> "rubber" -> squish i p = p)
    /\ (forall j, j <> i -> bodies (squish i p) !! j = bodies p !! j).
Proof.
  intros p i b Hb. split; [| split].
  - intros Hst Hl.
    assert (Hs : squishes b = true) by (apply squishes_spec; split; assumption).
    exists (Body.scale b 1.2 0.8).
    rewrite squish_lookup, Hb, Hs. case_decide; [| congruence].
    cbn. repeat split; reflexivity.
  - intros Hor. apply (squish_rigid p i b Hb).
    destruct (squishes b) eqn:Hs; [| reflexivity].
    apply squishes_spec in Hs. destruct Hs as [Hst Hl].
    destruct Hor as [H | H]; congruence.
  - intros j Hne. rewrite squish_lookup.
    case_decide; [congruence | reflexivity].
Qed.

(** The amended C2 at the left square of a freshly started default page. *)
Lemma C2_squish_rescales_the_body_witness :
  let p := Index.handleStart (mount 800 400 1200 800) in
  let b := Body.setVelocity (Index.createSquare 400 (50 + 60 / 2) 60 rubber)
             (Vector.mk 25 0) in
  bodies p !! 4%nat = Some b
  /\ Body.isStatic b = false /\ Body.label b = "rubber"
  /\ exists b', bodies (squish 4 p) !! 4%nat = Some b'
                /\ Body.width b' == Body.width b * 1.2.
Proof.
  intros p b.
  assert (Hb : bodies p !! 4%nat = Some b) by (vm_compute; reflexivity).
  split; [exact Hb |]. split; [reflexivity |]. split; [reflexivity |].
  destruct (proj1 (C2_squish_rescales_the_body p 4 b Hb) eq_refl eq_refl)
    as (b' & H1 & H2 & _).
  exists b'. split; assumption.
Defined.

(** ** Several collisions of one body *)

Lemma Qpower_succ (q : Q) (n : nat) :
  ~ q == 0 -> q ^ Z.of_nat (S n) == q ^ Z.of_nat n * q.
Proof.
  intros Hq. rewrite Nat2Z.inj_succ. unfold Z.succ.
  rewrite Qpower_plus by exact Hq. rewrite Qpower_1_r. reflexivity.
Qed.

Lemma Qpower_cancel (q r : Q) (n : nat) :
  q * r == 1 -> q ^ Z.of_nat n * r ^ Z.of_nat n == 1.
Proof.
  intros H. rewrite <- Qmult_power. rewrite H. apply Qpower_1.
Qed.

Lemma squishes_scale b sx sy : squishes (Body.scale b sx sy) = squishes b.
Proof. reflexivity. Qed.

Lemma pending_more p i j d :
  pending (set_timers (fun q => q ++ [mkTimer j d]) p) i
  = (pending p i + if Nat.eqb j i then 1 else 0)%nat.
Proof.
  unfold pending. cbn [timers set_timers].
  rewrite List.filter_app, length_app. cbn.
  destruct (Nat.eqb j i); reflexivity.
Qed.

Lemma iter_flag {A} (f : A -> A) (c : bool) (n : nat) (x : A) :
  Nat.iter n f (if c then f x else x) = Nat.iter ((if c then 1 else 0) + n) f x.
Proof. destruct c; cbn; [rewrite <- Nat.iter_succ_r |]; reflexivity. Qed.

(** One run of the listener body on [j], seen from body [i]. *)
Lemma squish_at p j i b :
  bodies p !! i = Some b -> squishes b = true ->
  bodies (squish j p) !! i = Some (if Nat.eqb j i then Body.scale b 1.2 0.8 else b)
  /\ pending (squish j p) i = (pending p i + if Nat.eqb j i then 1 else 0)%nat.
Proof.
  intros Hb Hs. split.
  - rewrite squish_lookup. case_decide as Hd.
    + subst j. rewrite Hb, Hs, Nat.eqb_refl. reflexivity.
    + apply Nat.eqb_neq in Hd. rewrite Hd. exact Hb.
  - destruct (Nat.eqb j i) eqn:Hji.
    + apply Nat.eqb_eq in Hji. subst j.
      rewrite (squish_elastic p i b Hb Hs), pending_more, Nat.eqb_refl.
      reflexivity.
    + destruct (bodies p !! j) as [c|] eqn:Hc.
      * destruct (squishes c) eqn:Hsc.
        -- rewrite (squish_elastic p j c Hc Hsc), pending_more, Hji. reflexivity.
        -- rewrite (squish_rigid p j c Hc Hsc). lia.
      * rewrite (squish_missing p j Hc). lia.
Qed.

(** The listener on a whole event: the body has been scaled once per
    occurrence in the pairs, and as many timers have been added for it. *)
Lemma onCollisionStart_at pairs :
  forall p i b,
    bodies p !! i = Some b -> squishes b = true ->
    bodies (onCollisionStart pairs p) !! i
    = Some (Nat.iter (hits i pairs) (fun b => Body.scale b 1.2 0.8) b)
    /\ pending (onCollisionStart pairs p) i = (pending p i + hits i pairs)%nat.
Proof.
  induction pairs as [|[a c] pairs IH]; intros p i b Hb Hs.
  - cbn. split; [exact Hb | lia].
  - change (onCollisionStart ((a, c) :: pairs) p)
      with (onCollisionStart pairs (squish c (squish a p))).
    destruct (squish_at p a i b Hb Hs) as [Hb1 Hp1].
    set (b1 := if Nat.eqb a i then Body.scale b 1.2 0.8 else b) in *.
    assert (Hs1 : squishes b1 = true)
      by (unfold b1; destruct (Nat.eqb a i); [rewrite squishes_scale |]; exact Hs).
    destruct (squish_at (squish a p) c i b1 Hb1 Hs1) as [Hb2 Hp2].
    set (b2 := if Nat.eqb c i then Body.scale b1 1.2 0.8 else b1) in *.
    assert (Hs2 : squishes b2 = true)
      by (unfold b2; destruct (Nat.eqb c i); [rewrite squishes_scale |]; exact Hs1).
    destruct (IH _ i b2 Hb2 Hs2) as [Hb3 Hp3].
    rewrite Hb3, Hp3, Hp2, Hp1. cbn [hits]. unfold b2, b1.
    split; [| lia].
    rewrite !(iter_flag (fun b => Body.scale b 1.2 0.8)). do 2 f_equal. lia.
Qed.

Lemma scaled_up_extent b n :
  Body.width (Nat.iter n (fun b => Body.scale b 1.2 0.8) b)
  == Body.width b * 1.2 ^ Z.of_nat n
  /\ Body.height (Nat.iter n (fun b => Body.scale b 1.2 0.8) b)
     == Body.height b * 0.8 ^ Z.of_nat n.
Proof.
  induction n as [|n [IHw IHh]].
  - cbn [Nat.iter nat_rect]. change (Z.of_nat 0) with 0%Z. rewrite !Qpower_0_r. split; ring.
  - cbn [Nat.iter nat_rect]. cbn [Body.scale Body.setMass Body.width Body.height].
    rewrite !Qpower_succ by discriminate. rewrite IHw, IHh. split; ring.
Qed.

Lemma scaled_down_extent b n :
  Body.width (Nat.iter n (fun b => Body.scale b (1 / 1.2) (1 / 0.8)) b)
  == Body.width b * (1 / 1.2) ^ Z.of_nat n
  /\ Body.height (Nat.iter n (fun b => Body.scale b (1 / 1.2) (1 / 0.8)) b)
     == Body.height b * (1 / 0.8) ^ Z.of_nat n.
Proof.
  induction n as [|n [IHw IHh]].
  - cbn [Nat.iter nat_rect]. change (Z.of_nat 0) with 0%Z. rewrite !Qpower_0_r. split; ring.
  - cbn [Nat.iter nat_rect]. cbn [Body.scale Body.setMass Body.width Body.height].
    rewrite !Qpower_succ by discriminate. rewrite IHw, IHh. split; ring.
Qed.

(** [n] timers that captured one body have run. *)
Lemma unsquish_iter n i p :
  bodies (Nat.iter n (unsquish i) p) !! i
  = Nat.iter n (fun b => Body.scale b (1 / 1.2) (1 / 0.8)) <$> bodies p !! i.
Proof.
  induction n as [|n IH].
  - cbn. destruct (bodies p !! i); reflexivity.
  - rewrite Nat.iter_succ. unfold unsquish at 1. cbn [bodies set_bodies].
    rewrite list_lookup_alter_eq, IH. destruct (bodies p !! i); reflexivity.
Qed.

(** C6, the claim as stated, for a metal square of size 150 on the left and
    a rubber square of size 30 on the right.  The right square (body 5)
    bounces off the right wall (body 3) and, 33 ms later and so before the
    first timer is due, is hit by the left square.  It is then 43.2 x 19.2,
    that is 30 scaled twice, and not 36 x 24, and two timers are pending for
    it. *)
Lemma C6_second_collision_scales_again :
  let p := run index_tsx (configured 150 metal 30 rubber)
               [ClickStart; Elapse 250; CollisionStart 0 [(5, 3)%nat]; Elapse 33;
                CollisionStart 0 [(4, 5)%nat]] in
  option_map (fun p => same_extent (extent p 5) (Some (43.2, 19.2))) p = Some true
  /\ option_map (fun p => same_extent (extent p 5) (Some (36, 24))) p = Some false
  /\ option_map (fun p => pending p 5) p = Some 2%nat
  /\ option_map (fun p => map due (timers p)) p = Some [300; 333]%nat.
Proof.
  vm_compute. repeat split.
Qed.

(** C6, as amended.  The listener does not look at whether a body is already
    squished.  A rubber body that is not static and occurs [n] times in the
    pairs of a ['collisionStart'] event is scaled [n] times: its width is
    multiplied by 1.2 to the [n] and its height by 0.8 to the [n], and [n]
    timers are added for it.  Once those [n] timers have run, the width and
    the height are the original ones again. *)
Theorem C6_collisions_compound :
  forall (pairs : list (nat * nat)) (p : Page) (i : nat) (b : Body.t),
    bodies p !! i = Some b ->
    Body.isStatic b = false ->
    Body.label b = "rubber" ->
    let n := hits i pairs in
    let q := onCollisionStart pairs p in
    exists b' b'',
      bodies q !! i = Some b'
      /\ Body.width b' == Body.width b * 1.2 ^ Z.of_nat n
      /\ Body.height b' == Body.height b * 0.8 ^ Z.of_nat n
      /\ pending q i = (pending p i + n)%nat
      /\ bodies (Nat.iter n (unsquish i) q) !! i = Some b''
      /\ Body.width b'' == Body.width b
      /\ Body.height b'' == Body.height b.
Proof.
  intros pairs p i b Hb Hst Hl n q.
  assert (Hs : squishes b = true) by (apply squishes_spec; split; assumption).
  destruct (onCollisionStart_at pairs p i b Hb Hs) as [Hq Hp].
  fold n in Hq, Hp. fold q in Hq, Hp.
  set (b' := Nat.iter n (fun b => Body.scale b 1.2 0.8) b) in *.
  destruct (scaled_up_extent b n) as [Hw Hh]. fold b' in Hw, Hh.
  destruct (scaled_down_extent b' n) as [Hw' Hh'].
  exists b', (Nat.iter n (fun b => Body.scale b (1 / 1.2) (1 / 0.8)) b').
  split; [exact Hq |]. split; [exact Hw |]. split; [exact Hh |].
  split; [exact Hp |].
  split; [rewrite unsquish_iter, Hq; reflexivity |].
  split.
  - rewrite Hw', Hw, <- Qmult_assoc, Qpower_cancel; [ring | reflexivity].
  - rewrite Hh', Hh, <- Qmult_assoc, Qpower_cancel; [ring | reflexivity].
Qed.

(** The amended C6 at the right square of a started default page, for an
    event in which it touches both the left square and the right wall. *)
Lemma C6_collisions_compound_witness :
  let p := Index.handleStart (mount 800 400 1200 800) in
  let b := Body.setVelocity (Index.createSquare 400 (800 - 50 - 60 / 2) 60 rubber)
             (Vector.mk (- (25)) 0) in
  bodies p !! 5%nat = Some b
  /\ Body.isStatic b = false /\ Body.label b = "rubber"
  /\ hits 5 [(4, 5); (5, 3)]%nat = 2%nat
  /\ exists b', bodies (onCollisionStart [(4, 5); (5, 3)]%nat p) !! 5%nat = Some b'
                /\ Body.width b' == Body.width b * 1.2 ^ 2.
Proof.
  intros p b.
  assert (Hb : bodies p !! 5%nat = Some b) by (vm_compute; reflexivity).
  split; [exact Hb |]. split; [reflexivity |]. split; [reflexivity |].
  split; [reflexivity |].
  destruct (C6_collisions_compound [(4, 5); (5, 3)]%nat p 5 b Hb eq_refl eq_refl)
    as (b' & b'' & H1 & H2 & _).
  exists b'. split; [exact H1 | exact H2].
Defined.

(* ===================================================================== *)
(** * Reset (C4, C5) *)
(* ===================================================================== *)

Lemma index_reset_untouched p :
  let r := Index.handleReset p in
  bodies r = bodies p /\ timers r = timers p /\ now r = now p /\ runners r = runners p.
Proof.
  unfold Index.handleReset. cbn.
  rewrite clearEngine_bodies, clearRender_bodies, clearEngine_timers, clearRender_timers,
    clearEngine_now, clearRender_now, clearEngine_runners, clearRender_runners.
  repeat split.
Qed.

Lemma part_000_reset_untouched p :
  let r := Part000.handleReset p in
  bodies r = bodies p /\ timers r = timers p /\ now r = now p /\ runners r = runners p.
Proof. repeat split. Qed.

(** A timer that is due runs: the body it captured is scaled back and the
    timer leaves the queue. *)
Lemma timer_fires h p k t :
  timers p !! k = Some t -> (due t <= now p)%nat ->
  step h p (TimerFires k) = Some (unsquish (tbody t) (set_timers (delete k) p)).
Proof.
  intros Ht Hd. cbn. rewrite Ht.
  apply Nat.leb_le in Hd. rewrite Hd. reflexivity.
Qed.

(** C4, the claim as stated, on a default page.  The two squares collide
    200 ms after the start, 20 ms later the user resets: the page is stopped,
    no engine is current, body 4 is still 72 x 48 and both timers are still
    queued.  30 ms later the first timer runs and body 4 is 60 x 60: a
    deformation callback ran after the reset and changed a body. *)
Lemma C4_timer_runs_after_reset :
  let at_reset := run index_tsx (mount 800 400 1200 800)
                      [ClickStart; Elapse 200; CollisionStart 0 [(4, 5)%nat];
                       Elapse 20; ClickReset] in
  let later := run index_tsx (mount 800 400 1200 800)
                   [ClickStart; Elapse 200; CollisionStart 0 [(4, 5)%nat];
                    Elapse 20; ClickReset; Elapse 30; TimerFires 0] in
  option_map started at_reset = Some false
  /\ option_map engineRef at_reset = Some None
  /\ option_map (fun p => length (timers p)) at_reset = Some 2%nat
  /\ option_map (fun p => same_extent (extent p 4) (Some (72, 48))) at_reset = Some true
  /\ option_map (fun p => same_extent (extent p 4) (Some (60, 60))) later = Some true
  /\ option_map (fun p => length (timers p)) later = Some 1%nat.
Proof.
  vm_compute. repeat split.
Qed.

(** C4, as amended.  In both copies of the page reset cancels no timer and
    touches no body.  A timer that is queued when reset is called is still
    queued afterwards; once the time it is due at has come it runs, exactly
    as it would have without the reset: it scales the body it captured by
    (1/1.2, 1/0.8), and it leaves the queue, so it runs once. *)
Theorem C4_reset_keeps_timers :
  forall (h : Handlers) (p : Page) (k : nat) (t : Timer) (ms : nat),
    h = index_tsx \/ h = part_000 ->
    timers p !! k = Some t ->
    (due t <= now p + ms)%nat ->
    timers (onReset h p) = timers p
    /\ bodies (onReset h p) = bodies p
    /\ exists q,
         run h (onReset h p) [Elapse ms; TimerFires k] = Some q
         /\ bodies q = alter (fun b => Body.scale b (1 / 1.2) (1 / 0.8)) (tbody t) (bodies p)
         /\ timers q = delete k (timers p).
Proof.
  intros h p k t ms Hh Ht Hd.
  assert (Hr : bodies (onReset h p) = bodies p /\ timers (onReset h p) = timers p
               /\ now (onReset h p) = now p).
  { destruct Hh as [-> | ->]; cbn [onReset index_tsx part_000].
    - destruct (index_reset_untouched p) as (H1 & H2 & H3 & _). auto.
    - destruct (part_000_reset_untouched p) as (H1 & H2 & H3 & _). auto. }
  destruct Hr as (Hb & Hti & Hn).
  split; [exact Hti |]. split; [exact Hb |].
  set (r := onReset h p) in *.
  exists (unsquish (tbody t) (set_timers (delete k) (set_now (now r + ms) r))).
  split.
  - cbn [run].
    change (step h r (Elapse ms)) with (Some (set_now (now r + ms) r)).
    cbv iota. rewrite (timer_fires h (set_now (now r + ms) r) k t).
    + reflexivity.
    + cbn. rewrite Hti. exact Ht.
    + cbn. rewrite Hn. exact Hd.
  - cbn. rewrite Hb, Hti. split; reflexivity.
Qed.

(** The amended C4 at the page of the counterexample: the timer of body 4,
    due at 50, when the reset comes at 20. *)
Lemma C4_reset_keeps_timers_witness :
  let p := set_now 20 (onCollisionStart [(4, 5)%nat]
                         (Index.handleStart (mount 800 400 1200 800))) in
  timers p !! 0%nat = Some (mkTimer 4 50)
  /\ (50 <= 20 + 30)%nat
  /\ timers (Index.handleReset p) = timers p
  /\ exists q, run index_tsx (Index.handleReset p) [Elapse 30; TimerFires 0] = Some q
               /\ timers q = delete 0%nat (timers p).
Proof.
  intros p.
  assert (Ht : timers p !! 0%nat = Some (mkTimer 4 50)) by (vm_compute; reflexivity).
  split; [exact Ht |]. split; [lia |].
  destruct (C4_reset_keeps_timers index_tsx p 0 (mkTimer 4 50) 30
              (or_introl eq_refl) Ht ltac:(cbn; lia))
    as (H1 & _ & q & H2 & _ & H3).
  split; [exact H1 |]. exists q. split; [exact H2 | exact H3].
Defined.

(** ** What reset does *)

Lemma index_reset_idempotent p :
  Index.handleReset (Index.handleReset p) = Index.handleReset p.
Proof.
  destruct p as [sl sr ml mr mtl mtr st vl vr er rr cw ch iw ih sc bo en re ru no ti].
  destruct rr, er; cbv; reflexivity.
Qed.

Lemma part_000_reset_idempotent p :
  Part000.handleReset (Part000.handleReset p) = Part000.handleReset p.
Proof. reflexivity. Qed.

(** The world [World.clear(world, true)] leaves holds static bodies only. *)
Lemma cleared_world_static (p : Page) (en : Engine.t) :
  Forall (fun i => is_static p i = true) (Engine.world (World.clear (bodies p) en true)).
Proof.
  cbn. apply Forall_forall. intros i Hi.
  apply list_elem_of_In, List.filter_In in Hi. exact (proj2 Hi).
Qed.

Lemma index_reset_engine p e en :
  engineRef p = Some e -> engines p !! e = Some en ->
  engines (Index.handleReset p) !! e = Some (World.clear (bodies p) en true).
Proof.
  intros He Hen. unfold Index.handleReset. cbn.
  unfold clearEngine. rewrite clearRender_engineRef, He. cbn.
  rewrite list_lookup_alter_eq, clearRender_engines, Hen, clearRender_bodies.
  reflexivity.
Qed.

Lemma index_reset_render p r x :
  renderRef p = Some r -> renders p !! r = Some x ->
  renders (Index.handleReset p) !! r = Some (Render.stop x).
Proof.
  intros Hr Hx. unfold Index.handleReset. cbn.
  unfold clearEngine. destruct (engineRef (clearRender p)); cbn;
    unfold clearRender; rewrite Hr; cbn;
    rewrite list_lookup_alter_eq, Hx; reflexivity.
Qed.

(** An update of an engine whose world holds static bodies only moves
    nothing, and such an engine has no pair to report. *)
Lemma alter_fixed {A} (f : A -> A) (l : list A) (i : nat) :
  (forall x, l !! i = Some x -> f x = x) -> alter f i l = l.
Proof.
  revert i. induction l as [|a l IH]; intros [|i] H; cbn; try reflexivity.
  - f_equal. apply H. reflexivity.
  - f_equal. apply IH. exact H.
Qed.

Lemma is_static_bodies p q i : bodies q = bodies p -> is_static q i = is_static p i.
Proof. intros H. unfold is_static. rewrite H. reflexivity. Qed.

Lemma integrate_static en solver p :
  Forall (fun i => is_static p i = true) (Engine.world en) ->
  bodies (integrate en solver p) = bodies p.
Proof.
  unfold integrate. generalize (Engine.world en) as w.
  intros w. revert p. induction w as [|i w IH]; intros p Hw; [reflexivity |].
  cbn [fold_left]. inversion Hw as [|? ? Hi Hw']; subst.
  assert (Hsame :
            bodies (set_bodies
                      (alter (fun b => if Body.isStatic b then b
                                       else moved b (solver i b)) i) p)
            = bodies p).
  { cbn. apply alter_fixed. intros x Hx. unfold is_static in Hi.
    rewrite Hx in Hi. rewrite Hi. reflexivity. }
  rewrite IH; [exact Hsame |].
  eapply Forall_impl; [exact Hw' |].
  intros j Hj. rewrite (is_static_bodies p _ j Hsame). exact Hj.
Qed.

Lemma no_pair_among_static p en pair :
  Forall (fun i => is_static p i = true) (Engine.world en) ->
  colliding p en pair = false.
Proof.
  intros Hw. unfold colliding.
  destruct (negb (fst pair =? snd pair)%nat); [| reflexivity].
  destruct (in_world en (fst pair)) eqn:Ha; [| reflexivity].
  destruct (in_world en (snd pair)) eqn:Hb; [| reflexivity].
  cbn. apply negb_false_iff, andb_true_iff.
  rewrite Forall_forall in Hw.
  unfold in_world in Ha, Hb.
  apply existsb_exists in Ha as (a & Hina & Hea).
  apply existsb_exists in Hb as (b & Hinb & Heb).
  apply Nat.eqb_eq in Hea, Heb. subst a b.
  split; apply Hw, list_elem_of_In; assumption.
Qed.

(** C5, the claim as stated, on a default page.  In [index.tsx]: right after
    start and reset the page is stopped, no engine is current and the left
    speed readout is 0; the runner started by [handleStart] is still running
    on engine 0, its next update triggers ['afterUpdate'], and the readout is
    25.  In the second copy of the page the update after the reset still
    moves the left square (from 200 to 215). *)
Lemma C5_updates_go_on_after_reset :
  let r := run index_tsx (mount 800 400 1200 800) [ClickStart; ClickReset] in
  let u := run index_tsx (mount 800 400 1200 800) [ClickStart; ClickReset; AfterUpdate 0] in
  let r' := run part_000 (mount 800 400 1200 800) [ClickStart; ClickReset] in
  let u' := run part_000 (mount 800 400 1200 800)
                [ClickStart; ClickReset; EngineMoves 0 coast] in
  option_map started r = Some false
  /\ option_map engineRef r = Some None
  /\ option_map (fun p => running p 0) r = Some true
  /\ option_map (fun p => Qeq_bool (velocityLeftDisplay p) 0) r = Some true
  /\ option_map (fun p => Qeq_bool (velocityLeftDisplay p) 25) u = Some true
  /\ option_map started r' = Some false
  /\ option_map (fun p => same_extent (Some (0, 0))
                            (option_map (fun x => (x - 200, 0)) (position_x p 4)))
                r' = Some true
  /\ option_map (fun p => same_extent (Some (0, 0))
                            (option_map (fun x => (x - 215, 0)) (position_x p 4)))
                u' = Some true.
Proof.
  vm_compute. repeat split.
Qed.

(** C5, as amended.  Reset in [index.tsx] forgets the engine and the
    renderer, marks the page as not started, sets both speed readouts to 0
    and empties the scene element; of the world that was current it keeps
    the static bodies only, so a later update of that engine moves no body
    and reports no collision, and it stops the renderer that was current.
    Calling it again changes nothing, when no world exists it changes
    none of the matter-js objects, timers or the clock, and on a page that
    has just been mounted it changes nothing at all.  Reset in the second
    copy of the page marks the page as not started, sets both readouts to 0
    and empties the scene element, and calling it again changes nothing.
    (Nothing is said here about the speed readouts after the reset.) *)
Theorem C5_reset_tears_down :
  forall p : Page,
    let r := Index.handleReset p in
    let r' := Part000.handleReset p in
    (engineRef r = None /\ renderRef r = None /\ started r = false
     /\ velocityLeftDisplay r = 0 /\ velocityRightDisplay r = 0
     /\ scene r = [] /\ dynamic_bodies r = [])
    /\ (forall e en,
           engineRef p = Some e -> engines p !! e = Some en ->
           exists en',
             engines r !! e = Some en'
             /\ Forall (fun i => is_static r i = true) (Engine.world en'))
    /\ (forall e solver q,
           engineRef p = Some e ->
           step index_tsx r (EngineMoves e solver) = Some q -> bodies q = bodies r)
    /\ (forall e pairs,
           engineRef p = Some e -> step index_tsx r (CollisionStart e pairs) = None)
    /\ (forall rd x,
           renderRef p = Some rd -> renders p !! rd = Some x ->
           renders r !! rd = Some (Render.stop x))
    /\ Index.handleReset r = r
    /\ (engineRef p = None -> renderRef p = None ->
        bodies r = bodies p /\ engines r = engines p /\ renders r = renders p
        /\ runners r = runners p /\ timers r = timers p /\ now r = now p)
    /\ (started r' = false /\ velocityLeftDisplay r' = 0 /\ velocityRightDisplay r' = 0
        /\ scene r' = [] /\ Part000.handleReset r' = r')
    /\ (forall w h iw ih,
           Index.handleReset (mount w h iw ih) = mount w h iw ih
           /\ Part000.handleReset (mount w h iw ih) = mount w h iw ih).
Proof.
  intros p r r'.
  assert (Href : engineRef r = None)
    by (unfold r, Index.handleReset; cbn; apply clearEngine_engineRef).
  split.
  { split; [exact Href |].
    split; [unfold r, Index.handleReset; cbn;
            rewrite clearEngine_renderRef; apply clearRender_renderRef |].
    do 4 (split; [reflexivity |]).
    unfold dynamic_bodies. rewrite Href. reflexivity. }
  split.
  { intros e en He Hen. exists (World.clear (bodies p) en true).
    split; [apply index_reset_engine; assumption |].
    pose proof (cleared_world_static p en) as Hst.
    unfold is_static in *. unfold r.
    destruct (index_reset_untouched p) as (-> & _). exact Hst. }
  assert (Hcur : forall e en',
             engineRef p = Some e -> engines r !! e = Some en' ->
             Forall (fun i => is_static r i = true) (Engine.world en')).
  { intros e en' He Hen'.
    assert (Hlen : (e < length (engines p))%nat).
    { apply lookup_lt_Some in Hen'. unfold r, Index.handleReset in Hen'. cbn in Hen'.
      rewrite clearEngine_length, clearRender_engines in Hen'. exact Hen'. }
    destruct (lookup_lt_is_Some_2 _ _ Hlen) as [en Hen].
    unfold r in Hen' |- *. rewrite (index_reset_engine p e en He Hen) in Hen'.
    injection Hen' as <-.
    pose proof (cleared_world_static p en) as Hst.
    unfold is_static in *.
    destruct (index_reset_untouched p) as (-> & _). exact Hst. }
  split.
  { intros e solver q He Hq. cbn [step] in Hq.
    destruct (engines r !! e) as [en'|] eqn:Hen'; [| discriminate].
    destruct (running r e); [| discriminate].
    injection Hq as <-. apply integrate_static. apply (Hcur e en' He Hen'). }
  split.
  { intros e pairs He. cbn [step].
    destruct (engines r !! e) as [en'|] eqn:Hen'; [| reflexivity].
    destruct pairs as [|pair pairs]; [reflexivity |].
    cbn [forallb]. rewrite (no_pair_among_static r en' pair (Hcur e en' He Hen')).
    rewrite andb_false_r. reflexivity. }
  split; [intros rd x; apply index_reset_render |].
  split; [apply index_reset_idempotent |].
  split.
  { intros He Hr. unfold r, Index.handleReset, clearRender, clearEngine.
    rewrite Hr. cbn. rewrite He. cbn. repeat split. }
  split; [repeat split |].
  intros w h iw ih. split; reflexivity.
Qed.

(** The amended C5 at a started default page: engine 0 and renderer 0 are
    current. *)
Lemma C5_reset_tears_down_witness :
  let p := Index.handleStart (mount 800 400 1200 800) in
  engineRef p = Some 0%nat
  /\ engines p !! 0%nat = Some (started_engine 0)
  /\ (exists en', engines (Index.handleReset p) !! 0%nat = Some en'
                  /\ Forall (fun i => is_static (Index.handleReset p) i = true)
                       (Engine.world en'))
  /\ engineRef (mount 800 400 1200 800) = None
  /\ renderRef (mount 800 400 1200 800) = None
  /\ bodies (Index.handleReset (mount 800 400 1200 800)) = bodies (mount 800 400 1200 800).
Proof.
  intros p.
  assert (He : engineRef p = Some 0%nat) by (vm_compute; reflexivity).
  assert (Hen : engines p !! 0%nat = Some (started_engine 0)) by (vm_compute; reflexivity).
  split; [exact He |]. split; [exact Hen |].
  destruct (C5_reset_tears_down p) as (_ & Hworld & _).
  split; [exact (Hworld 0%nat _ He Hen) |].
  split; [reflexivity |]. split; [reflexivity |].
  destruct (C5_reset_tears_down (mount 800 400 1200 800))
    as (_ & _ & _ & _ & _ & _ & Hnone & _ & _).
  exact (proj1 (Hnone eq_refl eq_refl)).
Defined.

(* ===================================================================== *)
(** * No drift: what is scaled is scaled back (C7) *)
(* ===================================================================== *)

Lemma keeps_rest_refl p i : keeps_rest p p i.
Proof. intros b Hb. exists b. split; [exact Hb | split; reflexivity]. Qed.

Lemma keeps_rest_trans p q r i : keeps_rest p q i -> keeps_rest q r i -> keeps_rest p r i.
Proof.
  intros Hpq Hqr b Hb.
  destruct (Hpq b Hb) as (b1 & Hb1 & Hw1 & Hh1).
  destruct (Hqr b1 Hb1) as (b2 & Hb2 & Hw2 & Hh2).
  exists b2. split; [exact Hb2 |].
  split; [rewrite Hw2; exact Hw1 | rewrite Hh2; exact Hh1].
Qed.

(** A step that leaves the extent of the body and its timers alone. *)
Lemma keeps_rest_still p q i :
  (forall b, bodies p !! i = Some b ->
             exists b', bodies q !! i = Some b'
                        /\ Body.width b' = Body.width b
                        /\ Body.height b' = Body.height b) ->
  timers q = timers p ->
  keeps_rest p q i.
Proof.
  intros Hb Ht b Hpb. destruct (Hb b Hpb) as (b' & Hb' & Hw & Hh).
  exists b'. unfold pending. rewrite Ht, Hw, Hh.
  split; [exact Hb' | split; reflexivity].
Qed.

Lemma keeps_rest_same p q i :
  bodies q = bodies p -> timers q = timers p -> keeps_rest p q i.
Proof.
  intros Hb Ht. apply keeps_rest_still; [| exact Ht].
  intros b Hpb. exists b. rewrite Hb. repeat split. exact Hpb.
Qed.

Lemma up_then_down_x (w : Q) (k : nat) :
  w * 1.2 * (1 / 1.2) ^ Z.of_nat (k + 1) == w * (1 / 1.2) ^ Z.of_nat k.
Proof.
  rewrite Nat.add_1_r, Qpower_succ by discriminate.
  generalize ((1 / 1.2) ^ Z.of_nat k). intros r. field.
Qed.

Lemma up_then_down_y (h : Q) (k : nat) :
  h * 0.8 * (1 / 0.8) ^ Z.of_nat (k + 1) == h * (1 / 0.8) ^ Z.of_nat k.
Proof.
  rewrite Nat.add_1_r, Qpower_succ by discriminate.
  generalize ((1 / 0.8) ^ Z.of_nat k). intros r. field.
Qed.

Lemma keeps_rest_squish j p i : keeps_rest p (squish j p) i.
Proof.
  destruct (bodies p !! j) as [c|] eqn:Hc;
    [| rewrite (squish_missing p j Hc); apply keeps_rest_refl].
  destruct (squishes c) eqn:Hs;
    [| rewrite (squish_rigid p j c Hc Hs); apply keeps_rest_refl].
  intros b Hb.
  pose proof (squish_lookup p j i) as Hl.
  rewrite (squish_elastic p j c Hc Hs) in Hl |- *.
  rewrite pending_more.
  destruct (decide (j = i)) as [Heq | Hne].
  - subst j. rewrite Hb in Hc. injection Hc as ->.
    rewrite Hb, Hs in Hl. rewrite Nat.eqb_refl.
    exists (Body.scale c 1.2 0.8). split; [exact Hl |].
    cbn [Body.scale Body.setMass Body.width Body.height].
    split; [apply up_then_down_x | apply up_then_down_y].
  - rewrite Hb in Hl. apply Nat.eqb_neq in Hne. rewrite Hne, Nat.add_0_r.
    exists b. split; [exact Hl | split; reflexivity].
Qed.

Lemma keeps_rest_listener pairs : forall p i, keeps_rest p (onCollisionStart pairs p) i.
Proof.
  induction pairs as [|[a c] pairs IH]; intros p i; [apply keeps_rest_refl |].
  change (onCollisionStart ((a, c) :: pairs) p)
    with (onCollisionStart pairs (squish c (squish a p))).
  eapply keeps_rest_trans; [apply keeps_rest_squish |].
  eapply keeps_rest_trans; [apply keeps_rest_squish | apply IH].
Qed.

Lemma keeps_rest_collisionStart en pairs p i :
  keeps_rest p (trigger_collisionStart en pairs p) i.
Proof.
  unfold trigger_collisionStart. generalize (Engine.events en) as ls.
  intros ls. revert p. induction ls as [|l ls IH]; intros p; [apply keeps_rest_refl |].
  cbn [fold_left]. destruct l.
  - eapply keeps_rest_trans; [apply keeps_rest_listener | apply IH].
  - apply IH.
Qed.

Lemma keeps_rest_afterUpdate en p i : keeps_rest p (trigger_afterUpdate en p) i.
Proof.
  unfold trigger_afterUpdate. generalize (Engine.events en) as ls.
  intros ls. revert p. induction ls as [|l ls IH]; intros p; [apply keeps_rest_refl |].
  cbn [fold_left]. destruct l.
  - apply IH.
  - eapply keeps_rest_trans; [| apply IH].
    apply keeps_rest_same; reflexivity.
Qed.

Lemma keeps_rest_integrate en solver p i : keeps_rest p (integrate en solver p) i.
Proof.
  unfold integrate. generalize (Engine.world en) as w.
  intros w. revert p. induction w as [|j w IH]; intros p; [apply keeps_rest_refl |].
  cbn [fold_left]. eapply keeps_rest_trans; [| apply IH].
  apply keeps_rest_still; [| reflexivity].
  intros b Hb. cbn [bodies set_bodies].
  destruct (decide (j = i)) as [-> | Hne].
  - rewrite list_lookup_alter_eq, Hb. cbn.
    destruct (Body.isStatic b); eexists; repeat split.
  - rewrite list_lookup_alter_ne by exact Hne. exists b. repeat split. exact Hb.
Qed.

Lemma pending_less p k t i :
  timers p !! k = Some t ->
  pending p i
  = (pending (set_timers (delete k) p) i + if Nat.eqb (tbody t) i then 1 else 0)%nat.
Proof.
  unfold pending. cbn [timers set_timers]. generalize (timers p) as l.
  intros l. revert k. induction l as [|a l IH]; intros [|k] Hk; cbn in Hk; try discriminate.
  - injection Hk as ->. cbn. destruct (Nat.eqb (tbody t) i); cbn; lia.
  - cbn. specialize (IH k Hk). revert IH.
    destruct (Nat.eqb (tbody a) i), (Nat.eqb (tbody t) i); cbn;
      intros IH; first [exact IH | f_equal; exact IH].
Qed.

Lemma down_x (w : Q) (k : nat) :
  w * (1 / 1.2) * (1 / 1.2) ^ Z.of_nat k == w * (1 / 1.2) ^ Z.of_nat (k + 1).
Proof.
  rewrite Nat.add_1_r, Qpower_succ by discriminate.
  generalize ((1 / 1.2) ^ Z.of_nat k). intros r. ring.
Qed.

Lemma down_y (h : Q) (k : nat) :
  h * (1 / 0.8) * (1 / 0.8) ^ Z.of_nat k == h * (1 / 0.8) ^ Z.of_nat (k + 1).
Proof.
  rewrite Nat.add_1_r, Qpower_succ by discriminate.
  generalize ((1 / 0.8) ^ Z.of_nat k). intros r. ring.
Qed.

Lemma keeps_rest_timer p k t i :
  timers p !! k = Some t ->
  keeps_rest p (unsquish (tbody t) (set_timers (delete k) p)) i.
Proof.
  intros Hk b Hb.
  rewrite (pending_less p k t i Hk).
  unfold unsquish. cbn [bodies set_bodies set_timers].
  change (pending (set_bodies _ (set_timers (delete k) p)) i)
    with (pending (set_timers (delete k) p) i).
  destruct (decide (tbody t = i)) as [Heq | Hne].
  - rewrite Heq, Nat.eqb_refl, list_lookup_alter_eq, Hb.
    eexists. split; [reflexivity |].
    cbn [Body.scale Body.setMass Body.width Body.height].
    split; [apply down_x | apply down_y].
  - rewrite list_lookup_alter_ne by exact Hne.
    apply Nat.eqb_neq in Hne. rewrite Hne, Nat.add_0_r.
    exists b. split; [exact Hb | split; reflexivity].
Qed.

Lemma index_start_timers p : timers (Index.handleStart p) = timers p.
Proof.
  unfold Index.handleStart. cbn. rewrite clearEngine_timers. apply clearRender_timers.
Qed.

Lemma part_000_start_timers p : timers (Part000.handleStart p) = timers p.
Proof.
  unfold Part000.handleStart. cbn. rewrite clearEngine_timers. apply clearRender_timers.
Qed.

Lemma keeps_rest_grown p q i extra :
  bodies q = bodies p ++ extra -> timers q = timers p -> keeps_rest p q i.
Proof.
  intros Hb Ht. apply keeps_rest_still; [| exact Ht].
  intros b Hpb. exists b. rewrite Hb.
  rewrite lookup_app_l by (eapply lookup_lt_Some; exact Hpb).
  repeat split. exact Hpb.
Qed.

(** No event disturbs a body at rest, in either copy of the page. *)
Lemma keeps_rest_step h p ev q i :
  h = index_tsx \/ h = part_000 -> step h p ev = Some q -> keeps_rest p q i.
Proof.
  intros Hh Hstep. destruct ev as [| |e solver|e pairs|e|ms|k]; cbn [step] in Hstep.
  - injection Hstep as <-. destruct Hh as [-> | ->]; cbn [onStart index_tsx part_000].
    + eapply keeps_rest_grown; [apply index_start_bodies | apply index_start_timers].
    + eapply keeps_rest_grown; [apply part_000_start_bodies | apply part_000_start_timers].
  - injection Hstep as <-. destruct Hh as [-> | ->]; cbn [onReset index_tsx part_000].
    + destruct (index_reset_untouched p) as (Hb & Ht & _).
      apply keeps_rest_same; assumption.
    + apply keeps_rest_same; reflexivity.
  - destruct (engines p !! e) as [en|]; [| discriminate].
    destruct (running p e); [| discriminate].
    injection Hstep as <-. apply keeps_rest_integrate.
  - destruct (engines p !! e) as [en|]; [| discriminate].
    destruct pairs as [|pair pairs]; [discriminate |].
    destruct (running p e && forallb (colliding p en) (pair :: pairs)); [| discriminate].
    injection Hstep as <-. apply keeps_rest_collisionStart.
  - destruct (engines p !! e) as [en|]; [| discriminate].
    destruct (running p e); [| discriminate].
    injection Hstep as <-. apply keeps_rest_afterUpdate.
  - injection Hstep as <-. apply keeps_rest_same; reflexivity.
  - destruct (timers p !! k) as [t|] eqn:Hk; [| discriminate].
    destruct (due t <=? now p)%nat; [| discriminate].
    injection Hstep as <-. apply keeps_rest_timer. exact Hk.
Qed.

Lemma keeps_rest_run h evs :
  forall p q i,
    h = index_tsx \/ h = part_000 -> run h p evs = Some q -> keeps_rest p q i.
Proof.
  induction evs as [|ev evs IH]; intros p q i Hh Hrun; cbn [run] in Hrun.
  - injection Hrun as <-. apply keeps_rest_refl.
  - destruct (step h p ev) as [p'|] eqn:Hstep; [| discriminate].
    eapply keeps_rest_trans; [eapply keeps_rest_step; eassumption |].
    apply IH; assumption.
Qed.

(** C7.  Scaling a body by (1.2, 0.8) and then by (1/1.2, 1/0.8), the two
    calls of the collision listener and of its timer, gives back the width
    and the height the body had (as exact numbers), about the same position,
    and its area is again width times height.  Hence nothing drifts: over
    any sequence of events of either copy of the page, a body for which no
    timer is pending at the beginning and none at the end has at the end the
    width and the height it had at the beginning. *)
Theorem C7_scale_round_trip :
  (forall b : Body.t,
      let b' := Body.scale (Body.scale b 1.2 0.8) (1 / 1.2) (1 / 0.8) in
      Body.width b' == Body.width b
      /\ Body.height b' == Body.height b
      /\ Body.area b' == Body.width b * Body.height b
      /\ Body.position b' = Body.position b)
  /\ (forall (h : Handlers) (p : Page) (evs : list Event) (q : Page) (i : nat)
             (b : Body.t),
         h = index_tsx \/ h = part_000 ->
         run h p evs = Some q ->
         bodies p !! i = Some b ->
         pending p i = 0%nat ->
         pending q i = 0%nat ->
         exists b',
           bodies q !! i = Some b'
           /\ Body.width b' == Body.width b
           /\ Body.height b' == Body.height b).
Proof.
  split.
  - intros b. cbn.
    split; [apply squish_factor_x |].
    split; [apply squish_factor_y |].
    split; [rewrite squish_factor_x, squish_factor_y |]; reflexivity.
  - intros h p evs q i b Hh Hrun Hb Hp Hq.
    destruct (keeps_rest_run h evs p q i Hh Hrun b Hb) as (b' & Hb' & Hw & Hh').
    rewrite Hp, Hq in Hw, Hh'. change (Z.of_nat 0) with 0%Z in Hw, Hh'.
    rewrite !Qpower_0_r, !Qmult_1_r in Hw, Hh'.
    exists b'. split; [exact Hb' | split; assumption].
Qed.

(** C7 on a started default page: the two squares collide, 50 ms pass and
    the timer of the left square (body 4) runs. *)
Lemma C7_scale_round_trip_witness :
  let p := Index.handleStart (mount 800 400 1200 800) in
  let b := Body.setVelocity (Index.createSquare 400 (50 + 60 / 2) 60 rubber)
             (Vector.mk 25 0) in
  match run index_tsx p [CollisionStart 0 [(4, 5)%nat]; Elapse 50; TimerFires 0] with
  | Some q =>
      bodies p !! 4%nat = Some b
      /\ pending p 4 = 0%nat /\ pending q 4 = 0%nat
      /\ exists b', bodies q !! 4%nat = Some b' /\ Body.width b' == Body.width b
  | None => False
  end.
Proof.
  intros p b.
  destruct (run index_tsx p [CollisionStart 0 [(4, 5)%nat]; Elapse 50; TimerFires 0])
    as [q|] eqn:Hrun; [| vm_compute in Hrun; discriminate].
  assert (Hb : bodies p !! 4%nat = Some b) by (vm_compute; reflexivity).
  assert (Hp : pending p 4 = 0%nat) by (vm_compute; reflexivity).
  assert (Hq : pending q 4 = 0%nat)
    by (vm_compute in Hrun; injection Hrun as <-; reflexivity).
  split; [exact Hb |]. split; [exact Hp |]. split; [exact Hq |].
  destruct (proj2 C7_scale_round_trip index_tsx p _ q 4%nat b
              (or_introl eq_refl) Hrun Hb Hp Hq) as (b' & Hb' & Hw & _).
  exists b'. split; [exact Hb' | exact Hw].
Defined.

(* ===================================================================== *)
(** * What a run keeps of a stored body *)
(* ===================================================================== *)

(** Simulation events leave everything but bodies, timers, clock and
    readouts alone. *)
Lemma squish_frame j p :
  fixtures (squish j p) = fixtures p /\ now (squish j p) = now p
  /\ velocityLeftDisplay (squish j p) = velocityLeftDisplay p
  /\ velocityRightDisplay (squish j p) = velocityRightDisplay p.
Proof.
  unfold squish. destruct (bodies p !! j) as [c|]; [| repeat split].
  destruct (negb (Body.isStatic c) && String.eqb (Body.label c) "rubber"); repeat split.
Qed.

Lemma listener_frame pairs :
  forall p,
    fixtures (onCollisionStart pairs p) = fixtures p
    /\ now (onCollisionStart pairs p) = now p
    /\ velocityLeftDisplay (onCollisionStart pairs p) = velocityLeftDisplay p
    /\ velocityRightDisplay (onCollisionStart pairs p) = velocityRightDisplay p.
Proof.
  induction pairs as [|[a c] pairs IH]; intros p; [repeat split |].
  change (onCollisionStart ((a, c) :: pairs) p)
    with (onCollisionStart pairs (squish c (squish a p))).
  destruct (IH (squish c (squish a p))) as (-> & -> & -> & ->).
  destruct (squish_frame c (squish a p)) as (-> & -> & -> & ->).
  apply squish_frame.
Qed.

Lemma collisionStart_frame en pairs p :
  fixtures (trigger_collisionStart en pairs p) = fixtures p
  /\ now (trigger_collisionStart en pairs p) = now p
  /\ velocityLeftDisplay (trigger_collisionStart en pairs p) = velocityLeftDisplay p
  /\ velocityRightDisplay (trigger_collisionStart en pairs p) = velocityRightDisplay p.
Proof.
  unfold trigger_collisionStart. generalize (Engine.events en) as ls.
  intros ls. revert p. induction ls as [|l ls IH]; intros p; [repeat split |].
  cbn [fold_left]. destruct l; [| apply IH].
  destruct (IH (onCollisionStart pairs p)) as (-> & -> & -> & ->).
  apply listener_frame.
Qed.

Lemma afterUpdate_frame en p :
  fixtures (trigger_afterUpdate en p) = fixtures p
  /\ now (trigger_afterUpdate en p) = now p
  /\ bodies (trigger_afterUpdate en p) = bodies p
  /\ timers (trigger_afterUpdate en p) = timers p.
Proof.
  unfold trigger_afterUpdate. generalize (Engine.events en) as ls.
  intros ls. revert p. induction ls as [|l ls IH]; intros p; [repeat split |].
  cbn [fold_left]. destruct l; [apply IH |].
  destruct (IH (onAfterUpdate left_ right_ p)) as (-> & -> & -> & ->).
  repeat split.
Qed.

Lemma integrate_frame en solver p :
  fixtures (integrate en solver p) = fixtures p
  /\ now (integrate en solver p) = now p
  /\ timers (integrate en solver p) = timers p
  /\ velocityLeftDisplay (integrate en solver p) = velocityLeftDisplay p
  /\ velocityRightDisplay (integrate en solver p) = velocityRightDisplay p.
Proof.
  unfold integrate. generalize (Engine.world en) as w.
  intros w. revert p. induction w as [|j w IH]; intros p; [repeat split |].
  cbn [fold_left].
  match goal with
  | |- context [fold_left ?f w ?p'] => destruct (IH p') as (-> & -> & -> & -> & ->)
  end.
  repeat split.
Qed.

Lemma sim_step_fixtures h p ev q :
  is_click ev = false -> step h p ev = Some q -> fixtures q = fixtures p.
Proof.
  intros Hc Hstep. destruct ev as [| |e solver|e pairs|e|ms|k];
    try discriminate Hc; cbn [step] in Hstep.
  - destruct (engines p !! e) as [en|]; [| discriminate].
    destruct (running p e); [| discriminate].
    injection Hstep as <-. apply integrate_frame.
  - destruct (engines p !! e) as [en|]; [| discriminate].
    destruct pairs as [|pair pairs]; [discriminate |].
    destruct (running p e && forallb (colliding p en) (pair :: pairs)); [| discriminate].
    injection Hstep as <-. apply collisionStart_frame.
  - destruct (engines p !! e) as [en|]; [| discriminate].
    destruct (running p e); [| discriminate].
    injection Hstep as <-. apply afterUpdate_frame.
  - injection Hstep as <-. reflexivity.
  - destruct (timers p !! k) as [t|]; [| discriminate].
    destruct (due t <=? now p)%nat; [| discriminate].
    injection Hstep as <-. reflexivity.
Qed.

Section Stays.
Variable R : Body.t -> Body.t -> Prop.
Variable G : Page -> Prop.
Hypothesis R_refl : forall b, R b b.
Hypothesis R_trans : forall a b c, R a b -> R b c -> R a c.
Hypothesis R_squish : forall b, squishes b = true -> R b (Body.scale b 1.2 0.8).
Hypothesis R_unsquish :
  forall p k t b,
    G p -> timers p !! k = Some t -> bodies p !! tbody t = Some b ->
    R b (Body.scale b (1 / 1.2) (1 / 0.8)).
Hypothesis R_moved : forall b pv, R b (moved b pv).
Hypothesis G_step :
  forall h p ev q,
    h = index_tsx \/ h = part_000 -> G p -> step h p ev = Some q -> G q.

Lemma stays_refl p i : stays R p p i.
Proof. intros b Hb. exists b. split; [exact Hb | apply R_refl]. Qed.

Lemma stays_trans p q r i : stays R p q i -> stays R q r i -> stays R p r i.
Proof.
  intros Hpq Hqr b Hb.
  destruct (Hpq b Hb) as (b1 & Hb1 & H1).
  destruct (Hqr b1 Hb1) as (b2 & Hb2 & H2).
  exists b2. split; [exact Hb2 | eapply R_trans; eassumption].
Qed.

Lemma stays_bodies p q i : bodies q = bodies p -> stays R p q i.
Proof. intros H b Hb. exists b. rewrite H. split; [exact Hb | apply R_refl]. Qed.

Lemma stays_alter (f : Body.t -> Body.t) p q j i :
  (forall b, bodies p !! j = Some b -> R b (f b)) ->
  bodies q = alter f j (bodies p) -> stays R p q i.
Proof.
  intros Hf Hq b Hb. rewrite Hq.
  destruct (decide (j = i)) as [-> | Hne].
  - rewrite list_lookup_alter_eq, Hb. exists (f b).
    split; [reflexivity | apply Hf; exact Hb].
  - rewrite list_lookup_alter_ne by exact Hne. exists b. split; [exact Hb | apply R_refl].
Qed.

Lemma stays_grown p q i extra : bodies q = bodies p ++ extra -> stays R p q i.
Proof.
  intros H b Hb. exists b. rewrite H.
  rewrite lookup_app_l by (eapply lookup_lt_Some; exact Hb).
  split; [exact Hb | apply R_refl].
Qed.

Lemma stays_squish j p i : stays R p (squish j p) i.
Proof.
  destruct (bodies p !! j) as [c|] eqn:Hc;
    [| rewrite (squish_missing p j Hc); apply stays_refl].
  destruct (squishes c) eqn:Hs;
    [| rewrite (squish_rigid p j c Hc Hs); apply stays_refl].
  rewrite (squish_elastic p j c Hc Hs).
  eapply (stays_alter (fun b => Body.scale b 1.2 0.8)); [| reflexivity].
  intros b Hb. rewrite Hc in Hb. injection Hb as <-. apply R_squish. exact Hs.
Qed.

Lemma stays_listener pairs : forall p i, stays R p (onCollisionStart pairs p) i.
Proof.
  induction pairs as [|[a c] pairs IH]; intros p i; [apply stays_refl |].
  change (onCollisionStart ((a, c) :: pairs) p)
    with (onCollisionStart pairs (squish c (squish a p))).
  eapply stays_trans; [apply stays_squish |].
  eapply stays_trans; [apply stays_squish | apply IH].
Qed.

Lemma stays_collisionStart en pairs p i : stays R p (trigger_collisionStart en pairs p) i.
Proof.
  unfold trigger_collisionStart. generalize (Engine.events en) as ls.
  intros ls. revert p. induction ls as [|l ls IH]; intros p; [apply stays_refl |].
  cbn [fold_left]. destruct l.
  - eapply stays_trans; [apply stays_listener | apply IH].
  - apply IH.
Qed.

Lemma stays_integrate en solver p i : stays R p (integrate en solver p) i.
Proof.
  unfold integrate. generalize (Engine.world en) as w.
  intros w. revert p. induction w as [|j w IH]; intros p; [apply stays_refl |].
  cbn [fold_left]. eapply stays_trans; [| apply IH].
  eapply (stays_alter (fun b => if Body.isStatic b then b else moved b (solver j b)));
    [| reflexivity].
  intros b _. destruct (Body.isStatic b); [apply R_refl | apply R_moved].
Qed.

Lemma stays_step h p ev q i :
  h = index_tsx \/ h = part_000 -> G p -> step h p ev = Some q -> stays R p q i.
Proof.
  intros Hh HG Hstep. destruct ev as [| |e solver|e pairs|e|ms|k]; cbn [step] in Hstep.
  - injection Hstep as <-. destruct Hh as [-> | ->]; cbn [onStart index_tsx part_000].
    + eapply stays_grown. apply index_start_bodies.
    + eapply stays_grown. apply part_000_start_bodies.
  - injection Hstep as <-. destruct Hh as [-> | ->]; cbn [onReset index_tsx part_000].
    + apply stays_bodies. apply (proj1 (index_reset_untouched p)).
    + apply stays_bodies. reflexivity.
  - destruct (engines p !! e) as [en|]; [| discriminate].
    destruct (running p e); [| discriminate].
    injection Hstep as <-. apply stays_integrate.
  - destruct (engines p !! e) as [en|]; [| discriminate].
    destruct pairs as [|pair pairs]; [discriminate |].
    destruct (running p e && forallb (colliding p en) (pair :: pairs)); [| discriminate].
    injection Hstep as <-. apply stays_collisionStart.
  - destruct (engines p !! e) as [en|]; [| discriminate].
    destruct (running p e); [| discriminate].
    injection Hstep as <-. apply stays_bodies. apply afterUpdate_frame.
  - injection Hstep as <-. apply stays_bodies. reflexivity.
  - destruct (timers p !! k) as [t|] eqn:Hk; [| discriminate].
    destruct (due t <=? now p)%nat; [| discriminate].
    injection Hstep as <-.
    eapply (stays_alter (fun b => Body.scale b (1 / 1.2) (1 / 0.8))); [| reflexivity].
    intros b Hb. cbn in Hb. eapply R_unsquish; eassumption.
Qed.

Lemma stays_run h evs :
  forall p q i,
    h = index_tsx \/ h = part_000 -> G p -> run h p evs = Some q ->
    G q /\ stays R p q i.
Proof.
  induction evs as [|ev evs IH]; intros p q i Hh HG Hrun; cbn [run] in Hrun.
  - injection Hrun as <-. split; [exact HG | apply stays_refl].
  - destruct (step h p ev) as [p'|] eqn:Hstep; [| discriminate].
    destruct (IH p' q i Hh (G_step h p ev p' Hh HG Hstep) Hrun) as [HGq Hst].
    split; [exact HGq |].
    eapply stays_trans; [eapply stays_step; eassumption | exact Hst].
Qed.

End Stays.

Lemma same_kind_refl b : same_kind b b.
Proof. repeat split. Qed.

Lemma same_kind_trans a b c : same_kind a b -> same_kind b c -> same_kind a c.
Proof.
  intros (H1 & H2 & H3 & H4 & H5) (K1 & K2 & K3 & K4 & K5).
  repeat split; congruence.
Qed.

Lemma same_kind_squishes b b' : same_kind b b' -> squishes b' = squishes b.
Proof. intros (Hl & Hs & _). unfold squishes. rewrite Hl, Hs. reflexivity. Qed.

Lemma same_kind_scale b sx sy : same_kind b (Body.scale b sx sy).
Proof. repeat split. Qed.

Lemma same_kind_moved b pv : same_kind b (moved b pv).
Proof. repeat split. Qed.

(** The kind of a body over one event and over a run; no guard is needed. *)
Lemma kind_step h p ev q i :
  h = index_tsx \/ h = part_000 -> step h p ev = Some q -> stays same_kind p q i.
Proof.
  intros Hh Hstep.
  exact (stays_step same_kind (fun _ => True) same_kind_refl same_kind_trans
           (fun b _ => same_kind_scale b 1.2 0.8)
           (fun _ _ _ b _ _ _ => same_kind_scale b (1 / 1.2) (1 / 0.8))
           same_kind_moved h p ev q i Hh I Hstep).
Qed.

Lemma kind_run h evs p q i :
  h = index_tsx \/ h = part_000 -> run h p evs = Some q -> stays same_kind p q i.
Proof.
  intros Hh Hrun.
  exact (proj2 (stays_run same_kind (fun _ => True) same_kind_refl same_kind_trans
                  (fun b _ => same_kind_scale b 1.2 0.8)
                  (fun _ _ _ b _ _ _ => same_kind_scale b (1 / 1.2) (1 / 0.8))
                  same_kind_moved (fun _ _ _ _ _ _ _ => I) h evs p q i Hh I Hrun)).
Qed.

(* ===================================================================== *)
(** * The timer queue over a run *)
(* ===================================================================== *)

Lemma index_start_now p : now (Index.handleStart p) = now p.
Proof.
  unfold Index.handleStart. cbn. rewrite clearEngine_now. apply clearRender_now.
Qed.

Lemma part_000_start_now p : now (Part000.handleStart p) = now p.
Proof.
  unfold Part000.handleStart. cbn. rewrite clearEngine_now. apply clearRender_now.
Qed.

(** Timers that were in order stay so in a page that has the same bodies by
    kind, a clock that is not earlier and no timer of its own. *)
Lemma timers_ok_keep p q :
  timers_ok p ->
  (forall i, stays same_kind p q i) ->
  (now p <= now q)%nat ->
  (forall t, t ∈ timers q -> t ∈ timers p) ->
  timers_ok q.
Proof.
  unfold timers_ok. rewrite !Forall_forall. intros Hp Hst Hnow Hsub t Ht.
  destruct (Hp t (Hsub t Ht)) as (Hd & b & Hb & Hs).
  split; [lia |].
  destruct (Hst (tbody t) b Hb) as (b' & Hb' & Hk).
  exists b'. split; [exact Hb' |].
  rewrite (same_kind_squishes b b' Hk). exact Hs.
Qed.

Lemma timers_ok_add p t :
  timers_ok p ->
  (due t <= now p + 50)%nat ->
  (exists b, bodies p !! tbody t = Some b /\ squishes b = true) ->
  timers_ok (set_timers (fun q => q ++ [t]) p).
Proof.
  intros Hp Hd Hb. unfold timers_ok in *. cbn [timers set_timers now bodies].
  apply Forall_app. split; [exact Hp |].
  apply Forall_cons. split; [| apply Forall_nil; exact I].
  split; assumption.
Qed.

Lemma timers_ok_squish j p : timers_ok p -> timers_ok (squish j p).
Proof.
  intros Hp.
  destruct (bodies p !! j) as [c|] eqn:Hc;
    [| rewrite (squish_missing p j Hc); exact Hp].
  destruct (squishes c) eqn:Hs;
    [| rewrite (squish_rigid p j c Hc Hs); exact Hp].
  rewrite (squish_elastic p j c Hc Hs).
  apply timers_ok_add.
  - apply (timers_ok_keep p _ Hp); [| reflexivity | intros t Ht; exact Ht].
    intros i.
    apply (stays_alter same_kind same_kind_refl (fun b => Body.scale b 1.2 0.8) p _ j i);
      [intros b _; apply same_kind_scale | reflexivity].
  - cbn. lia.
  - exists (Body.scale c 1.2 0.8). cbn [tbody bodies set_bodies].
    rewrite list_lookup_alter_eq, Hc. split; [reflexivity | exact Hs].
Qed.

Lemma timers_ok_listener pairs : forall p, timers_ok p -> timers_ok (onCollisionStart pairs p).
Proof.
  induction pairs as [|[a c] pairs IH]; intros p Hp; [exact Hp |].
  change (onCollisionStart ((a, c) :: pairs) p)
    with (onCollisionStart pairs (squish c (squish a p))).
  apply IH. apply timers_ok_squish. apply timers_ok_squish. exact Hp.
Qed.

Lemma timers_ok_collisionStart en pairs p :
  timers_ok p -> timers_ok (trigger_collisionStart en pairs p).
Proof.
  unfold trigger_collisionStart. generalize (Engine.events en) as ls.
  intros ls. revert p. induction ls as [|l ls IH]; intros p Hp; [exact Hp |].
  cbn [fold_left]. destruct l; apply IH; [apply timers_ok_listener |]; exact Hp.
Qed.

Lemma timers_ok_step h p ev q :
  h = index_tsx \/ h = part_000 -> timers_ok p -> step h p ev = Some q -> timers_ok q.
Proof.
  intros Hh Hp Hstep.
  pose proof (fun i => kind_step h p ev q i Hh Hstep) as Hkind.
  destruct ev as [| |e solver|e pairs|e|ms|k]; cbn [step] in Hstep.
  - injection Hstep as <-. apply (timers_ok_keep p _ Hp Hkind);
      destruct Hh as [-> | ->]; cbn [onStart index_tsx part_000].
    + rewrite index_start_now. lia.
    + rewrite part_000_start_now. lia.
    + rewrite index_start_timers. auto.
    + rewrite part_000_start_timers. auto.
  - injection Hstep as <-. apply (timers_ok_keep p _ Hp Hkind);
      destruct Hh as [-> | ->]; cbn [onReset index_tsx part_000].
    + destruct (index_reset_untouched p) as (_ & _ & -> & _). lia.
    + cbn. lia.
    + destruct (index_reset_untouched p) as (_ & -> & _). auto.
    + cbn. auto.
  - destruct (engines p !! e) as [en|]; [| discriminate].
    destruct (running p e); [| discriminate].
    injection Hstep as <-.
    destruct (integrate_frame en solver p) as (_ & Hn & Ht & _).
    apply (timers_ok_keep p _ Hp Hkind); [rewrite Hn; lia | rewrite Ht; auto].
  - destruct (engines p !! e) as [en|]; [| discriminate].
    destruct pairs as [|pair pairs]; [discriminate |].
    destruct (running p e && forallb (colliding p en) (pair :: pairs)); [| discriminate].
    injection Hstep as <-. apply timers_ok_collisionStart. exact Hp.
  - destruct (engines p !! e) as [en|]; [| discriminate].
    destruct (running p e); [| discriminate].
    injection Hstep as <-.
    destruct (afterUpdate_frame en p) as (_ & Hn & _ & Ht).
    apply (timers_ok_keep p _ Hp Hkind); [rewrite Hn; lia | rewrite Ht; auto].
  - injection Hstep as <-.
    apply (timers_ok_keep p _ Hp Hkind); [cbn; lia | cbn; auto].
  - destruct (timers p !! k) as [t|] eqn:Hk; [| discriminate].
    destruct (due t <=? now p)%nat; [| discriminate].
    injection Hstep as <-.
    apply (timers_ok_keep p _ Hp Hkind); [cbn; lia |].
    cbn. intros t'. apply list_elem_of_delete_inv.
Qed.

Lemma timers_ok_run h evs :
  forall p q,
    h = index_tsx \/ h = part_000 -> timers_ok p -> run h p evs = Some q -> timers_ok q.
Proof.
  induction evs as [|ev evs IH]; intros p q Hh Hp Hrun; cbn [run] in Hrun.
  - injection Hrun as <-. exact Hp.
  - destruct (step h p ev) as [p'|] eqn:Hstep; [| discriminate].
    eapply IH; [exact Hh | | exact Hrun].
    eapply timers_ok_step; eassumption.
Qed.

Lemma timers_ok_mount w h iw ih : timers_ok (mount w h iw ih).
Proof. apply Forall_nil. exact I. Qed.

(** X1.  Over any sequence of events of either copy of the page a stored
    body stays stored and keeps its label, its being static or not and its
    restitution; so the restitution a pair of stored bodies is resolved with
    is the same at every later time. *)
Theorem body_kind_is_fixed :
  forall (h : Handlers) (evs : list Event) (p q : Page) (i j : nat) (a b : Body.t),
    h = index_tsx \/ h = part_000 ->
    run h p evs = Some q ->
    bodies p !! i = Some a ->
    bodies p !! j = Some b ->
    exists a' b',
      bodies q !! i = Some a' /\ bodies q !! j = Some b'
      /\ Body.label a' = Body.label a
      /\ Body.isStatic a' = Body.isStatic a
      /\ Body.restitution a' = Body.restitution a
      /\ Pair.restitution a' b' = Pair.restitution a b.
Proof.
  intros h evs p q i j a b Hh Hrun Ha Hb.
  destruct (kind_run h evs p q i Hh Hrun a Ha) as (a' & Ha' & Hl & Hs & Hr & _).
  destruct (kind_run h evs p q j Hh Hrun b Hb) as (b' & Hb' & _ & _ & Hr' & _).
  exists a', b'. unfold Pair.restitution. rewrite Hr, Hr'. repeat split; assumption.
Qed.

(** X1 on a started page with a metal and a rubber square: after a
    collision, 50 ms and the timer of the rubber square. *)
Lemma body_kind_is_fixed_witness :
  let p := Index.handleStart (configured 150 metal 30 rubber) in
  match run index_tsx p [CollisionStart 0 [(4, 5)%nat]; Elapse 50; TimerFires 0],
        bodies p !! 4%nat, bodies p !! 5%nat with
  | Some q, Some a, Some b =>
      exists a' b',
        bodies q !! 4%nat = Some a' /\ bodies q !! 5%nat = Some b'
        /\ Body.label a' = Body.label a
        /\ Pair.restitution a' b' = Pair.restitution a b
  | _, _, _ => False
  end.
Proof.
  intros p.
  destruct (run index_tsx p [CollisionStart 0 [(4, 5)%nat]; Elapse 50; TimerFires 0])
    as [q|] eqn:Hrun; [| vm_compute in Hrun; discriminate].
  destruct (bodies p !! 4%nat) as [a|] eqn:Ha; [| vm_compute in Ha; discriminate].
  destruct (bodies p !! 5%nat) as [b|] eqn:Hb; [| vm_compute in Hb; discriminate].
  destruct (body_kind_is_fixed index_tsx _ p q 4 5 a b (or_introl eq_refl) Hrun Ha Hb)
    as (a' & b' & H1 & H2 & H3 & _ & _ & H4).
  exists a', b'. repeat split; assumption.
Defined.

(** X2.  Over any sequence of events of either copy of the page, starting
    from a page whose timer queue is in order (a freshly mounted page has no
    timer), every queued timer is due at most 50 ms from now and captured a
    stored body that is not static and is labelled rubber. *)
Theorem timers_target_rubber_within_50ms :
  forall (h : Handlers) (evs : list Event) (p q : Page) (t : Timer),
    h = index_tsx \/ h = part_000 ->
    timers_ok p ->
    run h p evs = Some q ->
    t ∈ timers q ->
    (due t <= now q + 50)%nat
    /\ exists b, bodies q !! tbody t = Some b
                 /\ Body.isStatic b = false /\ Body.label b = "rubber".
Proof.
  intros h evs p q t Hh Hp Hrun Ht.
  pose proof (timers_ok_run h evs p q Hh Hp Hrun) as Hq.
  unfold timers_ok in Hq. rewrite Forall_forall in Hq.
  destruct (Hq t Ht) as (Hd & b & Hb & Hs).
  split; [exact Hd |]. exists b. split; [exact Hb |].
  apply squishes_spec. exact Hs.
Qed.

(** X2 on a default page, 17 ms after the two squares have collided. *)
Lemma timers_target_rubber_within_50ms_witness :
  match run index_tsx (mount 800 400 1200 800)
            [ClickStart; Elapse 200; CollisionStart 0 [(4, 5)%nat]; Elapse 17] with
  | Some q =>
      timers_ok (mount 800 400 1200 800)
      /\ mkTimer 4 250 ∈ timers q
      /\ (250 <= now q + 50)%nat
      /\ exists b, bodies q !! 4%nat = Some b /\ Body.label b = "rubber"
  | None => False
  end.
Proof.
  destruct (run index_tsx (mount 800 400 1200 800)
              [ClickStart; Elapse 200; CollisionStart 0 [(4, 5)%nat]; Elapse 17])
    as [q|] eqn:Hrun; [| vm_compute in Hrun; discriminate].
  assert (Hin : mkTimer 4 250 ∈ timers q).
  { vm_compute in Hrun. injection Hrun as <-. apply list_elem_of_here. }
  split; [apply timers_ok_mount |]. split; [exact Hin |].
  destruct (timers_target_rubber_within_50ms index_tsx _ _ q (mkTimer 4 250)
              (or_introl eq_refl) (timers_ok_mount 800 400 1200 800) Hrun Hin)
    as (Hd & b & Hb & _ & Hl).
  split; [exact Hd |]. exists b. split; assumption.
Defined.

(** ** Only rubber is squished *)

Lemma same_rigid_refl b : same_rigid b b.
Proof. intros Hs. repeat split. exact Hs. Qed.

Lemma same_rigid_trans a b c : same_rigid a b -> same_rigid b c -> same_rigid a c.
Proof.
  intros Hab Hbc Ha. destruct (Hab Ha) as (Hb & H1 & H2 & H3 & H4 & H5).
  destruct (Hbc Hb) as (Hc & K1 & K2 & K3 & K4 & K5).
  repeat split; congruence.
Qed.

Lemma same_rigid_moved b pv : same_rigid b (moved b pv).
Proof. intros Hs. repeat split. exact Hs. Qed.

Lemma same_rigid_squish b : squishes b = true -> same_rigid b (Body.scale b 1.2 0.8).
Proof. intros Hs Hn. congruence. Qed.

Lemma same_rigid_unsquish p k t b :
  timers_ok p -> timers p !! k = Some t -> bodies p !! tbody t = Some b ->
  same_rigid b (Body.scale b (1 / 1.2) (1 / 0.8)).
Proof.
  intros Hp Hk Hb Hn. unfold timers_ok in Hp. rewrite Forall_forall in Hp.
  destruct (Hp t) as (_ & c & Hc & Hs); [eapply list_elem_of_lookup_2; exact Hk |].
  congruence.
Qed.

(** X3.  Over any sequence of events of either copy of the page, starting
    from a page whose timer queue is in order, a stored body that is static
    or is not labelled rubber (a wall, or a metal, wood or plastic square)
    keeps exactly its width, height, area and mass: only rubber is ever
    scaled, by the listener or by a timer. *)
Theorem only_rubber_is_scaled :
  forall (h : Handlers) (evs : list Event) (p q : Page) (i : nat) (b : Body.t),
    h = index_tsx \/ h = part_000 ->
    timers_ok p ->
    run h p evs = Some q ->
    bodies p !! i = Some b ->
    Body.isStatic b = true \/ Body.label b <> "rubber" ->
    exists b',
      bodies q !! i = Some b'
      /\ Body.width b' = Body.width b
      /\ Body.height b' = Body.height b
      /\ Body.area b' = Body.area b
      /\ Body.mass b' = Body.mass b.
Proof.
  intros h evs p q i b Hh Hp Hrun Hb Hor.
  destruct (stays_run same_rigid timers_ok same_rigid_refl same_rigid_trans
              same_rigid_squish same_rigid_unsquish same_rigid_moved timers_ok_step
              h evs p q i Hh Hp Hrun) as [_ Hst].
  destruct (Hst b Hb) as (b' & Hb' & Hr).
  assert (Hn : squishes b = false).
  { destruct (squishes b) eqn:Hs; [| reflexivity].
    apply squishes_spec in Hs. destruct Hs as [Hst' Hl].
    destruct Hor as [H | H]; congruence. }
  destruct (Hr Hn) as (_ & Hw & Hh' & Ha & Hm & _).
  exists b'. repeat split; assumption.
Qed.

(** X3 at the metal square of a page with a metal and a rubber square,
    through two collisions and a timer. *)
Lemma only_rubber_is_scaled_witness :
  let p := Index.handleStart (configured 150 metal 30 rubber) in
  match run index_tsx p
            [CollisionStart 0 [(4, 5)%nat]; Elapse 33; CollisionStart 0 [(5, 3)%nat];
             Elapse 17; TimerFires 0],
        bodies p !! 4%nat with
  | Some q, Some b =>
      timers_ok p /\ Body.label b <> "rubber"
      /\ exists b', bodies q !! 4%nat = Some b' /\ Body.width b' = Body.width b
  | _, _ => False
  end.
Proof.
  intros p.
  destruct (run index_tsx p
              [CollisionStart 0 [(4, 5)%nat]; Elapse 33; CollisionStart 0 [(5, 3)%nat];
               Elapse 17; TimerFires 0])
    as [q|] eqn:Hrun; [| vm_compute in Hrun; discriminate].
  destruct (bodies p !! 4%nat) as [b|] eqn:Hb; [| vm_compute in Hb; discriminate].
  assert (Hp : timers_ok p) by (apply Forall_nil; exact I).
  assert (Hl : Body.label b <> "rubber").
  { vm_compute in Hb. injection Hb as <-. discriminate. }
  split; [exact Hp |]. split; [exact Hl |].
  destruct (only_rubber_is_scaled index_tsx _ p q 4 b (or_introl eq_refl) Hp Hrun Hb
              (or_intror Hl)) as (b' & Hb' & Hw & _).
  exists b'. split; assumption.
Defined.

(* ===================================================================== *)
(** * Renderers, canvases, engines and runners over a run *)
(* ===================================================================== *)

Lemma some_eq {A} (x y : A) : Some x = Some y -> x = y.
Proof. intros H. injection H as H. exact H. Qed.

Lemma clearRender_renders p :
  renders (clearRender p)
  = match renderRef p with
    | Some r => alter Render.stop r (renders p)
    | None => renders p
    end.
Proof. unfold clearRender. destruct (renderRef p); reflexivity. Qed.

Lemma clearRender_scene p :
  scene (clearRender p)
  = match renderRef p with
    | Some r => List.filter (fun c => negb (Nat.eqb c r)) (scene p)
    | None => scene p
    end.
Proof. unfold clearRender. destruct (renderRef p); reflexivity. Qed.

Lemma clearRender_started p : started (clearRender p) = started p.
Proof. unfold clearRender. destruct (renderRef p); reflexivity. Qed.

Lemma clearEngine_renders p : renders (clearEngine p) = renders p.
Proof. unfold clearEngine. destruct (engineRef p); reflexivity. Qed.

Lemma clearEngine_scene p : scene (clearEngine p) = scene p.
Proof. unfold clearEngine. destruct (engineRef p); reflexivity. Qed.

Lemma clearEngine_started p : started (clearEngine p) = started p.
Proof. unfold clearEngine. destruct (engineRef p); reflexivity. Qed.

Lemma clearEngine_engines p :
  engines (clearEngine p)
  = match engineRef p with
    | Some e => alter (fun en => World.clear (bodies p) en true) e (engines p)
    | None => engines p
    end.
Proof. unfold clearEngine. destruct (engineRef p); reflexivity. Qed.

Lemma clearRender_length p : length (renders (clearRender p)) = length (renders p).
Proof.
  rewrite clearRender_renders. destruct (renderRef p); [apply length_alter | reflexivity].
Qed.

Lemma index_start_renders p :
  renders (Index.handleStart p)
  = renders (clearRender p) ++ [Render.mk (length (engines p)) true]
  /\ scene (Index.handleStart p) = scene (clearRender p) ++ [length (renders p)]
  /\ renderRef (Index.handleStart p) = Some (length (renders p))
  /\ started (Index.handleStart p) = true.
Proof.
  unfold Index.handleStart. cbn.
  rewrite !clearEngine_renders, !clearEngine_scene, clearEngine_length,
    clearRender_engines, clearRender_length.
  repeat split.
Qed.

Lemma part_000_start_renders p :
  renders (Part000.handleStart p)
  = renders (clearRender p) ++ [Render.mk (length (engines p)) true]
  /\ scene (Part000.handleStart p) = scene (clearRender p) ++ [length (renders p)]
  /\ renderRef (Part000.handleStart p) = Some (length (renders p))
  /\ started (Part000.handleStart p) = true.
Proof.
  unfold Part000.handleStart. cbn.
  rewrite !clearEngine_renders, !clearEngine_scene, clearEngine_length,
    clearRender_engines, clearRender_length.
  repeat split.
Qed.

Lemma index_reset_renders p :
  renders (Index.handleReset p) = renders (clearRender p)
  /\ scene (Index.handleReset p) = []
  /\ renderRef (Index.handleReset p) = None
  /\ engineRef (Index.handleReset p) = None
  /\ started (Index.handleReset p) = false
  /\ engines (Index.handleReset p) = engines (clearEngine (clearRender p)).
Proof.
  unfold Index.handleReset. cbn.
  rewrite clearEngine_renders, clearEngine_renderRef, clearRender_renderRef,
    clearEngine_engineRef.
  repeat split.
Qed.

(** Stopping the current renderer leaves no renderer running. *)
Lemma stopped_all p i rd :
  renderer_ok p -> renders (clearRender p) !! i = Some rd -> Render.running rd = false.
Proof.
  intros [Hrun _] Hi. rewrite clearRender_renders in Hi.
  destruct (Render.running rd) eqn:Hr; [| reflexivity].
  destruct (renderRef p) as [r|] eqn:Href.
  - destruct (decide (r = i)) as [-> | Hne].
    + rewrite list_lookup_alter_eq in Hi.
      destruct (renders p !! i) as [x|]; [| discriminate].
      injection Hi as <-. discriminate Hr.
    + rewrite list_lookup_alter_ne in Hi by exact Hne.
      pose proof (Hrun i rd Hi Hr). congruence.
  - pose proof (Hrun i rd Hi Hr). congruence.
Qed.

Lemma cleared_scene p : renderer_ok p -> scene (clearRender p) = [].
Proof.
  intros [_ Hsc]. rewrite clearRender_scene.
  destruct Hsc as [Hsc | (r & Hr & Hsc)]; rewrite Hsc.
  - destruct (renderRef p); reflexivity.
  - rewrite Hr. cbn. rewrite Nat.eqb_refl. reflexivity.
Qed.

Lemma renderer_ok_started p q e :
  renderer_ok p ->
  renders q = renders (clearRender p) ++ [Render.mk e true] ->
  scene q = scene (clearRender p) ++ [length (renders p)] ->
  renderRef q = Some (length (renders p)) ->
  renderer_ok q.
Proof.
  intros Hp Hre Hsc Href. split.
  - intros i rd Hi Hr. rewrite Hre in Hi. rewrite Href.
    destruct (decide (i < length (renders (clearRender p)))%nat) as [Hlt | Hge].
    + rewrite lookup_app_l in Hi by exact Hlt.
      rewrite (stopped_all p i rd Hp Hi) in Hr. discriminate.
    + apply lookup_lt_Some in Hi. rewrite length_app in Hi. cbn in Hi.
      rewrite clearRender_length in Hi, Hge. f_equal. lia.
  - right. exists (length (renders p)). split; [exact Href |].
    rewrite Hsc, (cleared_scene p Hp). reflexivity.
Qed.

Lemma renderer_ok_fixtures p q : fixtures q = fixtures p -> renderer_ok p -> renderer_ok q.
Proof.
  unfold fixtures, renderer_ok. intros H. injection H as _ Hre _ Hsc _ Href _.
  rewrite Hre, Hsc, Href. auto.
Qed.

Lemma renderer_ok_step h p ev q :
  h = index_tsx \/ h = part_000 -> renderer_ok p -> step h p ev = Some q -> renderer_ok q.
Proof.
  intros Hh Hp Hstep.
  destruct (is_click ev) eqn:Hc;
    [| eapply renderer_ok_fixtures; [eapply sim_step_fixtures; eassumption | exact Hp]].
  destruct ev; try discriminate Hc; cbn [step] in Hstep; apply some_eq in Hstep; subst;
    destruct Hh as [-> | ->]; cbn [onStart onReset index_tsx part_000].
  - destruct (index_start_renders p) as (H1 & H2 & H3 & _).
    eapply renderer_ok_started; eassumption.
  - destruct (part_000_start_renders p) as (H1 & H2 & H3 & _).
    eapply renderer_ok_started; eassumption.
  - destruct (index_reset_renders p) as (H1 & H2 & H3 & _). split.
    + intros i rd Hi Hr. rewrite H1 in Hi.
      rewrite (stopped_all p i rd Hp Hi) in Hr. discriminate.
    + left. exact H2.
  - destruct Hp as [Hrun _]. split; [exact Hrun | left; reflexivity].
Qed.

Lemma renderer_ok_run h evs :
  forall p q,
    h = index_tsx \/ h = part_000 -> renderer_ok p -> run h p evs = Some q ->
    renderer_ok q.
Proof.
  induction evs as [|ev evs IH]; intros p q Hh Hp Hrun; cbn [run] in Hrun.
  - injection Hrun as <-. exact Hp.
  - destruct (step h p ev) as [p'|] eqn:Hstep; [| discriminate].
    eapply IH; [exact Hh | | exact Hrun].
    eapply renderer_ok_step; eassumption.
Qed.

Lemma renderer_ok_mount w h iw ih : renderer_ok (mount w h iw ih).
Proof. split; [intros i rd Hi; destruct i; discriminate | left; reflexivity]. Qed.

(** X4.  Over any sequence of events of either copy of the page, starting
    from a page where this holds (a freshly mounted page has no renderer and
    an empty scene): every renderer whose frame loop runs is the one
    [renderRef] points to, so at most one runs, and the scene element holds
    at most one canvas, the one of that renderer. *)
Theorem one_renderer_one_canvas :
  forall (h : Handlers) (evs : list Event) (p q : Page),
    h = index_tsx \/ h = part_000 ->
    renderer_ok p ->
    run h p evs = Some q ->
    (forall i rd,
        renders q !! i = Some rd -> Render.running rd = true -> renderRef q = Some i)
    /\ (length (scene q) <= 1)%nat
    /\ (forall c, c ∈ scene q -> renderRef q = Some c).
Proof.
  intros h evs p q Hh Hp Hrun.
  destruct (renderer_ok_run h evs p q Hh Hp Hrun) as [Hr Hsc].
  split; [exact Hr |].
  destruct Hsc as [Hsc | (r & Href & Hsc)]; rewrite Hsc; cbn.
  - split; [lia |]. intros c Hc. inversion Hc.
  - split; [lia |]. intros c Hc. apply list_elem_of_singleton in Hc. congruence.
Qed.

(** X4 on a default page that is started, reset and started again. *)
Lemma one_renderer_one_canvas_witness :
  match run index_tsx (mount 800 400 1200 800) [ClickStart; ClickReset; ClickStart] with
  | Some q =>
      renderer_ok (mount 800 400 1200 800)
      /\ (length (scene q) <= 1)%nat
      /\ (forall c, c ∈ scene q -> renderRef q = Some c)
  | None => False
  end.
Proof.
  destruct (run index_tsx (mount 800 400 1200 800) [ClickStart; ClickReset; ClickStart])
    as [q|] eqn:Hrun; [| vm_compute in Hrun; discriminate].
  split; [apply renderer_ok_mount |].
  exact (proj2 (one_renderer_one_canvas index_tsx _ _ q (or_introl eq_refl)
                  (renderer_ok_mount 800 400 1200 800) Hrun)).
Defined.

(** ** Engines *)

Lemma is_static_kept p q i :
  stays same_kind p q i -> is_static p i = true -> is_static q i = true.
Proof.
  intros Hst Hs. unfold is_static in *.
  destruct (bodies p !! i) as [b|] eqn:Hb; [| discriminate].
  destruct (Hst b Hb) as (b' & -> & _ & Hk & _). congruence.
Qed.

Lemma all_static_kept p q w :
  (forall i, stays same_kind p q i) ->
  Forall (fun i => is_static p i = true) w -> Forall (fun i => is_static q i = true) w.
Proof.
  intros Hst Hw. eapply Forall_impl; [exact Hw |].
  intros i Hi. eapply is_static_kept; [apply Hst | exact Hi].
Qed.

(** After the two guarded blocks no engine has a body that is not static. *)
Lemma worlds_cleared p e en :
  worlds_ok p ->
  engines (clearEngine (clearRender p)) !! e = Some en ->
  Engine.gravity_y en = 0
  /\ (exists l r, Engine.events en = [Events.collisionStart; Events.afterUpdate l r])
  /\ Forall (fun i => is_static p i = true) (Engine.world en).
Proof.
  intros Hp He.
  rewrite clearEngine_engines, clearRender_engineRef, clearRender_engines,
    clearRender_bodies in He.
  destruct (engineRef p) as [e0|] eqn:Href.
  - destruct (decide (e0 = e)) as [-> | Hne].
    + rewrite list_lookup_alter_eq in He.
      destruct (engines p !! e) as [x|] eqn:Hx; [| discriminate].
      injection He as <-. destruct (Hp e x Hx) as (Hg & Hev & _).
      split; [exact Hg |]. split; [exact Hev |]. apply cleared_world_static.
    + rewrite list_lookup_alter_ne in He by exact Hne.
      destruct (Hp e en He) as (Hg & Hev & Hst).
      split; [exact Hg |]. split; [exact Hev |]. apply Hst. congruence.
  - destruct (Hp e en He) as (Hg & Hev & Hst).
    split; [exact Hg |]. split; [exact Hev |]. apply Hst. congruence.
Qed.

Lemma worlds_ok_started p q :
  worlds_ok p ->
  (forall i, stays same_kind p q i) ->
  engines q = engines (clearEngine (clearRender p)) ++ [started_engine (length (bodies p))] ->
  engineRef q = Some (length (engines p)) ->
  worlds_ok q.
Proof.
  intros Hp Hst Hen Href e en He. rewrite Hen in He.
  assert (Hlen : length (engines (clearEngine (clearRender p))) = length (engines p))
    by (rewrite clearEngine_length, clearRender_engines; reflexivity).
  destruct (decide (e < length (engines p))%nat) as [Hlt | Hge].
  - rewrite lookup_app_l in He by (rewrite Hlen; exact Hlt).
    destruct (worlds_cleared p e en Hp He) as (Hg & Hev & Hw).
    split; [exact Hg |]. split; [exact Hev |].
    intros _. eapply all_static_kept; eassumption.
  - pose proof (lookup_lt_Some _ _ _ He) as Hb. rewrite length_app, Hlen in Hb. cbn in Hb.
    assert (e = length (engines p)) as -> by lia.
    rewrite <- Hlen, lookup_at_end in He. injection He as <-.
    split; [reflexivity |]. split; [eexists _, _; reflexivity |].
    intros Hne. rewrite Href in Hne. congruence.
Qed.

Lemma worlds_ok_same p q :
  engines q = engines p -> engineRef q = engineRef p ->
  (forall i, stays same_kind p q i) -> worlds_ok p -> worlds_ok q.
Proof.
  intros Hen Href Hst Hp e en He.
  rewrite Hen in He. destruct (Hp e en He) as (Hg & Hev & Hw).
  split; [exact Hg |]. split; [exact Hev |].
  intros Hne. rewrite Href in Hne. eapply all_static_kept; [exact Hst | apply Hw; exact Hne].
Qed.

Lemma worlds_ok_click h p ev :
  h = index_tsx \/ h = part_000 -> is_click ev = true -> worlds_ok p ->
  worlds_ok (match ev with ClickStart => onStart h p | _ => onReset h p end).
Proof.
  intros Hh Hc Hp. destruct ev; try discriminate Hc; destruct Hh as [-> | ->];
    cbn [onStart onReset index_tsx part_000].
  - pose proof (fun i => stays_grown same_kind same_kind_refl p _ i _
                           (index_start_bodies p)) as Hkind.
    eapply worlds_ok_started;
      [exact Hp | exact Hkind | apply index_start_engines | apply index_start_engineRef].
  - pose proof (fun i => stays_grown same_kind same_kind_refl p _ i _
                           (part_000_start_bodies p)) as Hkind.
    eapply worlds_ok_started;
      [exact Hp | exact Hkind | apply part_000_start_engines
       | apply part_000_start_engineRef].
  - pose proof (fun i => stays_bodies same_kind same_kind_refl p _ i
                           (proj1 (index_reset_untouched p))) as Hkind.
    destruct (index_reset_renders p) as (_ & _ & _ & Href & _ & Hen).
    intros e en He. rewrite Hen in He.
    destruct (worlds_cleared p e en Hp He) as (Hg & Hev & Hw).
    split; [exact Hg |]. split; [exact Hev |].
    intros _. eapply all_static_kept; eassumption.
  - pose proof (fun i => stays_bodies same_kind same_kind_refl p
                           (Part000.handleReset p) i eq_refl) as Hkind.
    apply (worlds_ok_same p (Part000.handleReset p) eq_refl eq_refl Hkind Hp).
Qed.

Lemma click_step h p ev q :
  is_click ev = true -> step h p ev = Some q ->
  q = match ev with ClickStart => onStart h p | _ => onReset h p end.
Proof.
  intros Hc Hstep. destruct ev; try discriminate Hc; cbn [step] in Hstep;
    apply some_eq in Hstep; symmetry; exact Hstep.
Qed.

Lemma worlds_ok_step h p ev q :
  h = index_tsx \/ h = part_000 -> worlds_ok p -> step h p ev = Some q -> worlds_ok q.
Proof.
  intros Hh Hp Hstep.
  destruct (is_click ev) eqn:Hc.
  - rewrite (click_step h p ev q Hc Hstep). apply worlds_ok_click; assumption.
  - pose proof (fun i => kind_step h p ev q i Hh Hstep) as Hkind.
    pose proof (sim_step_fixtures h p ev q Hc Hstep) as Hf.
    unfold fixtures in Hf. injection Hf as Hen _ _ _ Href _ _.
    exact (worlds_ok_same p q Hen Href Hkind Hp).
Qed.

Lemma worlds_ok_run h evs :
  forall p q,
    h = index_tsx \/ h = part_000 -> worlds_ok p -> run h p evs = Some q -> worlds_ok q.
Proof.
  induction evs as [|ev evs IH]; intros p q Hh Hp Hrun; cbn [run] in Hrun.
  - injection Hrun as <-. exact Hp.
  - destruct (step h p ev) as [p'|] eqn:Hstep; [| discriminate].
    eapply IH; [exact Hh | | exact Hrun].
    eapply worlds_ok_step; eassumption.
Qed.

Lemma worlds_ok_mount w h iw ih : worlds_ok (mount w h iw ih).
Proof. intros e en He. destruct e; discriminate. Qed.

(** X5.  Over any sequence of events of either copy of the page, starting
    from a page where this holds (a freshly mounted page has no engine):
    every engine has its vertical gravity at 0 and exactly the two listeners
    registered by [handleStart], and a body that is not static is in the
    world of no engine but the current one. *)
Theorem one_live_world :
  forall (h : Handlers) (evs : list Event) (p q : Page) (e : nat) (en : Engine.t),
    h = index_tsx \/ h = part_000 ->
    worlds_ok p ->
    run h p evs = Some q ->
    engines q !! e = Some en ->
    Engine.gravity_y en = 0
    /\ (exists l r, Engine.events en = [Events.collisionStart; Events.afterUpdate l r])
    /\ (forall i, i ∈ Engine.world en -> is_static q i = false -> engineRef q = Some e).
Proof.
  intros h evs p q e en Hh Hp Hrun He.
  destruct (worlds_ok_run h evs p q Hh Hp Hrun e en He) as (Hg & Hev & Hw).
  split; [exact Hg |]. split; [exact Hev |].
  intros i Hi Hs.
  destruct (decide (engineRef q = Some e)) as [Heq | Hne]; [exact Heq |].
  specialize (Hw Hne). rewrite Forall_forall in Hw. rewrite (Hw i Hi) in Hs. discriminate.
Qed.

(** X5 on a default page that is started twice: the left square of the first
    world is no longer in the world of engine 0. *)
Lemma one_live_world_witness :
  match run index_tsx (mount 800 400 1200 800) [ClickStart; ClickStart] with
  | Some q =>
      worlds_ok (mount 800 400 1200 800)
      /\ exists en, engines q !! 0%nat = Some en
                    /\ Engine.gravity_y en = 0
                    /\ (forall i, i ∈ Engine.world en -> is_static q i = false ->
                                  engineRef q = Some 0%nat)
  | None => False
  end.
Proof.
  destruct (run index_tsx (mount 800 400 1200 800) [ClickStart; ClickStart])
    as [q|] eqn:Hrun; [| vm_compute in Hrun; discriminate].
  split; [apply worlds_ok_mount |].
  destruct (engines q !! 0%nat) as [en|] eqn:He;
    [| vm_compute in Hrun; injection Hrun as <-; discriminate He].
  exists en. split; [reflexivity |].
  destruct (one_live_world index_tsx _ _ q 0 en (or_introl eq_refl)
              (worlds_ok_mount 800 400 1200 800) Hrun He) as (Hg & _ & Hw).
  split; [exact Hg | exact Hw].
Defined.

(** ** Runners *)

Lemma runners_step h p ev q :
  h = index_tsx \/ h = part_000 -> step h p ev = Some q ->
  runners q
  = runners p ++ match ev with ClickStart => [length (engines p)] | _ => [] end.
Proof.
  intros Hh Hstep.
  destruct (is_click ev) eqn:Hc.
  - destruct ev; try discriminate Hc; cbn [step] in Hstep; apply some_eq in Hstep; subst;
      destruct Hh as [-> | ->]; cbn [onStart onReset index_tsx part_000].
    + apply index_start_runners.
    + apply part_000_start_runners.
    + rewrite app_nil_r. apply (index_reset_untouched p).
    + rewrite app_nil_r. reflexivity.
  - pose proof (sim_step_fixtures h p ev q Hc Hstep) as Hf.
    unfold fixtures in Hf. injection Hf as _ _ Hru _ _ _ _.
    destruct ev; try discriminate Hc; rewrite app_nil_r; exact Hru.
Qed.

(** X6.  No event stops a runner, in either copy of the page: over any
    sequence of events the runners that were started are still there, in
    order, followed by one more for every click on the start button; so an
    engine that is being updated is updated for ever. *)
Theorem runners_are_never_stopped :
  forall (h : Handlers) (evs : list Event) (p q : Page),
    h = index_tsx \/ h = part_000 ->
    run h p evs = Some q ->
    (exists added,
        runners q = runners p ++ added /\ length added = count_starts evs)
    /\ (forall e, running p e = true -> running q e = true).
Proof.
  intros h evs. induction evs as [|ev evs IH]; intros p q Hh Hrun; cbn [run] in Hrun.
  - injection Hrun as <-. split; [exists []; rewrite app_nil_r; split; reflexivity |].
    auto.
  - destruct (step h p ev) as [p'|] eqn:Hstep; [| discriminate].
    destruct (IH p' q Hh Hrun) as ((added & Hq & Hlen) & Hkeep).
    pose proof (runners_step h p ev p' Hh Hstep) as Hp'.
    split.
    + exists (match ev with ClickStart => [length (engines p)] | _ => [] end ++ added).
      rewrite Hq, Hp', <- app_assoc. split; [reflexivity |].
      rewrite length_app, Hlen. destruct ev; reflexivity.
    + intros e He. apply Hkeep. unfold running in *. rewrite Hp', existsb_app, He.
      reflexivity.
Qed.

(** X6 on a default page: start, reset, start leaves two runners, on
    engines 0 and 1. *)
Lemma runners_are_never_stopped_witness :
  match run index_tsx (mount 800 400 1200 800) [ClickStart; ClickReset; ClickStart] with
  | Some q =>
      (exists added, runners q = [] ++ added /\ length added = 2%nat)
      /\ runners q = [0; 1]%nat
  | None => False
  end.
Proof.
  destruct (run index_tsx (mount 800 400 1200 800) [ClickStart; ClickReset; ClickStart])
    as [q|] eqn:Hrun; [| vm_compute in Hrun; discriminate].
  split.
  - exact (proj1 (runners_are_never_stopped index_tsx _ _ q (or_introl eq_refl) Hrun)).
  - vm_compute in Hrun. injection Hrun as <-. reflexivity.
Defined.

(** ** Started *)

Lemma started_iff_world_fixtures p q :
  fixtures q = fixtures p -> started_iff_world p -> started_iff_world q.
Proof.
  unfold fixtures, started_iff_world, running. intros H.
  injection H as _ _ Hru _ He Hr Hs. rewrite Hru, He, Hr, Hs. auto.
Qed.

Lemma started_has_world_fixtures p q :
  fixtures q = fixtures p -> started_has_world p -> started_has_world q.
Proof.
  unfold fixtures, started_has_world, running. intros H.
  injection H as _ _ Hru _ He Hr Hs. rewrite Hru, He, Hr, Hs. auto.
Qed.

Lemma running_last l e : existsb (Nat.eqb e) (l ++ [e]) = true.
Proof. rewrite existsb_app. cbn. rewrite Nat.eqb_refl. apply orb_true_iff. right. reflexivity. Qed.

(** X7.  In [index.tsx], over any sequence of events from a page where this
    holds (as on a freshly mounted page): the page shows the simulation as
    started exactly when an engine and a renderer are current, and a runner
    then updates that engine; otherwise neither is current.  In the second
    copy of the page only the first half holds: a page shown as started has
    a current engine, a current renderer and a runner on that engine. *)
Theorem started_means_a_world :
  (forall (evs : list Event) (p q : Page),
      started_iff_world p -> run index_tsx p evs = Some q ->
      (started q = true ->
       exists e r, engineRef q = Some e /\ renderRef q = Some r /\ running q e = true)
      /\ (started q = false -> engineRef q = None /\ renderRef q = None))
  /\ (forall (evs : list Event) (p q : Page),
         started_has_world p -> run part_000 p evs = Some q ->
         started q = true ->
         exists e r, engineRef q = Some e /\ renderRef q = Some r /\ running q e = true).
Proof.
  split.
  - assert (Hinv : forall evs p q,
               started_iff_world p -> run index_tsx p evs = Some q -> started_iff_world q).
    { induction evs as [|ev evs IH]; intros p q Hp Hrun; cbn [run] in Hrun.
      - injection Hrun as <-. exact Hp.
      - destruct (step index_tsx p ev) as [p'|] eqn:Hstep; [| discriminate].
        apply (IH p' q); [| exact Hrun].
        destruct (is_click ev) eqn:Hc;
          [| eapply started_iff_world_fixtures;
             [eapply sim_step_fixtures; eassumption | exact Hp]].
        destruct ev; try discriminate Hc; cbn [step] in Hstep; apply some_eq in Hstep; subst;
          cbn [onStart onReset index_tsx]; unfold started_iff_world.
        + destruct (index_start_renders p) as (_ & _ & -> & ->).
          rewrite index_start_engineRef. split; [reflexivity |].
          unfold running. rewrite index_start_runners. apply running_last.
        + destruct (index_reset_renders p) as (_ & _ & -> & -> & -> & _). reflexivity. }
    intros evs p q Hp Hrun. specialize (Hinv evs p q Hp Hrun).
    unfold started_iff_world in Hinv.
    destruct (engineRef q) as [e|], (renderRef q) as [r|]; try contradiction.
    + destruct Hinv as [Hs Hr]. split; [intros _; exists e, r; auto |].
      intros Hf. congruence.
    + split; [intros Hs; congruence | auto].
  - induction evs as [|ev evs IH]; intros p q Hp Hrun; cbn [run] in Hrun.
    + injection Hrun as <-. exact Hp.
    + destruct (step part_000 p ev) as [p'|] eqn:Hstep; [| discriminate].
      apply (IH p' q); [| exact Hrun].
      destruct (is_click ev) eqn:Hc;
        [| eapply started_has_world_fixtures;
           [eapply sim_step_fixtures; eassumption | exact Hp]].
      destruct ev; try discriminate Hc; cbn [step] in Hstep; apply some_eq in Hstep; subst;
        cbn [onStart onReset part_000]; unfold started_has_world.
      * intros _. destruct (part_000_start_renders p) as (_ & _ & Hr & _).
        exists (length (engines p)), (length (renders p)).
        split; [apply part_000_start_engineRef |]. split; [exact Hr |].
        unfold running. rewrite part_000_start_runners. apply running_last.
      * cbn. discriminate.
Qed.

(** X7 on a default page: after start and a collision the page is shown as
    started; after the reset it is not. *)
Lemma started_means_a_world_witness :
  match run index_tsx (mount 800 400 1200 800) [ClickStart; CollisionStart 0 [(4, 5)%nat]],
        run index_tsx (mount 800 400 1200 800)
            [ClickStart; CollisionStart 0 [(4, 5)%nat]; ClickReset] with
  | Some q, Some r =>
      started_iff_world (mount 800 400 1200 800)
      /\ started q = true
      /\ (exists e rd, engineRef q = Some e /\ renderRef q = Some rd /\ running q e = true)
      /\ started r = false
      /\ engineRef r = None
  | _, _ => False
  end.
Proof.
  destruct (run index_tsx (mount 800 400 1200 800)
              [ClickStart; CollisionStart 0 [(4, 5)%nat]])
    as [q|] eqn:Hq; [| vm_compute in Hq; discriminate].
  destruct (run index_tsx (mount 800 400 1200 800)
              [ClickStart; CollisionStart 0 [(4, 5)%nat]; ClickReset])
    as [r|] eqn:Hr; [| vm_compute in Hr; discriminate].
  assert (Hm : started_iff_world (mount 800 400 1200 800)) by reflexivity.
  assert (Hsq : started q = true)
    by (vm_compute in Hq; injection Hq as <-; reflexivity).
  assert (Hsr : started r = false)
    by (vm_compute in Hr; injection Hr as <-; reflexivity).
  split; [exact Hm |]. split; [exact Hsq |].
  split; [exact (proj1 (proj1 started_means_a_world _ _ q Hm Hq) Hsq) |].
  split; [exact Hsr |].
  exact (proj1 (proj2 (proj1 started_means_a_world _ _ r Hm Hr) Hsr)).
Defined.

(* ===================================================================== *)
(** * The speed readouts *)
(* ===================================================================== *)

Lemma speed_of_nonneg p i : 0 <= speed_of p i.
Proof.
  unfold speed_of. destruct (bodies p !! i); [apply Qabs_nonneg | apply Qle_refl].
Qed.

Lemma afterUpdate_readouts en p :
  0 <= velocityLeftDisplay p -> 0 <= velocityRightDisplay p ->
  0 <= velocityLeftDisplay (trigger_afterUpdate en p)
  /\ 0 <= velocityRightDisplay (trigger_afterUpdate en p).
Proof.
  unfold trigger_afterUpdate. generalize (Engine.events en) as ls.
  intros ls. revert p. induction ls as [|l ls IH]; intros p Hl Hr; [split; assumption |].
  cbn [fold_left]. destruct l; [apply IH; assumption |].
  apply IH; cbn; apply speed_of_nonneg.
Qed.

Lemma index_start_readouts p :
  velocityLeftDisplay (Index.handleStart p) = velocityLeftDisplay p
  /\ velocityRightDisplay (Index.handleStart p) = velocityRightDisplay p.
Proof.
  unfold Index.handleStart, clearEngine, clearRender.
  destruct (renderRef p); cbn; destruct (engineRef p); split; reflexivity.
Qed.

Lemma part_000_start_readouts p :
  velocityLeftDisplay (Part000.handleStart p) = velocityLeftDisplay p
  /\ velocityRightDisplay (Part000.handleStart p) = velocityRightDisplay p.
Proof.
  unfold Part000.handleStart, clearEngine, clearRender.
  destruct (renderRef p); cbn; destruct (engineRef p); split; reflexivity.
Qed.

Lemma readouts_step h p ev q :
  h = index_tsx \/ h = part_000 ->
  0 <= velocityLeftDisplay p -> 0 <= velocityRightDisplay p ->
  step h p ev = Some q ->
  0 <= velocityLeftDisplay q /\ 0 <= velocityRightDisplay q.
Proof.
  intros Hh Hl Hr Hstep.
  destruct ev as [| |e solver|e pairs|e|ms|k]; cbn [step] in Hstep.
  - apply some_eq in Hstep. subst q.
    destruct Hh as [-> | ->]; cbn [onStart index_tsx part_000].
    + destruct (index_start_readouts p) as [-> ->]. split; assumption.
    + destruct (part_000_start_readouts p) as [-> ->]. split; assumption.
  - apply some_eq in Hstep. subst q.
    destruct Hh as [-> | ->]; split; apply Qle_refl.
  - destruct (engines p !! e) as [en|]; [| discriminate].
    destruct (running p e); [| discriminate].
    apply some_eq in Hstep. subst q.
    destruct (integrate_frame en solver p) as (_ & _ & _ & -> & ->). split; assumption.
  - destruct (engines p !! e) as [en|]; [| discriminate].
    destruct pairs as [|pair pairs]; [discriminate |].
    destruct (running p e && forallb (colliding p en) (pair :: pairs)); [| discriminate].
    apply some_eq in Hstep. subst q.
    destruct (collisionStart_frame en (pair :: pairs) p) as (_ & _ & -> & ->).
    split; assumption.
  - destruct (engines p !! e) as [en|]; [| discriminate].
    destruct (running p e); [| discriminate].
    apply some_eq in Hstep. subst q. apply afterUpdate_readouts; assumption.
  - apply some_eq in Hstep. subst q. split; assumption.
  - destruct (timers p !! k) as [t|]; [| discriminate].
    destruct (due t <=? now p)%nat; [| discriminate].
    apply some_eq in Hstep. subst q. split; assumption.
Qed.

(** X8.  Over any sequence of events of either copy of the page, the two
    speed readouts are never negative (they are 0 or the absolute value of a
    horizontal velocity), provided they are not negative to begin with, as
    on a freshly mounted page. *)
Theorem readouts_are_never_negative :
  forall (h : Handlers) (evs : list Event) (p q : Page),
    h = index_tsx \/ h = part_000 ->
    0 <= velocityLeftDisplay p ->
    0 <= velocityRightDisplay p ->
    run h p evs = Some q ->
    0 <= velocityLeftDisplay q /\ 0 <= velocityRightDisplay q.
Proof.
  intros h evs. induction evs as [|ev evs IH]; intros p q Hh Hl Hr Hrun; cbn [run] in Hrun.
  - apply some_eq in Hrun. subst q. split; assumption.
  - destruct (step h p ev) as [p'|] eqn:Hstep; [| discriminate].
    destruct (readouts_step h p ev p' Hh Hl Hr Hstep) as [Hl' Hr'].
    apply (IH p' q Hh Hl' Hr' Hrun).
Qed.

(** X8 on a default page whose right square, moving left, is read out. *)
Lemma readouts_are_never_negative_witness :
  match run index_tsx (mount 800 400 1200 800) [ClickStart; AfterUpdate 0] with
  | Some q =>
      0 <= velocityLeftDisplay (mount 800 400 1200 800)
      /\ 0 <= velocityRightDisplay q
      /\ velocityRightDisplay q == 25
  | None => False
  end.
Proof.
  destruct (run index_tsx (mount 800 400 1200 800) [ClickStart; AfterUpdate 0])
    as [q|] eqn:Hrun; [| vm_compute in Hrun; discriminate].
  split; [apply Qle_refl |].
  split.
  - exact (proj2 (readouts_are_never_negative index_tsx _ (mount 800 400 1200 800) q
                    (or_introl eq_refl) (Qle_refl 0) (Qle_refl 0) Hrun)).
  - vm_compute in Hrun. injection Hrun as <-. reflexivity.
Defined.

(** One update of a freshly started engine: the walls stay, the squares get
    what the solver gives them, and the listener reads the squares out. *)
Lemma update_of_started h q0 e pre w0 w1 w2 w3 a b solver :
  bodies q0 = pre ++ [w0; w1; w2; w3; a; b] ->
  Body.isStatic w0 = true -> Body.isStatic w1 = true ->
  Body.isStatic w2 = true -> Body.isStatic w3 = true ->
  Body.isStatic a = false -> Body.isStatic b = false ->
  engines q0 !! e = Some (started_engine (length pre)) ->
  running q0 e = true ->
  exists q,
    run h q0 [EngineMoves e solver; AfterUpdate e] = Some q
    /\ bodies q = pre ++ [w0; w1; w2; w3;
                          moved a (solver (length pre + 4)%nat a);
                          moved b (solver (length pre + 5)%nat b)]
    /\ velocityLeftDisplay q = Qabs (Vector.x (snd (solver (length pre + 4)%nat a)))
    /\ velocityRightDisplay q = Qabs (Vector.x (snd (solver (length pre + 5)%nat b))).
Proof.
  intros Hb H0 H1 H2 H3 Ha Hb' He Hr.
  remember (integrate (started_engine (length pre)) solver q0) as q1 eqn:Eq1.
  assert (Hq1 : bodies q1
                = pre ++ [w0; w1; w2; w3;
                          moved a (solver (length pre + 4)%nat a);
                          moved b (solver (length pre + 5)%nat b)]).
  { rewrite Eq1. unfold integrate, started_engine.
    cbn [Engine.world fold_left bodies set_bodies].
    rewrite Hb. rewrite alter_at_end, H0.
    rewrite (alter_past_end _ pre _ 1); cbn [alter list_alter]. rewrite H1.
    rewrite (alter_past_end _ pre _ 2); cbn [alter list_alter]. rewrite H2.
    rewrite (alter_past_end _ pre _ 3); cbn [alter list_alter]. rewrite H3.
    rewrite (alter_past_end _ pre _ 4); cbn [alter list_alter]. rewrite Ha.
    rewrite (alter_past_end _ pre _ 5); cbn [alter list_alter]. rewrite Hb'.
    reflexivity. }
  destruct (integrate_frame (started_engine (length pre)) solver q0) as (Hf & _).
  rewrite <- Eq1 in Hf. unfold fixtures in Hf. injection Hf as Hen _ Hru _ _ _ _.
  exists (trigger_afterUpdate (started_engine (length pre)) q1).
  split.
  - cbn [run step]. rewrite He, Hr, <- Eq1.
    rewrite Hen, He. unfold running in *. rewrite Hru, Hr. reflexivity.
  - destruct (afterUpdate_frame (started_engine (length pre)) q1) as (_ & _ & Hbo & _).
    split; [rewrite Hbo; exact Hq1 |].
    unfold trigger_afterUpdate, started_engine.
    cbn [Engine.events fold_left onAfterUpdate velocityLeftDisplay velocityRightDisplay
           setVelocityLeftDisplay setVelocityRightDisplay].
    unfold speed_of. rewrite Hq1.
    rewrite (lookup_past_end pre _ 4), (lookup_past_end pre _ 5). split; reflexivity.
Qed.

Lemma run_start h p evs : run h p (ClickStart :: evs) = run h (onStart h p) evs.
Proof. reflexivity. Qed.

Lemma index_started_engine p :
  engines (Index.handleStart p) !! length (engines p)
  = Some (started_engine (length (bodies p)))
  /\ running (Index.handleStart p) (length (engines p)) = true.
Proof.
  split.
  - rewrite index_start_engines.
    rewrite <- (clearRender_engines p), <- (clearEngine_length (clearRender p)).
    apply lookup_at_end.
  - unfold running. rewrite index_start_runners. apply running_last.
Qed.

Lemma part_000_started_engine p :
  engines (Part000.handleStart p) !! length (engines p)
  = Some (started_engine (length (bodies p)))
  /\ running (Part000.handleStart p) (length (engines p)) = true.
Proof.
  split.
  - rewrite part_000_start_engines.
    rewrite <- (clearRender_engines p), <- (clearEngine_length (clearRender p)).
    apply lookup_at_end.
  - unfold running. rewrite part_000_start_runners. apply running_last.
Qed.

(** X9.  In both copies of the page, whatever the page state and whatever
    the engine's solver gives the two squares in the first update after a
    start, the ['afterUpdate'] listener sets the left and the right readout
    to the absolute value of the horizontal velocity of the left and of the
    right square. *)
Theorem readouts_show_absolute_speed :
  forall (p : Page) (solver : nat -> Body.t -> Vector.t * Vector.t),
    let e := length (engines p) in
    let n := length (bodies p) in
    (match dynamic_bodies (Index.handleStart p),
           run index_tsx p [ClickStart; EngineMoves e solver; AfterUpdate e] with
     | [l; r], Some q =>
         velocityLeftDisplay q = Qabs (Vector.x (snd (solver (n + 4)%nat l)))
         /\ velocityRightDisplay q = Qabs (Vector.x (snd (solver (n + 5)%nat r)))
     | _, _ => False
     end)
    /\ (match dynamic_bodies (Part000.handleStart p),
              run part_000 p [ClickStart; EngineMoves e solver; AfterUpdate e] with
        | [l; r], Some q =>
            velocityLeftDisplay q = Qabs (Vector.x (snd (solver (n + 4)%nat l)))
            /\ velocityRightDisplay q = Qabs (Vector.x (snd (solver (n + 5)%nat r)))
        | _, _ => False
        end).
Proof.
  intros p solver e n. split.
  - rewrite index_start_dynamic.
    destruct (index_started_engine p) as [He Hr].
    destruct (update_of_started index_tsx (Index.handleStart p) e (bodies p)
                _ _ _ _ _ _ solver (index_start_bodies p)
                eq_refl eq_refl eq_refl eq_refl eq_refl eq_refl He Hr)
      as (q & Hrun & _ & Hl & Hrr).
    rewrite run_start. change (onStart index_tsx p) with (Index.handleStart p).
    rewrite Hrun. cbn [drop index_spawned]. split; assumption.
  - rewrite part_000_start_dynamic.
    destruct (part_000_started_engine p) as [He Hr].
    destruct (update_of_started part_000 (Part000.handleStart p) e (bodies p)
                _ _ _ _ _ _ solver (part_000_start_bodies p)
                eq_refl eq_refl eq_refl eq_refl eq_refl eq_refl He Hr)
      as (q & Hrun & _ & Hl & Hrr).
    rewrite run_start. change (onStart part_000 p) with (Part000.handleStart p).
    rewrite Hrun. cbn [drop part_000_spawned]. split; assumption.
Qed.

(* ===================================================================== *)
(** * Mass and density under the squish *)
(* ===================================================================== *)

Lemma massive_scale b sx sy :
  ~ sx == 0 -> ~ sy == 0 -> massive b ->
  massive (Body.scale b sx sy)
  /\ Body.density (Body.scale b sx sy) == Body.density b
  /\ Body.mass (Body.scale b sx sy) == sx * sy * Body.mass b.
Proof.
  intros Hx Hy (Hw & Hh & Ha & Hm).
  assert (Hw' : ~ Body.width b * sx == 0).
  { intros H. apply Qmult_integral in H. tauto. }
  assert (Hh' : ~ Body.height b * sy == 0).
  { intros H. apply Qmult_integral in H. tauto. }
  assert (Hd : Body.density (Body.scale b sx sy) == Body.density b).
  { cbn. field. repeat split; assumption. }
  split; [| split].
  - unfold massive. cbn [Body.scale Body.setMass Body.width Body.height Body.area
                           Body.mass Body.density] in *.
    split; [exact Hw' |]. split; [exact Hh' |]. split; [reflexivity |].
    rewrite Hd. reflexivity.
  - exact Hd.
  - cbn [Body.scale Body.setMass Body.width Body.height Body.area
           Body.mass Body.density]. rewrite Hm, Ha. ring.
Qed.

Lemma same_density_refl b : same_density b b.
Proof. intros H. split; [exact H | reflexivity]. Qed.

Lemma same_density_trans a b c :
  same_density a b -> same_density b c -> same_density a c.
Proof.
  intros Hab Hbc Ha. destruct (Hab Ha) as [Hb E1]. destruct (Hbc Hb) as [Hc E2].
  split; [exact Hc | rewrite E2; exact E1].
Qed.

Lemma same_density_scale b sx sy :
  ~ sx == 0 -> ~ sy == 0 -> same_density b (Body.scale b sx sy).
Proof.
  intros Hx Hy Hb. destruct (massive_scale b sx sy Hx Hy Hb) as (H1 & H2 & _).
  split; assumption.
Qed.

Lemma same_density_moved b pv : same_density b (moved b pv).
Proof. intros H. split; [exact H | reflexivity]. Qed.

Lemma density_run h evs p q i :
  h = index_tsx \/ h = part_000 -> run h p evs = Some q -> stays same_density p q i.
Proof.
  intros Hh Hrun.
  assert (N12 : ~ 1.2 == 0) by discriminate.
  assert (N08 : ~ 0.8 == 0) by discriminate.
  assert (M12 : ~ 1 / 1.2 == 0) by discriminate.
  assert (M08 : ~ 1 / 0.8 == 0) by discriminate.
  exact (proj2 (stays_run same_density (fun _ => True) same_density_refl
                  same_density_trans
                  (fun b _ => same_density_scale b 1.2 0.8 N12 N08)
                  (fun _ _ _ b _ _ _ => same_density_scale b (1 / 1.2) (1 / 0.8) M12 M08)
                  same_density_moved (fun _ _ _ _ _ _ _ => I) h evs p q i Hh I Hrun)).
Qed.

Lemma Qabs_nonzero (s : Q) : ~ s == 0 -> ~ Qabs s == 0.
Proof.
  intros Hs E. apply Hs.
  pose proof (Qle_Qabs s) as H1. pose proof (Qle_Qabs (- s)) as H2.
  rewrite Qabs_opp in H2. rewrite E in H1, H2. lra.
Qed.

Lemma index_square_massive height x size material :
  ~ size == 0 -> massive (Index.createSquare height x size material).
Proof.
  intros Hs. apply Qabs_nonzero in Hs. unfold massive. cbn.
  repeat split; try assumption; try reflexivity.
  field. exact Hs.
Qed.

Lemma part_000_square_massive innerHeight x size mass material :
  ~ size == 0 -> massive (Part000.createSquare innerHeight x size mass material).
Proof.
  intros Hs. apply Qabs_nonzero in Hs. unfold massive. cbn.
  repeat split; try assumption; try reflexivity.
  field. exact Hs.
Qed.

(** X10.  [Body.scale] resets the mass to density times the new area.  So
    the squish of the collision listener takes 4 % off the mass of a body
    (1.2 * 0.8 = 0.96) and leaves its density alone; and over any sequence
    of events of either copy of the page, a stored body keeps its density,
    its mass is at every moment its density times the area of its box as the
    box then is, and once no timer is pending for it any more it has the mass
    it had at the beginning.  This holds for every body whose area and mass
    go with its box and density and whose box is not degenerate, such as the
    squares [createSquare] builds for a size other than 0. *)
Theorem mass_follows_the_box :
  forall (h : Handlers) (evs : list Event) (p q : Page) (i : nat) (b : Body.t),
    h = index_tsx \/ h = part_000 ->
    run h p evs = Some q ->
    bodies p !! i = Some b ->
    massive b ->
    Body.mass (Body.scale b 1.2 0.8) == 0.96 * Body.mass b
    /\ exists b',
         bodies q !! i = Some b'
         /\ Body.density b' == Body.density b
         /\ Body.mass b' == Body.density b * (Body.width b' * Body.height b')
         /\ (pending p i = 0%nat -> pending q i = 0%nat ->
             Body.mass b' == Body.mass b).
Proof.
  intros h evs p q i b Hh Hrun Hb Hm. split.
  - assert (N12 : ~ 1.2 == 0) by discriminate.
    assert (N08 : ~ 0.8 == 0) by discriminate.
    destruct (massive_scale b 1.2 0.8 N12 N08 Hm) as (_ & _ & E).
    rewrite E. ring.
  - destruct (density_run h evs p q i Hh Hrun b Hb) as (b' & Hb' & Hd).
    destruct (Hd Hm) as ((Hw' & Hh' & Ha' & Hm') & Ed).
    exists b'. split; [exact Hb' |]. split; [exact Ed |].
    split; [rewrite Hm', Ha', Ed; reflexivity |].
    intros Hp Hq.
    destruct (keeps_rest_run h evs p q i Hh Hrun b Hb) as (c & Hc & Ew & Eh).
    rewrite Hb' in Hc. apply some_eq in Hc. subst c.
    rewrite Hp, Hq in Ew, Eh. change (Z.of_nat 0) with 0%Z in Ew, Eh.
    rewrite !Qpower_0_r, !Qmult_1_r in Ew, Eh.
    destruct Hm as (_ & _ & Ha & Hmass).
    rewrite Hm', Ha', Ed, Ew, Eh, Hmass, Ha. reflexivity.
Qed.

(** X10 at the rubber square of the second copy of the page, of size 60 and
    mass 7: squished by a collision and restored by its timer. *)
Lemma mass_follows_the_box_witness :
  let p := Part000.handleStart (configured_mass 60 7 rubber 40 3 metal) in
  match run part_000 p [CollisionStart 0 [(4, 5)%nat]; Elapse 50; TimerFires 0],
        bodies p !! 4%nat with
  | Some q, Some b =>
      massive b
      /\ pending p 4 = 0%nat /\ pending q 4 = 0%nat
      /\ Body.mass (Body.scale b 1.2 0.8) == 0.96 * 7
      /\ exists b', bodies q !! 4%nat = Some b' /\ Body.mass b' == 7
  | _, _ => False
  end.
Proof.
  intros p.
  destruct (run part_000 p [CollisionStart 0 [(4, 5)%nat]; Elapse 50; TimerFires 0])
    as [q|] eqn:Hrun; [| vm_compute in Hrun; discriminate].
  destruct (bodies p !! 4%nat) as [b|] eqn:Hb; [| vm_compute in Hb; discriminate].
  assert (Eb : b = Body.setVelocity (Part000.createSquare 800 200 60 7 rubber)
                     (Vector.mk 15 0)).
  { vm_compute in Hb. apply some_eq in Hb. subst b. vm_compute. reflexivity. }
  assert (Hm : massive b).
  { rewrite Eb. apply (part_000_square_massive 800 200 60 7 rubber). discriminate. }
  assert (Hp : pending p 4 = 0%nat) by (vm_compute; reflexivity).
  assert (Hq : pending q 4 = 0%nat)
    by (vm_compute in Hrun; injection Hrun as <-; reflexivity).
  assert (E7 : Body.mass b = 7) by (rewrite Eb; reflexivity).
  destruct (mass_follows_the_box part_000 _ p q 4%nat b (or_intror eq_refl) Hrun Hb Hm)
    as (E & b' & Hb' & _ & _ & Hback).
  split; [exact Hm |]. split; [exact Hp |]. split; [exact Hq |].
  split; [rewrite <- E7; exact E |].
  exists b'. split; [exact Hb' |]. rewrite <- E7. apply Hback; assumption.
Defined.

(* ===================================================================== *)
(** * Where a start puts the bodies *)
(* ===================================================================== *)

Lemma in_world_started n i :
  in_world (started_engine n) i = true ->
  exists k, (k <= 5)%nat /\ i = (n + k)%nat.
Proof.
  unfold in_world, started_engine. cbn [Engine.world existsb]. intros H.
  repeat (apply orb_prop in H; destruct H as [H | H]);
    try discriminate H; apply Nat.eqb_eq in H; subst i.
  - exists 0%nat. lia.
  - exists 1%nat. lia.
  - exists 2%nat. lia.
  - exists 3%nat. lia.
  - exists 4%nat. lia.
  - exists 5%nat. lia.
Qed.

Lemma overlaps_spawned p pre spawned a b :
  bodies p = pre ++ spawned ->
  overlaps_in p (length pre + a) (length pre + b)
  = match spawned !! a, spawned !! b with
    | Some x, Some y => Bounds.overlaps (Bounds.of_body x) (Bounds.of_body y)
    | _, _ => false
    end.
Proof.
  intros H. unfold overlaps_in. rewrite H, !lookup_past_end. reflexivity.
Qed.

Lemma is_static_spawned p pre spawned a :
  bodies p = pre ++ spawned ->
  is_static p (length pre + a)
  = match spawned !! a with Some x => Body.isStatic x | None => false end.
Proof.
  intros H. unfold is_static. rewrite H, lookup_past_end. reflexivity.
Qed.

Lemma apart a b :
  Vector.x (Bounds.max b) < Vector.x (Bounds.min a)
  \/ Vector.x (Bounds.max a) < Vector.x (Bounds.min b)
  \/ Vector.y (Bounds.max a) < Vector.y (Bounds.min b)
  \/ Vector.y (Bounds.max b) < Vector.y (Bounds.min a) ->
  Bounds.overlaps a b = false.
Proof.
  intros H. apply not_true_is_false. intros E. unfold Bounds.overlaps in E.
  apply andb_prop in E. destruct E as [E E4].
  apply andb_prop in E. destruct E as [E E3].
  apply andb_prop in E. destruct E as [E1 E2].
  apply Qle_bool_iff in E1, E2, E3, E4.
  destruct H as [H | [H | [H | H]]];
    [apply (Qlt_not_le _ _ H E1) | apply (Qlt_not_le _ _ H E2)
    | apply (Qlt_not_le _ _ H E3) | apply (Qlt_not_le _ _ H E4)].
Qed.

Ltac boxes :=
  cbv [Bounds.of_body Bounds.min Bounds.max Vector.x Vector.y
       Body.position Body.width Body.height
       Bodies.rectangle Body.setStatic Body.setVelocity Body.setMass
       Index.createSquare Part000.createSquare
       Bodies.o_isStatic Qdiv];
  change (/ 2) with (1 # 2).

Lemma index_spawned_clear p a b :
  0 <= sizeLeft p -> 0 <= sizeRight p ->
  sizeLeft p < clientHeight p -> sizeRight p < clientHeight p ->
  sizeLeft p + sizeRight p + 100 < clientWidth p ->
  (a <= 5)%nat -> (b <= 5)%nat -> a <> b ->
  match index_spawned p !! a with Some x => Body.isStatic x | None => false end = false ->
  match index_spawned p !! a, index_spawned p !! b with
  | Some x, Some y => Bounds.overlaps (Bounds.of_body x) (Bounds.of_body y)
  | _, _ => false
  end = false.
Proof.
  intros L0 R0 L1 R1 W Ha Hb Hab Hs.
  assert (W0 : 0 <= clientWidth p) by lra.
  assert (H0 : 0 <= clientHeight p) by lra.
  pose proof (Qabs_pos _ L0) as AL. pose proof (Qabs_pos _ R0) as AR.
  pose proof (Qabs_pos _ W0) as AW. pose proof (Qabs_pos _ H0) as AH.
  assert (A50 : Qabs 50 == 50) by reflexivity.
  destruct a as [|[|[|[|[|[|a]]]]]]; try (cbn in Hs; discriminate Hs); [| | lia].
  - destruct b as [|[|[|[|[|[|b]]]]]]; try lia;
      cbn [lookup list_lookup index_spawned]; apply apart; boxes; lra.
  - destruct b as [|[|[|[|[|[|b]]]]]]; try lia;
      cbn [lookup list_lookup index_spawned]; apply apart; boxes; lra.
Qed.

Lemma part_000_spawned_clear p a b :
  0 <= sizeLeft p -> 0 <= sizeRight p ->
  sizeLeft p < innerHeight p -> sizeRight p < innerHeight p ->
  sizeLeft p < 400 -> sizeRight p < 400 ->
  sizeLeft p + sizeRight p + 800 < 2 * innerWidth p ->
  (a <= 5)%nat -> (b <= 5)%nat -> a <> b ->
  match part_000_spawned p !! a with Some x => Body.isStatic x | None => false end
  = false ->
  match part_000_spawned p !! a, part_000_spawned p !! b with
  | Some x, Some y => Bounds.overlaps (Bounds.of_body x) (Bounds.of_body y)
  | _, _ => false
  end = false.
Proof.
  intros L0 R0 L1 R1 L2 R2 W Ha Hb Hab Hs.
  assert (W0 : 0 <= innerWidth p) by lra.
  assert (H0 : 0 <= innerHeight p) by lra.
  pose proof (Qabs_pos _ L0) as AL. pose proof (Qabs_pos _ R0) as AR.
  pose proof (Qabs_pos _ W0) as AW. pose proof (Qabs_pos _ H0) as AH.
  assert (A100 : Qabs 100 == 100) by reflexivity.
  destruct a as [|[|[|[|[|[|a]]]]]]; try (cbn in Hs; discriminate Hs); [| | lia].
  - destruct b as [|[|[|[|[|[|b]]]]]]; try lia;
      cbn [lookup list_lookup part_000_spawned]; apply apart; boxes; lra.
  - destruct b as [|[|[|[|[|[|b]]]]]]; try lia;
      cbn [lookup list_lookup part_000_spawned]; apply apart; boxes; lra.
Qed.

Lemma index_current_world p :
  current_world (Index.handleStart p)
  = Engine.world (started_engine (length (bodies p))).
Proof.
  unfold current_world. rewrite index_start_engineRef.
  rewrite (proj1 (index_started_engine p)). reflexivity.
Qed.

Lemma part_000_current_world p :
  current_world (Part000.handleStart p)
  = Engine.world (started_engine (length (bodies p))).
Proof.
  unfold current_world. rewrite part_000_start_engineRef.
  rewrite (proj1 (part_000_started_engine p)). reflexivity.
Qed.

Lemma world_started n i :
  i ∈ Engine.world (started_engine n) -> exists k, (k <= 5)%nat /\ i = (n + k)%nat.
Proof.
  intros H. apply in_world_started. unfold in_world.
  apply existsb_exists. exists i. split; [| apply Nat.eqb_refl].
  apply list_elem_of_In. exact H.
Qed.

(** X11.  [handleStart] of [index.tsx] puts the two squares clear of
    everything: for sizes that are not negative, are below the height of the
    scene and leave room between the squares (their sum below the width less
    100), the bounding box of a square overlaps the bounding box of no other
    body of the new world, neither a wall nor the other square.  So the
    detector has no pair to report before the engine has moved a body. *)
Theorem index_squares_start_clear :
  forall (p : Page) (i j : nat),
    0 <= sizeLeft p -> 0 <= sizeRight p ->
    sizeLeft p < clientHeight p -> sizeRight p < clientHeight p ->
    sizeLeft p + sizeRight p + 100 < clientWidth p ->
    i ∈ current_world (Index.handleStart p) ->
    j ∈ current_world (Index.handleStart p) ->
    i <> j ->
    is_static (Index.handleStart p) i = false ->
    overlaps_in (Index.handleStart p) i j = false.
Proof.
  intros p i j L0 R0 L1 R1 W Hi Hj Hij Hs.
  rewrite index_current_world in Hi, Hj.
  apply world_started in Hi, Hj.
  destruct Hi as (a & Ha & ->). destruct Hj as (b & Hb & ->).
  rewrite (is_static_spawned _ _ _ a (index_start_bodies p)) in Hs.
  rewrite (overlaps_spawned _ _ _ a b (index_start_bodies p)).
  apply index_spawned_clear; try assumption. intros E. apply Hij. congruence.
Qed.

(** X11 on the default scene, for the largest and the smallest square the
    sliders allow. *)
Lemma index_squares_start_clear_witness :
  let p := configured 150 rubber 30 metal in
  (0 <= sizeLeft p /\ sizeLeft p < clientHeight p
   /\ sizeLeft p + sizeRight p + 100 < clientWidth p)
  /\ current_world (Index.handleStart p) = [0; 1; 2; 3; 4; 5]%nat
  /\ overlaps_in (Index.handleStart p) 4 5 = false
  /\ overlaps_in (Index.handleStart p) 5 2 = false.
Proof.
  intros p.
  assert (L0 : 0 <= sizeLeft p) by discriminate.
  assert (R0 : 0 <= sizeRight p) by discriminate.
  assert (L1 : sizeLeft p < clientHeight p) by reflexivity.
  assert (R1 : sizeRight p < clientHeight p) by reflexivity.
  assert (W : sizeLeft p + sizeRight p + 100 < clientWidth p) by reflexivity.
  assert (Hw : current_world (Index.handleStart p) = [0; 1; 2; 3; 4; 5]%nat)
    by (vm_compute; reflexivity).
  assert (S4 : is_static (Index.handleStart p) 4 = false) by (vm_compute; reflexivity).
  assert (S5 : is_static (Index.handleStart p) 5 = false) by (vm_compute; reflexivity).
  assert (I2 : 2%nat ∈ current_world (Index.handleStart p))
    by (rewrite Hw; repeat constructor).
  assert (I4 : 4%nat ∈ current_world (Index.handleStart p))
    by (rewrite Hw; repeat constructor).
  assert (I5 : 5%nat ∈ current_world (Index.handleStart p))
    by (rewrite Hw; repeat constructor).
  split; [split; [exact L0 | split; [exact L1 | exact W]] |].
  split; [exact Hw |]. split.
  - apply (index_squares_start_clear p 4 5 L0 R0 L1 R1 W I4 I5); [lia | exact S4].
  - apply (index_squares_start_clear p 5 2 L0 R0 L1 R1 W I5 I2); [lia | exact S5].
Defined.

(** X12.  [handleStart] of the second copy of the page puts the squares at
    200 from either side of the window: for sizes that are not negative, are
    below 400 and below the height of the window, and leave room between the
    squares (their sum below twice the width less 800), the bounding box of a
    square overlaps the bounding box of no other body of the new world. *)
Theorem part_000_squares_start_clear :
  forall (p : Page) (i j : nat),
    0 <= sizeLeft p -> 0 <= sizeRight p ->
    sizeLeft p < innerHeight p -> sizeRight p < innerHeight p ->
    sizeLeft p < 400 -> sizeRight p < 400 ->
    sizeLeft p + sizeRight p + 800 < 2 * innerWidth p ->
    i ∈ current_world (Part000.handleStart p) ->
    j ∈ current_world (Part000.handleStart p) ->
    i <> j ->
    is_static (Part000.handleStart p) i = false ->
    overlaps_in (Part000.handleStart p) i j = false.
Proof.
  intros p i j L0 R0 L1 R1 L2 R2 W Hi Hj Hij Hs.
  rewrite part_000_current_world in Hi, Hj.
  apply world_started in Hi, Hj.
  destruct Hi as (a & Ha & ->). destruct Hj as (b & Hb & ->).
  rewrite (is_static_spawned _ _ _ a (part_000_start_bodies p)) in Hs.
  rewrite (overlaps_spawned _ _ _ a b (part_000_start_bodies p)).
  apply part_000_spawned_clear; try assumption. intros E. apply Hij. congruence.
Qed.

(** X12 in a window of 1200 by 800, for the largest and the smallest square
    the sliders allow. *)
Lemma part_000_squares_start_clear_witness :
  let p := configured_mass 150 5 rubber 30 5 metal in
  (0 <= sizeLeft p /\ sizeLeft p < 400
   /\ sizeLeft p + sizeRight p + 800 < 2 * innerWidth p)
  /\ current_world (Part000.handleStart p) = [0; 1; 2; 3; 4; 5]%nat
  /\ overlaps_in (Part000.handleStart p) 4 5 = false
  /\ overlaps_in (Part000.handleStart p) 5 3 = false.
Proof.
  intros p.
  assert (L0 : 0 <= sizeLeft p) by discriminate.
  assert (R0 : 0 <= sizeRight p) by discriminate.
  assert (L1 : sizeLeft p < innerHeight p) by reflexivity.
  assert (R1 : sizeRight p < innerHeight p) by reflexivity.
  assert (L2 : sizeLeft p < 400) by reflexivity.
  assert (R2 : sizeRight p < 400) by reflexivity.
  assert (W : sizeLeft p + sizeRight p + 800 < 2 * innerWidth p) by reflexivity.
  assert (Hw : current_world (Part000.handleStart p) = [0; 1; 2; 3; 4; 5]%nat)
    by (vm_compute; reflexivity).
  assert (S4 : is_static (Part000.handleStart p) 4 = false) by (vm_compute; reflexivity).
  assert (S5 : is_static (Part000.handleStart p) 5 = false) by (vm_compute; reflexivity).
  assert (I3 : 3%nat ∈ current_world (Part000.handleStart p))
    by (rewrite Hw; repeat constructor).
  assert (I4 : 4%nat ∈ current_world (Part000.handleStart p))
    by (rewrite Hw; repeat constructor).
  assert (I5 : 5%nat ∈ current_world (Part000.handleStart p))
    by (rewrite Hw; repeat constructor).
  split; [split; [exact L0 | split; [exact L2 | exact W]] |].
  split; [exact Hw |]. split.
  - apply (part_000_squares_start_clear p 4 5 L0 R0 L1 R1 L2 R2 W I4 I5);
      [lia | exact S4].
  - apply (part_000_squares_start_clear p 5 3 L0 R0 L1 R1 L2 R2 W I5 I3);
      [lia | exact S5].
Defined.

(* ===================================================================== *)
(** * Reset and start *)
(* ===================================================================== *)

Lemma index_restart p :
  renderer_ok p ->
  Index.handleStart (Index.handleReset p)
  = setVelocityLeftDisplay 0 (setVelocityRightDisplay 0 (Index.handleStart p)).
Proof.
  intros [_ Hsc].
  destruct p as [sl sr ml mr mtl mtr st vl vr er rr cw ch iw ih sc bo en re ru no ti].
  cbn [scene renderRef] in Hsc.
  destruct Hsc as [-> | (r & -> & ->)].
  - destruct rr, er; cbv; reflexivity.
  - destruct er; cbv -[Nat.eqb]; rewrite !Nat.eqb_refl; reflexivity.
Qed.

Lemma part_000_restart p :
  renderer_ok p ->
  Part000.handleStart (Part000.handleReset p)
  = setVelocityLeftDisplay 0 (setVelocityRightDisplay 0 (Part000.handleStart p)).
Proof.
  intros [_ Hsc].
  destruct p as [sl sr ml mr mtl mtr st vl vr er rr cw ch iw ih sc bo en re ru no ti].
  cbn [scene renderRef] in Hsc.
  destruct Hsc as [-> | (r & -> & ->)].
  - destruct rr, er; cbv; reflexivity.
  - destruct er; cbv -[Nat.eqb]; rewrite !Nat.eqb_refl; reflexivity.
Qed.

(** X13.  In both copies of the page, on a page whose scene holds at most
    the canvas of the current renderer, a click on Reset before a click on
    Start changes nothing of what Start builds: the page after Reset and
    Start is the page after Start alone, with the same bodies, engines,
    worlds, renderers, canvases, runners and timers, but for the two
    readouts, which Reset has set to 0 and Start alone leaves as they are. *)
Theorem reset_before_start_only_zeroes_readouts :
  forall (h : Handlers) (p : Page),
    h = index_tsx \/ h = part_000 ->
    renderer_ok p ->
    run h p [ClickReset; ClickStart]
    = option_map (fun q => setVelocityLeftDisplay 0 (setVelocityRightDisplay 0 q))
        (run h p [ClickStart]).
Proof.
  intros h p [-> | ->] Hp; cbn [run step option_map onStart onReset index_tsx part_000];
    f_equal; [apply index_restart | apply part_000_restart]; exact Hp.
Qed.

(** X13 on a started default page whose readouts show the launch speed. *)
Lemma reset_before_start_only_zeroes_readouts_witness :
  let p := onAfterUpdate 4 5 (onStart index_tsx (mount 800 400 1200 800)) in
  renderer_ok p
  /\ velocityLeftDisplay p == 25
  /\ match run index_tsx p [ClickReset; ClickStart], run index_tsx p [ClickStart] with
     | Some a, Some b =>
         bodies a = bodies b /\ engines a = engines b
         /\ velocityLeftDisplay a == 0 /\ velocityLeftDisplay b == 25
     | _, _ => False
     end.
Proof.
  intros p.
  assert (Hp : renderer_ok p).
  { split.
    - intros i rd Hi Hr. destruct i as [|i]; [vm_compute; reflexivity |].
      vm_compute in Hi. destruct i; discriminate Hi.
    - right. exists 0%nat. split; vm_compute; reflexivity. }
  assert (Hv : velocityLeftDisplay p == 25) by (vm_compute; reflexivity).
  split; [exact Hp |]. split; [exact Hv |].
  rewrite (reset_before_start_only_zeroes_readouts index_tsx p (or_introl eq_refl) Hp).
  destruct (run index_tsx p [ClickStart]) as [b|] eqn:Hb;
    [| vm_compute in Hb; discriminate Hb].
  cbn [option_map].
  assert (Hvb : velocityLeftDisplay b == 25)
    by (vm_compute in Hb; apply some_eq in Hb; subst b; vm_compute; reflexivity).
  split; [destruct b; reflexivity |]. split; [destruct b; reflexivity |].
  split; [destruct b; reflexivity | exact Hvb].
Defined.

(* ===================================================================== *)
(** * A square against a wall *)
(* ===================================================================== *)

Lemma spawned_restitution h p k :
  h = index_tsx \/ h = part_000 -> (k <= 5)%nat ->
  exists b,
    bodies (onStart h p) !! (length (bodies p) + k)%nat = Some b
    /\ (Body.isStatic b = true /\ Body.restitution b = 0
        \/ Body.isStatic b = false
           /\ (Body.restitution b = materials (materialLeft p)
               \/ Body.restitution b = materials (materialRight p))).
Proof.
  intros [-> | ->] Hk; cbn [onStart index_tsx part_000].
  - rewrite index_start_bodies, lookup_past_end.
    destruct k as [|[|[|[|[|[|k]]]]]]; [| | | | | | lia];
      (eexists; split; [reflexivity |]);
      [left | left | left | left | right | right]; split; try reflexivity;
      [left | right]; reflexivity.
  - rewrite part_000_start_bodies, lookup_past_end.
    destruct k as [|[|[|[|[|[|k]]]]]]; [| | | | | | lia];
      (eexists; split; [reflexivity |]);
      [left | left | left | left | right | right]; split; try reflexivity;
      [left | right]; reflexivity.
Qed.

Lemma start_current_world h p :
  h = index_tsx \/ h = part_000 ->
  current_world (onStart h p) = Engine.world (started_engine (length (bodies p))).
Proof.
  intros [-> | ->]; [apply index_current_world | apply part_000_current_world].
Qed.

Lemma wall_pair m : Qmax 0 (materials m) = materials m.
Proof. destruct m; reflexivity. Qed.

(** X14.  The walls are created with the option [restitution: 1], but a
    static body carries restitution 0, and a pair is resolved with the larger
    value of the two.  So, in both copies of the page and after any sequence
    of events that follows a start, a wall and a square of the world that
    start built are resolved with the restitution of the material of the
    square, the one chosen for the left or for the right square: the bounce
    off a wall is as elastic as the square, not perfectly elastic. *)
Theorem wall_bounce_has_the_square_s_restitution :
  forall (h : Handlers) (evs : list Event) (p q : Page) (i j : nat) (w s : Body.t),
    h = index_tsx \/ h = part_000 ->
    run h (onStart h p) evs = Some q ->
    i ∈ current_world (onStart h p) ->
    j ∈ current_world (onStart h p) ->
    bodies q !! i = Some w ->
    bodies q !! j = Some s ->
    Body.isStatic w = true ->
    Body.isStatic s = false ->
    Pair.restitution w s = Body.restitution s
    /\ (Body.restitution s = materials (materialLeft p)
        \/ Body.restitution s = materials (materialRight p)).
Proof.
  intros h evs p q i j w s Hh Hrun Hi Hj Hw Hs Sw Ss.
  rewrite (start_current_world h p Hh) in Hi, Hj.
  apply world_started in Hi, Hj.
  destruct Hi as (a & Ha & ->). destruct Hj as (b & Hb & ->).
  destruct (spawned_restitution h p a Hh Ha) as (w0 & Hw0 & Kw).
  destruct (spawned_restitution h p b Hh Hb) as (s0 & Hs0 & Ks).
  destruct (kind_run h evs _ q _ Hh Hrun w0 Hw0) as (w' & Hw' & _ & Iw & Rw & _).
  destruct (kind_run h evs _ q _ Hh Hrun s0 Hs0) as (s' & Hs' & _ & Is & Rs & _).
  rewrite Hw in Hw'. apply some_eq in Hw'. subst w'.
  rewrite Hs in Hs'. apply some_eq in Hs'. subst s'.
  destruct Kw as [[_ Ew] | [Ew _]]; [| congruence].
  destruct Ks as [[Es _] | [_ Es]]; [congruence |].
  unfold Pair.restitution. rewrite Rw, Ew, Rs.
  split; [| exact Es].
  destruct Es as [-> | ->]; apply wall_pair.
Qed.

(** X14 on a page with a wood and a metal square, once the engine has moved
    the bodies: the right wall (body 3) against the wood square (body 4). *)
Lemma wall_bounce_has_the_square_s_restitution_witness :
  let p := configured 150 wood 30 metal in
  match run index_tsx (onStart index_tsx p) [EngineMoves 0 near_wall],
        current_world (onStart index_tsx p) with
  | Some q, [_; _; _; i; j; _] =>
      match bodies q !! i, bodies q !! j with
      | Some w, Some s =>
          Body.isStatic w = true /\ Body.isStatic s = false
          /\ Pair.restitution w s = 0.5
      | _, _ => False
      end
  | _, _ => False
  end.
Proof.
  intros p.
  destruct (run index_tsx (onStart index_tsx p) [EngineMoves 0 near_wall])
    as [q|] eqn:Hrun; [| vm_compute in Hrun; discriminate].
  assert (Hcw : current_world (onStart index_tsx p) = [0; 1; 2; 3; 4; 5]%nat)
    by (vm_compute; reflexivity).
  assert (I3 : 3%nat ∈ current_world (onStart index_tsx p))
    by (rewrite Hcw; repeat constructor).
  assert (I4 : 4%nat ∈ current_world (onStart index_tsx p))
    by (rewrite Hcw; repeat constructor).
  rewrite Hcw.
  destruct (bodies q !! 3%nat) as [w|] eqn:Hw;
    [| vm_compute in Hrun; apply some_eq in Hrun; subst q; discriminate Hw].
  destruct (bodies q !! 4%nat) as [s|] eqn:Hs;
    [| vm_compute in Hrun; apply some_eq in Hrun; subst q; discriminate Hs].
  assert (Sw : Body.isStatic w = true).
  { vm_compute in Hrun. apply some_eq in Hrun. subst q.
    vm_compute in Hw. apply some_eq in Hw. subst w. reflexivity. }
  assert (Ss : Body.isStatic s = false).
  { vm_compute in Hrun. apply some_eq in Hrun. subst q.
    vm_compute in Hs. apply some_eq in Hs. subst s. reflexivity. }
  assert (Rs : Body.restitution s = 0.5).
  { vm_compute in Hrun. apply some_eq in Hrun. subst q.
    vm_compute in Hs. apply some_eq in Hs. subst s. reflexivity. }
  split; [exact Sw |]. split; [exact Ss |].
  rewrite <- Rs.
  exact (proj1 (wall_bounce_has_the_square_s_restitution index_tsx _ p q 3 4 w s
                  (or_introl eq_refl) Hrun I3 I4 Hw Hs Sw Ss)).
Defined.
